(** * ERP Excel Insight Analyst: configuration store and analysis request

    A shallow embedding of the TypeScript services of the application:

    - [services/configService.ts]: templates and groups kept in the browser's
      [localStorage] as JSON texts, exported and imported as one document and
      mirrored to [EXCEL_AI.json] in a directory chosen by the user;
    - [services/fileSystemService.ts]: the wrapper around the directory
      handle;
    - [services/geminiService.ts]: the construction of the analysis request,
      the retry around the model call and the decoding of the reply;
    - the application page and the configuration manager: the start of the
      application, the restoring of the access to the directory, the choice
      of the templates of a group, and the handlers of the forms, of the
      export and of the import.

    JavaScript values that travel through [JSON.stringify] and [JSON.parse]
    are modelled by the type [json]; texts are [string]s (byte strings, read
    as UTF-8).  Exceptions are the [Throw] results of an error monad,
    asynchronous functions are run to completion, one after the other. *)

From Stdlib Require Import ZArith String Ascii List Lia.
From Stdlib Require Import DecimalString DecimalZ DecimalPos DecimalN.
From stdpp Require Import base option list gmap strings.

#[local] Arguments String.append !s1 s2 : simpl nomatch.

(** ** JavaScript values and exceptions *)

(** The values [JSON.parse] produces.  An object is the list of its members
    in the order [Object.keys] lists them, no key twice.  Numbers are kept
    as integers, and kept exactly: the services never compute with a number,
    they only test its truthiness and print it back; a number with a fraction
    or an exponent, and the rounding of an integer that a double cannot
    hold, are outside the model. *)
#[local] Unset Elimination Schemes.
Inductive json : Type :=
| JNull
| JBool (b : bool)
| JNum (n : Z)
| JStr (s : string)
| JArr (items : list json)
| JObj (fields : list (string * json)).
#[local] Set Elimination Schemes.

(** An [Error] object: its [name] and its [message]. *)
Record exn : Type := MkExn { exn_name : string; exn_message : string }.

Definition Error (msg : string) : exn := MkExn "Error" msg.
Definition TypeError (msg : string) : exn := MkExn "TypeError" msg.
Definition SyntaxError (msg : string) : exn := MkExn "SyntaxError" msg.
Definition NotAllowedError (msg : string) : exn := MkExn "NotAllowedError" msg.
Definition TypeMismatchError (msg : string) : exn := MkExn "TypeMismatchError" msg.

(** A computation that returns or throws. *)
Inductive result (A : Type) : Type :=
| Ok (a : A)
| Throw (e : exn).
Arguments Ok {A} a.
Arguments Throw {A} e.

Definition bind {A B : Type} (r : result A) (k : A -> result B) : result B :=
  match r with
  | Ok a => k a
  | Throw e => Throw e
  end.

Notation "'let*' x ':=' r 'in' k" := (bind r (fun x => k))
  (at level 10, x pattern, r at level 100, k at level 200).

Definition is_ok {A : Type} (r : result A) : bool :=
  match r with Ok _ => true | Throw _ => false end.

(** ** Characters and strings *)

Definition dquote : ascii := "034"%char.
Definition backslash : ascii := "092"%char.
Definition newline : ascii := "010"%char.

Definition dq : string := String dquote "".
Definition nl : string := String newline "".

(** [s.includes(needle)] *)
Fixpoint includes (needle s : string) : bool :=
  String.prefix needle s ||
  match s with
  | "" => false
  | String _ rest => includes needle rest
  end.

(** [xs.join(sep)] on an array of strings is [String.concat sep xs]. *)
Definition join (sep : string) (xs : list string) : string := String.concat sep xs.

(** [s.toUpperCase()] on the ASCII letters. *)
Definition upper_char (c : ascii) : ascii :=
  let n := N_of_ascii c in
  if ((97 <=? n) && (n <=? 122))%N then ascii_of_N (n - 32) else c.

Fixpoint toUpperCase (s : string) : string :=
  match s with
  | "" => ""
  | String c rest => String (upper_char c) (toUpperCase rest)
  end.

(** ** [JSON.stringify] *)

Definition hex_digit (n : N) : ascii :=
  if (n <? 10)%N then ascii_of_N (48 + n) else ascii_of_N (87 + n).

(** The escape of one character inside a JSON string literal. *)
Definition escape_char (c : ascii) : string :=
  if (c =? dquote)%char then String backslash dq
  else if (c =? backslash)%char then String backslash (String backslash "")
  else if (c =? "008")%char then String backslash "b"
  else if (c =? "009")%char then String backslash "t"
  else if (c =? "010")%char then String backslash "n"
  else if (c =? "012")%char then String backslash "f"
  else if (c =? "013")%char then String backslash "r"
  else if (N_of_ascii c <? 32)%N then
    String backslash
      (String "u" (String "0" (String "0"
         (String (hex_digit (N_of_ascii c / 16))
            (String (hex_digit (N_of_ascii c mod 16)) "")))))
  else String c "".

Fixpoint escape (s : string) : string :=
  match s with
  | "" => ""
  | String c rest => escape_char c +:+ escape rest
  end.

Definition quote (s : string) : string := dq +:+ escape s +:+ dq.

Definition string_of_Z (n : Z) : string :=
  match Z.to_int n with
  | Decimal.Pos u => NilEmpty.string_of_uint u
  | Decimal.Neg u => String "-" (NilEmpty.string_of_uint u)
  end.

(** [JSON.stringify(v)]: the compact form, members joined by a comma. *)
Fixpoint JSON_stringify (v : json) : string :=
  match v with
  | JNull => "null"
  | JBool true => "true"
  | JBool false => "false"
  | JNum n => string_of_Z n
  | JStr s => quote s
  | JArr items => "[" +:+ join "," (map JSON_stringify items) +:+ "]"
  | JObj fields =>
      "{" +:+ join ","
                (map (fun kv => quote (fst kv) +:+ ":" +:+ JSON_stringify (snd kv))
                     fields)
          +:+ "}"
  end.

(** [JSON.stringify(v, null, gap)] for a gap that is not empty: the indented
    form, one item a line.  [indent] is the indentation reached so far. *)
Fixpoint JSON_stringify_indent (gap indent : string) (v : json) : string :=
  match v with
  | JArr [] => "[]"
  | JArr items =>
      let inner := indent +:+ gap in
      "[" +:+ nl +:+ inner
          +:+ join ("," +:+ nl +:+ inner) (map (JSON_stringify_indent gap inner) items)
          +:+ nl +:+ indent +:+ "]"
  | JObj [] => "{}"
  | JObj fields =>
      let inner := indent +:+ gap in
      "{" +:+ nl +:+ inner
          +:+ join ("," +:+ nl +:+ inner)
                (map (fun kv => quote (fst kv) +:+ ": "
                                  +:+ JSON_stringify_indent gap inner (snd kv))
                     fields)
          +:+ nl +:+ indent +:+ "}"
  | _ => JSON_stringify v
  end.

(** ** [JSON.parse] *)

Definition is_ws (c : ascii) : bool :=
  (c =? " ")%char || (c =? "009")%char || (c =? "010")%char || (c =? "013")%char.

Fixpoint skip_ws (s : string) : string :=
  match s with
  | "" => ""
  | String c rest => if is_ws c then skip_ws rest else s
  end.

Definition digit_of (c : ascii) : option (Decimal.uint -> Decimal.uint) :=
  if (c =? "0")%char then Some Decimal.D0
  else if (c =? "1")%char then Some Decimal.D1
  else if (c =? "2")%char then Some Decimal.D2
  else if (c =? "3")%char then Some Decimal.D3
  else if (c =? "4")%char then Some Decimal.D4
  else if (c =? "5")%char then Some Decimal.D5
  else if (c =? "6")%char then Some Decimal.D6
  else if (c =? "7")%char then Some Decimal.D7
  else if (c =? "8")%char then Some Decimal.D8
  else if (c =? "9")%char then Some Decimal.D9
  else None.

(** The longest run of decimal digits at the head of [s]. *)
Fixpoint read_digits (s : string) : Decimal.uint * string :=
  match s with
  | "" => (Decimal.Nil, "")
  | String c rest =>
      match digit_of c with
      | Some d => let (u, rest') := read_digits rest in (d u, rest')
      | None => (Decimal.Nil, s)
      end
  end.

(** A JSON integer: an optional minus sign, then [0] or a run of digits that
    does not start with [0].  A fraction or an exponent is left in the input,
    where the caller rejects it. *)
Definition parse_number (s : string) : option (Z * string) :=
  let (neg, s1) :=
    match s with
    | String c rest => if (c =? "-")%char then (true, rest) else (false, s)
    | "" => (false, s)
    end in
  let (u, rest) := read_digits s1 in
  if Decimal.uint_beq (Decimal.unorm u) u
  then Some (if neg then (- Z.of_uint u)%Z else Z.of_uint u, rest)
  else None.

Definition hex_value (c : ascii) : option N :=
  let n := N_of_ascii c in
  if ((48 <=? n) && (n <=? 57))%N then Some (n - 48)%N
  else if ((97 <=? n) && (n <=? 102))%N then Some (n - 87)%N
  else if ((65 <=? n) && (n <=? 70))%N then Some (n - 55)%N
  else None.

(** The UTF-8 bytes of a code point of the basic plane. *)
Definition utf8 (n : N) : string :=
  if (n <? 128)%N then String (ascii_of_N n) ""
  else if (n <? 2048)%N then
    String (ascii_of_N (192 + n / 64)) (String (ascii_of_N (128 + n mod 64)) "")
  else
    String (ascii_of_N (224 + n / 4096))
      (String (ascii_of_N (128 + (n / 64) mod 64))
         (String (ascii_of_N (128 + n mod 64)) "")).

Definition hex4 (a b c d : ascii) : option N :=
  match hex_value a, hex_value b, hex_value c, hex_value d with
  | Some x, Some y, Some z, Some w => Some (((x * 16 + y) * 16 + z) * 16 + w)%N
  | _, _, _, _ => None
  end.

Definition unescape (c : ascii) : option ascii :=
  if (c =? dquote)%char then Some dquote
  else if (c =? backslash)%char then Some backslash
  else if (c =? "/")%char then Some "/"%char
  else if (c =? "b")%char then Some "008"%char
  else if (c =? "t")%char then Some "009"%char
  else if (c =? "n")%char then Some "010"%char
  else if (c =? "f")%char then Some "012"%char
  else if (c =? "r")%char then Some "013"%char
  else None.

Definition prepend (p : string) (r : option (string * string)) : option (string * string) :=
  match r with
  | Some (s, rest) => Some (p +:+ s, rest)
  | None => None
  end.

(** The characters of a string literal after its opening quote, up to the
    closing quote. *)
Fixpoint parse_chars (s : string) : option (string * string) :=
  match s with
  | "" => None
  | String c rest =>
      if (c =? dquote)%char then Some ("", rest)
      else if (c =? backslash)%char then
        match rest with
        | String e rest1 =>
            if (e =? "u")%char then
              match rest1 with
              | String h1 (String h2 (String h3 (String h4 rest2))) =>
                  match hex4 h1 h2 h3 h4 with
                  | Some n => prepend (utf8 n) (parse_chars rest2)
                  | None => None
                  end
              | _ => None
              end
            else
              match unescape e with
              | Some x => prepend (String x "") (parse_chars rest1)
              | None => None
              end
        | "" => None
        end
      else if (N_of_ascii c <? 32)%N then None
      else prepend (String c "") (parse_chars rest)
  end.

(** [s] without its prefix [word], when it has it. *)
Fixpoint expect (word s : string) : option string :=
  match word with
  | "" => Some s
  | String a word' =>
      match s with
      | String b s' => if (a =? b)%char then expect word' s' else None
      | "" => None
      end
  end.

Fixpoint parse_value (fuel : nat) (s : string) : option (json * string) :=
  match fuel with
  | O => None
  | S fuel' =>
      match skip_ws s with
      | "" => None
      | String c rest =>
          if (c =? "n")%char then
            match expect "ull" rest with Some r => Some (JNull, r) | None => None end
          else if (c =? "t")%char then
            match expect "rue" rest with Some r => Some (JBool true, r) | None => None end
          else if (c =? "f")%char then
            match expect "alse" rest with Some r => Some (JBool false, r) | None => None end
          else if (c =? dquote)%char then
            match parse_chars rest with
            | Some (str, r) => Some (JStr str, r)
            | None => None
            end
          else if (c =? "[")%char then
            match skip_ws rest with
            | String c1 r1 =>
                if (c1 =? "]")%char then Some (JArr [], r1)
                else
                  match parse_elements fuel' rest with
                  | Some (vs, r) => Some (JArr vs, r)
                  | None => None
                  end
            | "" => None
            end
          else if (c =? "{")%char then
            match skip_ws rest with
            | String c1 r1 =>
                if (c1 =? "}")%char then Some (JObj [], r1)
                else
                  match parse_members fuel' rest with
                  | Some (kvs, r) => Some (JObj kvs, r)
                  | None => None
                  end
            | "" => None
            end
          else
            match parse_number (String c rest) with
            | Some (n, r) => Some (JNum n, r)
            | None => None
            end
      end
  end

with parse_elements (fuel : nat) (s : string) : option (list json * string) :=
  match fuel with
  | O => None
  | S fuel' =>
      match parse_value fuel' s with
      | Some (v, r) =>
          match skip_ws r with
          | String c r1 =>
              if (c =? ",")%char then
                match parse_elements fuel' r1 with
                | Some (vs, r2) => Some (v :: vs, r2)
                | None => None
                end
              else if (c =? "]")%char then Some ([v], r1)
              else None
          | "" => None
          end
      | None => None
      end
  end

with parse_members (fuel : nat) (s : string) : option (list (string * json) * string) :=
  match fuel with
  | O => None
  | S fuel' =>
      match skip_ws s with
      | String c r0 =>
          if (c =? dquote)%char then
            match parse_chars r0 with
            | Some (key, r1) =>
                match skip_ws r1 with
                | String c1 r2 =>
                    if (c1 =? ":")%char then
                      match parse_value fuel' r2 with
                      | Some (v, r3) =>
                          match skip_ws r3 with
                          | String c2 r4 =>
                              if (c2 =? ",")%char then
                                match parse_members fuel' r4 with
                                | Some (kvs, r5) => Some ((key, v) :: kvs, r5)
                                | None => None
                                end
                              else if (c2 =? "}")%char then Some ([(key, v)], r4)
                              else None
                          | "" => None
                          end
                      | None => None
                      end
                    else None
                | "" => None
                end
            | None => None
            end
          else None
      | "" => None
      end
  end.

(** [JSON.parse(text)]: one value, surrounded by white space only.  The
    model reads what [JSON.stringify] of the model writes, and more, but not
    every JSON text as [JSON.parse] reads it: a number with a fraction or an
    exponent is rejected here where [JSON.parse] returns a value; an object
    is returned with its members as they are written, where [JSON.parse]
    keeps the last member of a repeated key and lists keys that are array
    indices first; and the two escapes of a surrogate pair are decoded one
    by one.  The statements on a text that is not written by the model are
    therefore made on the outcome of the parse, a value or an error. *)
Definition JSON_parse (text : string) : result json :=
  match parse_value (2 * String.length text + 2) text with
  | Some (v, rest) =>
      match skip_ws rest with
      | "" => Ok v
      | String _ _ => Throw (SyntaxError "Unexpected non-whitespace character after JSON")
      end
  | None => Throw (SyntaxError "Unexpected token in JSON")
  end.


(** ** Reading JavaScript values *)

(** The truthiness of a value, as [if (v)] and [!v] test it. *)
Definition truthy (v : json) : bool :=
  match v with
  | JNull => false
  | JBool b => b
  | JNum n => negb (n =? 0)%Z
  | JStr s => negb (String.eqb s "")
  | JArr _ | JObj _ => true
  end.

(** The truthiness of a string: not empty. *)
Definition truthy_string (s : string) : bool := negb (String.eqb s "").

(** The result of a property read is a value or [undefined], here [None]. *)
Definition truthy_opt (o : option json) : bool :=
  match o with
  | Some v => truthy v
  | None => false
  end.

(** The binding of [key] in the members of an object; of two bindings of one
    key the later one counts, as in the object [JSON.parse] builds. *)
Fixpoint lookup_field (key : string) (fields : list (string * json)) : option json :=
  match fields with
  | [] => None
  | (k, v) :: rest =>
      match lookup_field key rest with
      | Some w => Some w
      | None => if String.eqb key k then Some v else None
      end
  end.

(** [v.key], for the keys the services read ([id], [groups], [templates]):
    reading a property of [null] throws, a primitive or an array has no such
    property. *)
Definition get_prop (v : json) (key : string) : result (option json) :=
  match v with
  | JNull => Throw (TypeError "Cannot read properties of null")
  | JObj fields => Ok (lookup_field key fields)
  | _ => Ok None
  end.

(** [a === b] where at least one side was just built by [JSON.parse]:
    primitives are compared by value, two objects or arrays are never the same
    reference. *)
Definition strict_eq (a b : option json) : bool :=
  match a, b with
  | None, None => true
  | Some JNull, Some JNull => true
  | Some (JBool x), Some (JBool y) => Bool.eqb x y
  | Some (JNum x), Some (JNum y) => (x =? y)%Z
  | Some (JStr x), Some (JStr y) => String.eqb x y
  | _, _ => false
  end.

(** [list.findIndex(p)], counting from [i]; [-1] when no element passes. *)
Fixpoint findIndex_from (p : json -> result bool) (l : list json) (i : Z) : result Z :=
  match l with
  | [] => Ok (-1)%Z
  | x :: rest =>
      let* b := p x in
      if b then Ok i else findIndex_from p rest (i + 1)%Z
  end.

Definition Array_findIndex (list : json) (p : json -> result bool) : result Z :=
  match list with
  | JArr items => findIndex_from p items 0%Z
  | JNull => Throw (TypeError "Cannot read properties of null")
  | _ => Throw (TypeError "list.findIndex is not a function")
  end.

(** [list.filter(p)] *)
Fixpoint filter_items (p : json -> result bool) (l : list json) : result (list json) :=
  match l with
  | [] => Ok []
  | x :: rest =>
      let* b := p x in
      let* rest' := filter_items p rest in
      Ok (if b then x :: rest' else rest')
  end.

Definition Array_filter (list : json) (p : json -> result bool) : result json :=
  match list with
  | JArr items => let* kept := filter_items p items in Ok (JArr kept)
  | JNull => Throw (TypeError "Cannot read properties of null")
  | _ => Throw (TypeError "load(...).filter is not a function")
  end.

(** [list[index] = x] for an index inside the array, [list.push(x)]. *)
Definition Array_set (list : json) (index : Z) (x : json) : json :=
  match list with
  | JArr items => JArr (<[Z.to_nat index := x]> items)
  | _ => list
  end.

Definition Array_push (list : json) (x : json) : json :=
  match list with
  | JArr items => JArr (items ++ [x])
  | _ => list
  end.

(** ** The configuration records *)

(** Modelled from the spec: [types.ts] is not among the sources.  A template
    has an identifier, a name, a description, a system instruction text and a
    custom prompt text, all strings; the field names are those the services
    and the configuration manager read and write. *)
Record AnalysisTemplate : Type := {
  template_id : string;
  template_name : string;
  template_description : string;
  systemInstruction : string;
  customPrompt : string
}.

(** Modelled from the spec: a group has an identifier, a name, a description
    and the ordered list of the identifiers of its templates. *)
Record AnalysisGroup : Type := {
  group_id : string;
  group_name : string;
  group_description : string;
  templateIds : list string
}.

(** The object a template is at run time, its members in the order the
    configuration manager writes them. *)
Definition template_to_json (t : AnalysisTemplate) : json :=
  JObj [("id", JStr (template_id t));
        ("name", JStr (template_name t));
        ("description", JStr (template_description t));
        ("systemInstruction", JStr (systemInstruction t));
        ("customPrompt", JStr (customPrompt t))].

Definition group_to_json (g : AnalysisGroup) : json :=
  JObj [("id", JStr (group_id g));
        ("name", JStr (group_name g));
        ("description", JStr (group_description g));
        ("templateIds", JArr (map JStr (templateIds g)))].

(** ** The browser: storage, directory handle, clock, console *)

(** A node of the directory the user chose. *)
#[local] Unset Elimination Schemes.
Inductive FsNode : Type :=
| FsFile (content : string)
| FsDir (children : list (string * FsNode)).
#[local] Set Elimination Schemes.

(** The [FileSystemDirectoryHandle] kept in [rootHandle], with the directory it
    stands for (the directory the user picked, or the [ERP_AI] directory that
    [selectDirectory] opens inside it): its name, whether read-write
    permission is granted at the moment, and its entries. *)
Record DirectoryHandle : Type := {
  handle_name : string;
  granted : bool;
  entries : list (string * FsNode)
}.

(** A directory the service works in: the root, or a child of the root
    obtained from [getDir]. *)
Inductive DirRef : Type :=
| RootDir
| ChildDir (name : string).

(** What the services do to the outside, in order: the lines written to the
    console and the calls made on directory handles. *)
Inductive event : Type :=
| ConsoleLog (msg : string)
| ConsoleWarn (msg : string)
| ConsoleError (msg : string)
| FsOpenDir (name : string)
| FsListDir (dir : DirRef)
| FsReadFile (dir : DirRef) (name : string)
| FsWriteFile (dir : DirRef) (name : string) (content : string).

(** The state the services run in: the storage of the browser, the module
    variable [rootHandle], what [new Date().toISOString()] returns, and the
    events so far. *)
Record World : Type := {
  localStorage : gmap string string;
  rootHandle : option DirectoryHandle;
  now : string;
  trace : list event
}.

Definition set_localStorage (ls : gmap string string) (w : World) : World :=
  {| localStorage := ls; rootHandle := rootHandle w; now := now w; trace := trace w |}.

Definition set_rootHandle (h : option DirectoryHandle) (w : World) : World :=
  {| localStorage := localStorage w; rootHandle := h; now := now w; trace := trace w |}.

Definition emit (e : event) (w : World) : World :=
  {| localStorage := localStorage w; rootHandle := rootHandle w; now := now w;
     trace := trace w ++ [e] |}.

(** ** [fileSystemService] *)

Fixpoint lookup_entry (name : string) (l : list (string * FsNode)) : option FsNode :=
  match l with
  | [] => None
  | (n, node) :: rest => if String.eqb name n then Some node else lookup_entry name rest
  end.

(** The entry [name] replaced where it stands, or added at the end. *)
Fixpoint set_entry (name : string) (node : FsNode) (l : list (string * FsNode))
  : list (string * FsNode) :=
  match l with
  | [] => [(name, node)]
  | (n, old) :: rest =>
      if String.eqb name n then (n, node) :: rest
      else (n, old) :: set_entry name node rest
  end.

Definition isHandleReady (w : World) : bool :=
  match rootHandle w with
  | Some _ => true
  | None => false
  end.

Definition setRootHandle (handle : DirectoryHandle) (w : World) : World :=
  set_rootHandle (Some handle) w.

(** [root.getDirectoryHandle(name, { create: true })]: the root afterwards. *)
Definition getDirectoryHandle (root : DirectoryHandle) (name : string)
  : result DirectoryHandle :=
  if negb (granted root) then Throw (NotAllowedError "The request is not allowed")
  else
    match lookup_entry name (entries root) with
    | Some (FsDir _) => Ok root
    | Some (FsFile _) => Throw (TypeMismatchError "The path is a file")
    | None =>
        Ok {| handle_name := handle_name root; granted := granted root;
              entries := entries root ++ [(name, FsDir [])] |}
    end.

Definition getDir (name : string) (w : World) : option DirRef * World :=
  match rootHandle w with
  | None => (None, w)
  | Some root =>
      let w1 := emit (FsOpenDir name) w in
      match getDirectoryHandle root name with
      | Ok root' => (Some (ChildDir name), set_rootHandle (Some root') w1)
      | Throw e => (None, emit (ConsoleError ("Failed to get dir " +:+ name)) w1)
      end
  end.

(** The entries of the directory [dir] stands for. *)
Definition dir_entries (root : DirectoryHandle) (dir : DirRef)
  : result (list (string * FsNode)) :=
  match dir with
  | RootDir => Ok (entries root)
  | ChildDir name =>
      match lookup_entry name (entries root) with
      | Some (FsDir children) => Ok children
      | _ => Throw (MkExn "NotFoundError" "The directory is gone")
      end
  end.

Definition put_dir_entries (root : DirectoryHandle) (dir : DirRef)
    (l : list (string * FsNode)) : DirectoryHandle :=
  match dir with
  | RootDir =>
      {| handle_name := handle_name root; granted := granted root; entries := l |}
  | ChildDir name =>
      {| handle_name := handle_name root; granted := granted root;
         entries := set_entry name (FsDir l) (entries root) |}
  end.

(** [dir.getFileHandle(fileName, { create: true })], [createWritable()],
    [write(content)] and [close()]: the root afterwards. *)
Definition write_file (root : DirectoryHandle) (dir : DirRef) (fileName content : string)
  : result DirectoryHandle :=
  if negb (granted root) then Throw (NotAllowedError "The request is not allowed")
  else if String.eqb fileName "" then Throw (TypeError "Name is not allowed")
  else
    let* l := dir_entries root dir in
    match lookup_entry fileName l with
    | Some (FsDir _) => Throw (TypeMismatchError "The path is a directory")
    | _ => Ok (put_dir_entries root dir (set_entry fileName (FsFile content) l))
    end.

Definition writeBinaryFile (dirName fileName content : string) (w : World) : World :=
  let '(dir, w1) :=
    if truthy_string dirName then getDir dirName w
    else (match rootHandle w with Some _ => Some RootDir | None => None end, w) in
  match dir, rootHandle w1 with
  | Some d, Some root =>
      let w2 := emit (FsWriteFile d fileName content) w1 in
      match write_file root d fileName content with
      | Ok root' => set_rootHandle (Some root') w2
      | Throw e =>
          emit (ConsoleError ("Failed to write binary file " +:+ dirName +:+ "/" +:+ fileName)) w2
      end
  | _, _ => w1
  end.

(** The files met by [for await (const entry of dir.values())], each with its
    text; directories are passed over. *)
Fixpoint read_entries (dir : DirRef) (l : list (string * FsNode)) (w : World)
  : list (string * string) * World :=
  match l with
  | [] => ([], w)
  | (name, FsFile content) :: rest =>
      let '(files, w') := read_entries dir rest (emit (FsReadFile dir name) w) in
      ((name, content) :: files, w')
  | (_, FsDir _) :: rest => read_entries dir rest w
  end.

Definition readAllFiles (dirName : string) (w : World) : list (string * string) * World :=
  let '(dir, w1) :=
    if truthy_string dirName then getDir dirName w
    else (match rootHandle w with Some _ => Some RootDir | None => None end, w) in
  match dir, rootHandle w1 with
  | Some d, Some root =>
      let w2 := emit (FsListDir d) w1 in
      if negb (granted root) then
        ([], emit (ConsoleError ("Failed to read files from " +:+ dirName)) w2)
      else
        match dir_entries root d with
        | Ok l => read_entries d l w2
        | Throw e => ([], emit (ConsoleError ("Failed to read files from " +:+ dirName)) w2)
        end
  | _, _ => ([], w1)
  end.

Definition saveExcelFile (fileName content : string) (w : World) : World :=
  writeBinaryFile "excel_history" fileName content w.

(** ** [configService] *)

Definition KEYS_TEMPLATES : string := "app_templates".
Definition KEYS_GROUPS : string := "app_groups".

Definition CONFIG_FILENAME : string := "EXCEL_AI.json".

(** [localStorage.setItem(key, JSON.stringify(data))] *)
Definition save (key : string) (data : json) (w : World) : World :=
  set_localStorage (<[key := JSON_stringify data]> (localStorage w)) w.

(** [item ? JSON.parse(item) : []], where [item] is [null] for an absent key. *)
Definition load (key : string) (w : World) : result json :=
  match localStorage w !! key with
  | Some item => if truthy_string item then JSON_parse item else Ok (JArr [])
  | None => Ok (JArr [])
  end.

Definition exportConfigData (w : World) : result json :=
  let* groups := load KEYS_GROUPS w in
  let* templates := load KEYS_TEMPLATES w in
  Ok (JObj [("groups", groups);
            ("templates", templates);
            ("exportedAt", JStr (now w));
            ("version", JStr "3.0")]).

Definition importConfigData (data : json) (w : World) : result World :=
  if negb (truthy data) then Throw (Error "Invalid config file")
  else
    let* groups := get_prop data "groups" in
    let w1 := match groups with
              | Some g => if truthy g then save KEYS_GROUPS g w else w
              | None => w
              end in
    let* templates := get_prop data "templates" in
    let w2 := match templates with
              | Some t => if truthy t then save KEYS_TEMPLATES t w1 else w1
              | None => w1
              end in
    Ok w2.

(** The promise of [syncToDisk] always resolves: whatever is thrown inside is
    caught and logged. *)
Definition syncToDisk (w : World) : bool * World :=
  if negb (isHandleReady w) then (false, w)
  else
    match exportConfigData w with
    | Ok configObject =>
        let blob := JSON_stringify_indent "  " "" configObject in
        (true, writeBinaryFile "" CONFIG_FILENAME blob w)
    | Throw e => (false, emit (ConsoleError "Sync to disk failed") w)
    end.

Definition getTemplates (w : World) : result json := load KEYS_TEMPLATES w.

Definition saveTemplate (tmpl : AnalysisTemplate) (w : World) : result World :=
  let* list := load KEYS_TEMPLATES w in
  let* index :=
    Array_findIndex list
      (fun t => let* tid := get_prop t "id" in
                Ok (strict_eq tid (Some (JStr (template_id tmpl))))) in
  let list' :=
    if (index >=? 0)%Z then Array_set list index (template_to_json tmpl)
    else Array_push list (template_to_json tmpl) in
  let w1 := save KEYS_TEMPLATES list' w in
  Ok (snd (syncToDisk w1)).

Definition deleteTemplate (id : string) (w : World) : result World :=
  let* all := load KEYS_TEMPLATES w in
  let* list :=
    Array_filter all
      (fun t => let* tid := get_prop t "id" in
                Ok (negb (strict_eq tid (Some (JStr id))))) in
  let w1 := save KEYS_TEMPLATES list w in
  Ok (snd (syncToDisk w1)).

Definition getGroups (w : World) : result json := load KEYS_GROUPS w.

Definition saveGroup (group : AnalysisGroup) (w : World) : result World :=
  let* list := load KEYS_GROUPS w in
  let* index :=
    Array_findIndex list
      (fun g => let* gid := get_prop g "id" in
                Ok (strict_eq gid (Some (JStr (group_id group))))) in
  let list' :=
    if (index >=? 0)%Z then Array_set list index (group_to_json group)
    else Array_push list (group_to_json group) in
  let w1 := save KEYS_GROUPS list' w in
  Ok (snd (syncToDisk w1)).

Definition deleteGroup (id : string) (w : World) : result World :=
  let* all := load KEYS_GROUPS w in
  let* list :=
    Array_filter all
      (fun g => let* gid := get_prop g "id" in
                Ok (negb (strict_eq gid (Some (JStr id))))) in
  let w1 := save KEYS_GROUPS list w in
  Ok (snd (syncToDisk w1)).

(** [files.find(f => f.name === name)] *)
Fixpoint find_file (name : string) (files : list (string * string)) : option string :=
  match files with
  | [] => None
  | (n, content) :: rest => if String.eqb n name then Some content else find_file name rest
  end.

Definition loadAutoConfig (w : World) : bool * World :=
  if negb (isHandleReady w) then (false, w)
  else
    let '(files, w1) := readAllFiles "" w in
    match find_file CONFIG_FILENAME files with
    | Some content =>
        match (let* json := JSON_parse content in importConfigData json w1) with
        | Ok w2 => (true, emit (ConsoleLog ("Auto-loaded " +:+ CONFIG_FILENAME)) w2)
        | Throw e => (false, emit (ConsoleWarn "Failed to auto-load config") w1)
        end
    | None => (false, w1)
    end.

(** ** [geminiService] *)

(** Modelled from the spec: [types.ts] is not among the sources.  The three
    languages are the keys of the [languageName] table of the service. *)
Inductive Language : Type := zh_TW | en_US | vi_VN.

(** Modelled from the spec: an attachment of the chat, read by the service
    through [mimeType] and [content]. *)
Record ChatAttachment : Type := {
  mimeType : string;
  attachment_content : string
}.

(** Modelled from the spec: a message of the chat, read by the service
    through [role], [content] and [attachment]. *)
Record ChatMessage : Type := {
  role : string;
  message_content : string;
  attachment : option ChatAttachment
}.

(** A cell of a row, as far as the analysis reads it: the text that
    [JSON.stringify] prints for the value of the cell (a string, a number
    with or without a fraction, a boolean, [null], a date), or [None] for a
    value that [JSON.stringify] leaves out of the object ([undefined]).  Any
    text may stand here: the analysis copies it into the prompt and reads
    nothing of it. *)
Definition Cell : Type := option string.

(** The cell that holds a JSON value. *)
Definition cell_of (v : json) : Cell := Some (JSON_stringify v).

(** A row of the spreadsheet: an object from column name to cell, its members
    in the order [Object.keys] and [JSON.stringify] go through them (the
    names that are array indices first, in ascending order, then the others
    in the order they were added). *)
Definition ExcelDataRow : Type := list (string * Cell).

(** The members [JSON.stringify] prints of a row: those whose cell has a
    text. *)
Fixpoint printed_members (row : ExcelDataRow) : list string :=
  match row with
  | [] => []
  | (key, Some text) :: rest => (quote key +:+ ":" +:+ text) :: printed_members rest
  | (_, None) :: rest => printed_members rest
  end.

(** [JSON.stringify(rows)] for an array of rows. *)
Definition stringify_rows (rows : list ExcelDataRow) : string :=
  "[" +:+ join "," (map (fun row => "{" +:+ join "," (printed_members row) +:+ "}") rows)
      +:+ "]".

(** The response schema of the SDK, as far as the service uses it: strings
    with an optional enumeration (none when the list is empty), arrays and
    objects with required properties. *)
#[local] Unset Elimination Schemes.
Inductive Schema : Type :=
| SchemaString (description : string) (enum : list string)
| SchemaArray (description : string) (items : Schema)
| SchemaObject (properties : list (string * Schema)) (required : list string).
#[local] Set Elimination Schemes.

Definition analysisSchema : Schema :=
  SchemaObject
    [("summary", SchemaString "A professional executive summary of the dataset suitable for ERP reporting. If answering a user question, address it here." []);
     ("keyInsights", SchemaArray "List of 3-5 specific, actionable insights derived from the data trends." (SchemaString "" []));
     ("charts",
      SchemaArray ""
        (SchemaObject
           [("id", SchemaString "" []);
            ("title", SchemaString "" []);
            ("type", SchemaString "" ["bar"; "line"; "area"; "pie"; "scatter"; "radar"]);
            ("xAxisKey", SchemaString "Exact column name to use for the X-axis (category)." []);
            ("dataKey", SchemaString "Exact column name to use for the Y-axis (numerical value)." []);
            ("description", SchemaString "Why this chart is relevant." [])]
           ["id"; "title"; "type"; "xAxisKey"; "dataKey"; "description"]))]
    ["summary"; "keyInsights"; "charts"].

(** A part of the request: a text or inline data. *)
Inductive Part : Type :=
| TextPart (text : string)
| InlineDataPart (mime data : string).

(** The argument of [ai.models.generateContent]. *)
Record GenerateContentParameters : Type := {
  model : string;
  contents : list Part;
  responseMimeType : string;
  responseSchema : Schema;
  config_systemInstruction : string
}.

(** The reply, read through its [text], which may be [undefined]. *)
Record GenerateContentResponse : Type := {
  text : option string
}.

(** What the service does to the outside during one analysis. *)
Inductive ai_event : Type :=
| AiRequest (params : GenerateContentParameters)
| AiWarn (msg : string)
| AiSleep (ms : Z)
| AiError (msg : string).

(** The requests sent so far and the events so far. *)
Record Session : Type := {
  sent : nat;
  events : list ai_event
}.

Definition record (e : ai_event) (s : Session) : Session :=
  {| sent := sent s; events := events s ++ [e] |}.

Definition truthy_opt_string (o : option string) : bool :=
  match o with
  | Some s => truthy_string s
  | None => false
  end.

Definition languageName (language : Language) : string :=
  match language with
  | zh_TW => "Traditional Chinese (Taiwan)"
  | en_US => "English"
  | vi_VN => "Vietnamese"
  end.

Definition sampleSize : Z := 40.

(** [data.slice(0, sampleSize)] *)
Definition dataSample (data : list ExcelDataRow) : list ExcelDataRow :=
  firstn (Z.to_nat sampleSize) data.

(** [Object.keys(dataSample[0] || {}).join(', ')] *)
Definition headers (dataSample : list ExcelDataRow) : string :=
  join ", " (map fst (match dataSample with row :: _ => row | [] => [] end)).

Definition combinedInstructions (templates : list AnalysisTemplate) : string :=
  join (nl +:+ nl) (map systemInstruction templates).

Definition combinedPrompts (templates : list AnalysisTemplate) : string :=
  join (nl +:+ nl)
    (map (fun t =>
      "[Template: " +:+
      template_name t +:+
      "]
" +:+
      customPrompt t) templates).

Definition roleInstruction (language : Language) (templates : list AnalysisTemplate) : string :=
  match templates with
  | _ :: _ =>
      combinedInstructions templates +:+
      ". Always respond in " +:+
      languageName language +:+
      "."
  | [] =>
      "You are a Senior ERP Data Analysis Consultant specializing in Digiwin Workflow ERP (鼎新 ERP). Your goal is to provide actionable business intelligence. Always respond in " +:+
      languageName language +:+
      "."
  end.

Definition baseContext (dataSample : list ExcelDataRow) (templates : list AnalysisTemplate)
  : string :=
  match templates with
  | _ :: _ =>
      "
       " +:+
      combinedPrompts templates +:+
      "

       I have provided a dataset.
       Column Headers: " +:+
      headers dataSample +:+
      "
       Sample Data: " +:+
      stringify_rows dataSample +:+
      "
     "
  | [] =>
      "
    **Context:**
    The user has uploaded an Excel export from Digiwin Workflow ERP. Analyze the column headers to determine the module (Sales, Inventory, Production, Purchase, Finance).

    **Common Digiwin ERP Patterns & Analysis Strategies:**
    1. **Sales (COP)**: 'Customer', 'Sales Order', 'Product', 'Qty', 'Amount', 'Gross Margin'. 
       - *Charts*: Sales Trends (Line), Top Customers (Bar), Profit Margin (Bar).
    2. **Inventory (INV)**: 'Warehouse', 'Item No', 'Stock Qty', 'Safety Stock', 'Aging Days'. 
       - *Charts*: Stock by Warehouse (Bar/Pie), Aging Analysis (Bar), Stock vs Safety (Line).
    3. **Production (MO/SFC)**: 'MO No', 'Work Center', 'Planned Qty', 'Completed Qty', 'Scrap', 'Efficiency', 'Completion Rate'. 
       - *Charts*: Yield Rate (Line), Output by Line (Bar), Scrap Reasons (Pie).
       - *Logic*: If user asks for 'Completion Rate', use the 'Rate' column. If 'Count of MO', use 'MO No'.
    4. **Purchase (PUR)**: 'Vendor', 'PO No', 'Qty', 'Price', 'Delivery Date'. 
       - *Charts*: Spend by Vendor (Bar), Price Trends (Line).

    **Analysis Rules:**
    1. **Data Consistency**: 'dataKey' MUST be a numeric field. 'xAxisKey' MUST be a category or date field.
    2. **Chart Selection**:
       - Use **Line Chart** for dates/time trends (e.g., Daily/Monthly).
       - Use **Bar Chart** for comparing categories (e.g., Sales by Customer).
       - Use **Pie Chart** ONLY for small sets (< 8 categories).
       - Use **Scatter/Radar** for complex multi-metric comparisons.
    3. **Aggregation Logic** (Internal): 
       - If you choose a column with " +:+
      dq +:+
      "ID" +:+
      dq +:+
      ", " +:+
      dq +:+
      "No" +:+
      dq +:+
      ", or " +:+
      dq +:+
      "Code" +:+
      dq +:+
      " as 'dataKey', the system will automatically *COUNT* occurrences.
       - If you choose a column with " +:+
      dq +:+
      "Rate" +:+
      dq +:+
      ", " +:+
      dq +:+
      "Percent" +:+
      dq +:+
      ", " +:+
      dq +:+
      "Avg" +:+
      dq +:+
      " as 'dataKey', the system will automatically *AVERAGE* it.
       - Otherwise, it will *SUM* the values.
    
    **Dataset Info:**
    - Headers: " +:+
      headers dataSample +:+
      "
    - Sample Data (first " +:+
      string_of_Z sampleSize +:+
      " rows): " +:+
      stringify_rows dataSample +:+
      "
    "
  end.

(** [history.slice(-6)], each message on a line of its own. *)
Definition recentHistory (history : list ChatMessage) : string :=
  join nl
    (map (fun msg =>
      toUpperCase (role msg) +:+
      ": " +:+
      message_content msg +:+
      " " +:+
      (match attachment msg with Some _ => "[Image Attached]" | None => "" end)) (skipn (length history - 6) history)).

Definition taskPrompt (language : Language) (userPrompt : option string)
    (image : option ChatAttachment) (history : list ChatMessage) : string :=
  if truthy_opt_string userPrompt || negb (Nat.eqb (length history) 0) then
    ("
      **USER REQUEST:** " +:+
      dq +:+
      (if truthy_opt_string userPrompt then default "" userPrompt else "Based on previous context") +:+
      dq +:+
      "

      **Your Task:**
      1.  **Analyze**: Answer the User Request specifically using the provided data history.
      2.  **Summary**: Update the 'summary' to directly answer the question or explain the new perspective.
      3.  **Charts**: Generate NEW specific 'charts' that visualize the answer. 
          - *CRITICAL*: 'dataKey' MUST be a numeric column from the JSON. 'xAxisKey' MUST be a categorical or date column.
      4.  **Insights**: Update 'keyInsights' to be relevant to this specific request.
      5.  **Language**: Output STRICTLY in " +:+
      languageName language +:+
      ".
    ")
    +:+ (match image with
         | Some _ =>
      "
**Image Context**: The user has attached an image. Use visual cues from it to inform your analysis if relevant."
         | None => ""
         end)
    +:+ (match history with
         | _ :: _ =>
      "
**Conversation History** (for context only):
" +:+
      recentHistory history
         | [] => ""
         end)
  else
      "
      **Your Task:**
      Perform a comprehensive analysis of the provided ERP dataset.

      1.  **Executive Summary**: Write a professional summary of what this data represents. Identify high-level trends and anomalies.
      2.  **Key Insights**: Provide 3-5 specific, actionable bullet points. 
          - Focus on: " +:+
      dq +:+
      "What is wrong?" +:+
      dq +:+
      ", " +:+
      dq +:+
      "What is good?" +:+
      dq +:+
      ", " +:+
      dq +:+
      "What should we do?" +:+
      dq +:+
      ".
          - Example: " +:+
      dq +:+
      "Production efficiency dropped 15% in Line A due to high scrap rates." +:+
      dq +:+
      "
      3.  **Strategic Charts**: Suggest up to 4 charts to best visualize performance.
          - Choose the most relevant metrics (e.g., Amount, Qty, Rate).
      
      **Language**: Output STRICTLY in " +:+
      languageName language +:+
      ".
    ".

(** A value that satisfies a response schema: a string (one of the
    enumeration, when there is one), an array of conforming items, an object
    that has every required property and whose listed properties conform. *)
Fixpoint conforms (schema : Schema) (v : json) {struct schema} : bool :=
  match schema, v with
  | SchemaString _ enum, JStr s =>
      match enum with
      | [] => true
      | _ :: _ => existsb (String.eqb s) enum
      end
  | SchemaArray _ items, JArr l => forallb (conforms items) l
  | SchemaObject properties required, JObj fields =>
      forallb (fun key => match lookup_field key fields with
                          | Some _ => true
                          | None => false
                          end) required
      && forallb (fun p => match lookup_field (fst p) fields with
                           | Some x => conforms (snd p) x
                           | None => true
                           end) properties
  | _, _ => false
  end.

(** The parts of the request: the prompt, after the image when there is one. *)
Definition parts (dataSample : list ExcelDataRow) (language : Language)
    (userPrompt : option string) (image : option ChatAttachment)
    (history : list ChatMessage) (templates : list AnalysisTemplate) : list Part :=
  let text_part :=
    TextPart (baseContext dataSample templates
              +:+ taskPrompt language userPrompt image history) in
  match image with
  | Some img => [InlineDataPart (mimeType img) (attachment_content img); text_part]
  | None => [text_part]
  end.

(** [err.message && (err.message.includes('500') || ...)] *)
Definition is_network_error (err : exn) : bool :=
  truthy_string (exn_message err)
  && (includes "500" (exn_message err) || includes "xhr" (exn_message err)
      || includes "fetch" (exn_message err) || includes "Rpc" (exn_message err)).

Section Analysis.

(** The hosted model behind [ai.models.generateContent]: its answer to the
    request numbered [n] of a session, a reply or a thrown error. *)
Variable generateContent :
  nat -> GenerateContentParameters -> result GenerateContentResponse.

(** [process.env.API_KEY] must be set; the client is known by its key. *)
Definition createAIClient (API_KEY : option string) : result string :=
  match API_KEY with
  | Some key =>
      if truthy_string key then Ok key
      else Throw (Error "API Key is missing. Please ensure process.env.API_KEY is configured.")
  | None =>
      Throw (Error "API Key is missing. Please ensure process.env.API_KEY is configured.")
  end.

Definition performRequest (params : GenerateContentParameters) (s : Session)
  : result GenerateContentResponse * Session :=
  (generateContent (sent s) params,
   {| sent := S (sent s); events := events s ++ [AiRequest params] |}).

Definition analyzeDataWithGemini (API_KEY : option string)
    (data : list ExcelDataRow) (language : Language)
    (userPrompt : option string) (image : option ChatAttachment)
    (history : list ChatMessage) (templates : list AnalysisTemplate)
    (s : Session) : result json * Session :=
  match createAIClient API_KEY with
  | Throw e =>
      (Throw e, record (AiError "API_KEY is missing from environment variables.") s)
  | Ok ai =>
      let params :=
        {| model := "gemini-2.5-flash";
           contents := parts (dataSample data) language userPrompt image history templates;
           responseMimeType := "application/json";
           responseSchema := analysisSchema;
           config_systemInstruction := roleInstruction language templates |} in
      let '(response, s1) :=
        match performRequest params s with
        | (Ok response, s1) => (Ok response, s1)
        | (Throw err, s1) =>
            if is_network_error err then
              let s2 :=
                record (AiWarn ("Retrying Gemini request due to network/server error: "
                                +:+ exn_message err)) s1 in
              let s3 := record (AiSleep 1000) s2 in
              performRequest params s3
            else (Throw err, s1)
        end in
      let outcome :=
        let* response := response in
        if truthy_opt_string (text response)
        then JSON_parse (default "" (text response))
        else Throw (Error "No response generated from AI.") in
      match outcome with
      | Ok v => (Ok v, s1)
      | Throw error =>
          (Throw error, record (AiError ("Gemini Analysis Error: " +:+ exn_message error)) s1)
      end
  end.

End Analysis.

(** ** Definitions used in the proofs *)

(** ** Induction on JSON values *)

Section json_induction.
Variable P : json -> Prop.
Hypothesis Hnull : P JNull.
Hypothesis Hbool : forall b, P (JBool b).
Hypothesis Hnum : forall n, P (JNum n).
Hypothesis Hstr : forall s, P (JStr s).
Hypothesis Harr : forall items, Forall P items -> P (JArr items).
Hypothesis Hobj : forall fields, Forall (fun kv => P (snd kv)) fields -> P (JObj fields).

Fixpoint json_ind (v : json) : P v :=
  match v with
  | JNull => Hnull
  | JBool b => Hbool b
  | JNum n => Hnum n
  | JStr s => Hstr s
  | JArr items =>
      Harr items
        ((fix all (l : list json) : Forall P l :=
            match l with
            | [] => @List.Forall_nil _ P
            | x :: l' => @List.Forall_cons _ P x l' (json_ind x) (all l')
            end) items)
  | JObj fields =>
      Hobj fields
        ((fix all (l : list (string * json)) : Forall (fun kv => P (snd kv)) l :=
            match l with
            | [] => @List.Forall_nil _ _
            | kv :: l' => @List.Forall_cons _ _ kv l' (json_ind (snd kv)) (all l')
            end) fields)
  end.
End json_induction.

(** A text that does not go on with a digit. *)
Definition no_digit_head (s : string) : Prop :=
  match s with
  | "" => True
  | String c _ => digit_of c = None
  end.

(** The fuel [parse_value] needs to read back the text of [v]. *)
Fixpoint jsize (v : json) : nat :=
  match v with
  | JArr items => S (list_sum (map (fun x => S (jsize x)) items))
  | JObj fields => S (list_sum (map (fun kv => S (jsize (snd kv))) fields))
  | _ => 1
  end.

(** The characters a number starts with. *)
Definition num_start (c : ascii) : Prop := c = "-"%char \/ digit_of c <> None.

(** What the round trip of one value says. *)
Definition reads_back (v : json) : Prop :=
  forall fuel rest,
    jsize v <= fuel -> no_digit_head rest ->
    parse_value fuel (JSON_stringify v +:+ rest) = Some (v, rest).

(** The text of one member of an object. *)
Definition member_text (kv : string * json) : string :=
  quote (fst kv) +:+ ":" +:+ JSON_stringify (snd kv).

(** The position of the first occurrence of an identifier. *)
Fixpoint find_pos (id : string) (ids : list string) : option nat :=
  match ids with
  | [] => None
  | x :: rest =>
      if String.eqb x id then Some 0
      else match find_pos id rest with
           | Some n => Some (S n)
           | None => None
           end
  end.

(** Last write wins: the record takes the place of the first stored record
    with its identifier, or goes to the end when there is none. *)
Definition upsert {R : Type} (rid : R -> string) (r : R) (rs : list R) : list R :=
  match find_pos (rid r) (map rid rs) with
  | Some i => <[i := r]> rs
  | None => rs ++ [r]
  end.

(** The records that stay when [id] is deleted. *)
Definition without {R : Type} (rid : R -> string) (id : string) (rs : list R) : list R :=
  List.filter (fun r => negb (String.eqb (rid r) id)) rs.

(** The stored templates, and the stored groups, read as lists of records. *)
Definition stores_templates (w : World) (ts : list AnalysisTemplate) : Prop :=
  getTemplates w = Ok (JArr (map template_to_json ts)).

Definition stores_groups (w : World) (gs : list AnalysisGroup) : Prop :=
  getGroups w = Ok (JArr (map group_to_json gs)).

(** [needle] occurs in [s]. *)
Definition occurs_in (needle s : string) : Prop :=
  exists before after, s = before +:+ needle +:+ after.

(** The message has one of the substrings of a network or server error. *)
Definition network_message (msg : string) : Prop :=
  exists needle, In needle ["500"; "xhr"; "fetch"; "Rpc"] /\ occurs_in needle msg.

(** ** Sample data *)

Definition sample_template : AnalysisTemplate :=
  {| template_id := "t1";
     template_name := "Sales";
     template_description := "Monthly sales review";
     systemInstruction := "You are a sales analyst";
     customPrompt := "Rank the customers by amount" |}.

Definition sample_template_edited : AnalysisTemplate :=
  {| template_id := "t1";
     template_name := "Sales (edited)";
     template_description := "Quarterly sales review";
     systemInstruction := "You are a sales analyst";
     customPrompt := "Rank the customers by margin" |}.

Definition other_template : AnalysisTemplate :=
  {| template_id := "t2";
     template_name := "Stock";
     template_description := "Stock ageing";
     systemInstruction := "You are an inventory analyst";
     customPrompt := "List the items below safety stock" |}.

Definition sample_group : AnalysisGroup :=
  {| group_id := "g1";
     group_name := "Monthly close";
     group_description := "Reports of the monthly close";
     templateIds := ["t1"; "t2"] |}.

Definition sample_directory : DirectoryHandle :=
  {| handle_name := "ERP_AI";
     granted := true;
     entries := [("notes.txt", FsFile "hello"); ("excel_history", FsDir [])] |}.

(** A fresh browser: nothing stored, no directory chosen. *)
Definition fresh_world : World :=
  {| localStorage := ∅;
     rootHandle := None;
     now := "2024-05-01T08:30:00.000Z";
     trace := [] |}.

(** A browser with two templates and a group stored, no directory chosen. *)
Definition sample_world : World :=
  save KEYS_GROUPS (JArr [group_to_json sample_group])
    (save KEYS_TEMPLATES
       (JArr [template_to_json sample_template; template_to_json other_template])
       fresh_world).

(** The same with a directory chosen and permission granted. *)
Definition synced_world : World := setRootHandle sample_directory sample_world.

(** The member [key] of a document, when the document is an object that has
    it. *)
Definition member (data : json) (key : string) : option json :=
  match data with
  | JObj fields => lookup_field key fields
  | _ => None
  end.

(** What is stored under a key after the import of a member: the member when
    it is truthy, what was there otherwise. *)
Definition after_import (m : option json) (before : result json) : result json :=
  match m with
  | Some v => if truthy v then Ok v else before
  | None => before
  end.

(** ** The analysis request *)

(** The request [performRequest] sends. *)
Definition request_of (data : list ExcelDataRow) (language : Language)
    (userPrompt : option string) (image : option ChatAttachment)
    (history : list ChatMessage) (templates : list AnalysisTemplate)
  : GenerateContentParameters :=
  {| model := "gemini-2.5-flash";
     contents := parts (dataSample data) language userPrompt image history templates;
     responseMimeType := "application/json";
     responseSchema := analysisSchema;
     config_systemInstruction := roleInstruction language templates |}.

(** The text of the prompt, built from a sample of the data. *)
Definition prompt_of (sample : list ExcelDataRow) (language : Language)
    (userPrompt : option string) (image : option ChatAttachment)
    (history : list ChatMessage) (templates : list AnalysisTemplate) : string :=
  baseContext sample templates +:+ taskPrompt language userPrompt image history.

(** What a reply becomes: the parsed text, or the error for a reply
    without text. *)
Definition decode_reply (response : GenerateContentResponse) : result json :=
  if truthy_opt_string (text response)
  then JSON_parse (default "" (text response))
  else Throw (Error "No response generated from AI.").

(** The event logged when the analysis ends. *)
Definition closing_events (outcome : result json) : list ai_event :=
  match outcome with
  | Ok _ => []
  | Throw error => [AiError ("Gemini Analysis Error: " +:+ exn_message error)]
  end.

(** A hosted model that honours the response schema of the request: a reply
    text that is JSON is a value that conforms to the schema. *)
Definition honours_schema
    (generateContent : nat -> GenerateContentParameters -> result GenerateContentResponse)
  : Prop :=
  forall n params response t v,
    generateContent n params = Ok response ->
    text response = Some t ->
    JSON_parse t = Ok v ->
    conforms (responseSchema params) v = true.

(** The result as the specification words it: a chart descriptor carries an
    id, a title, a chart type out of six, an x-axis key, a data key and a
    description, all strings. *)
Definition chart_types : list string := ["bar"; "line"; "area"; "pie"; "scatter"; "radar"].

Definition is_chart_descriptor (v : json) : Prop :=
  exists id title type xAxisKey dataKey description,
    member v "id" = Some (JStr id) /\
    member v "title" = Some (JStr title) /\
    member v "type" = Some (JStr type) /\ In type chart_types /\
    member v "xAxisKey" = Some (JStr xAxisKey) /\
    member v "dataKey" = Some (JStr dataKey) /\
    member v "description" = Some (JStr description).

(** The result: a summary string, a list of insight strings, a list of
    chart descriptors. *)
Definition is_analysis_result (v : json) : Prop :=
  exists summary insights charts,
    member v "summary" = Some (JStr summary) /\
    member v "keyInsights" = Some (JArr (map JStr insights)) /\
    member v "charts" = Some (JArr charts) /\
    Forall is_chart_descriptor charts.

(** Sample data for the analysis: three rows, and a hosted model that fails
    once with a network error and then answers with a result that the schema
    of the request admits. *)
Definition sample_rows : list ExcelDataRow :=
  [[("Customer", cell_of (JStr "ACME")); ("Amount", Some "1200.5")];
   [("Customer", cell_of (JStr "Globex")); ("Amount", cell_of (JNum 830))];
   [("Customer", cell_of (JStr "Initech")); ("Amount", None)]].

Definition sample_reply : string :=
  JSON_stringify
    (JObj [("summary", JStr "Sales by customer");
           ("keyInsights", JArr [JStr "ACME leads"]);
           ("charts",
            JArr [JObj [("id", JStr "c1");
                        ("title", JStr "Amount by customer");
                        ("type", JStr "bar");
                        ("xAxisKey", JStr "Customer");
                        ("dataKey", JStr "Amount");
                        ("description", JStr "Compares the customers")]])]).

Definition flaky_model (n : nat) (params : GenerateContentParameters)
  : result GenerateContentResponse :=
  match n with
  | O => Throw (Error "TypeError: fetch failed")
  | S _ =>
      match JSON_parse sample_reply with
      | Ok v => if conforms (responseSchema params) v
                then Ok {| text := Some sample_reply |}
                else Throw (Error "400 Bad Request")
      | Throw e => Throw e
      end
  end.

Definition fresh_session : Session := {| sent := 0; events := [] |}.

(** A text of white space only. *)
Definition all_ws (s : string) : Prop := skip_ws s = "".

(** What the round trip of one value says for the indented form. *)
Definition reads_back_indented (v : json) : Prop :=
  forall gap indent fuel rest,
    all_ws gap -> all_ws indent ->
    jsize v <= fuel -> no_digit_head rest ->
    parse_value fuel (JSON_stringify_indent gap indent v +:+ rest) = Some (v, rest).

(** The text of one member of an object in the indented form. *)
Definition member_text_indented (gap inner : string) (kv : string * json) : string :=
  quote (fst kv) +:+ ": " +:+ JSON_stringify_indent gap inner (snd kv).

(** What [parse_elements] does after an element, and [parse_members] after
    a member. *)
Definition elements_cont (fuel : nat) (v : json) (r : string)
  : option (list json * string) :=
  match skip_ws r with
  | String c r1 =>
      if (c =? ",")%char then
        match parse_elements fuel r1 with
        | Some (vs, r2) => Some (v :: vs, r2)
        | None => None
        end
      else if (c =? "]")%char then Some ([v], r1)
      else None
  | "" => None
  end.

Definition members_cont (fuel : nat) (key : string) (v : json) (r : string)
  : option (list (string * json) * string) :=
  match skip_ws r with
  | String c2 r4 =>
      if (c2 =? ",")%char then
        match parse_members fuel r4 with
        | Some (kvs, r5) => Some ((key, v) :: kvs, r5)
        | None => None
        end
      else if (c2 =? "}")%char then Some ([(key, v)], r4)
      else None
  | "" => None
  end.

(** * The rest of the file system service and the components that call the services

    [services/fileSystemService.ts] beyond reading and writing: the handle
    kept in IndexedDB, the permission check and the directory picker; the
    start of [App.tsx] and its choice of templates; the forms of the
    configuration manager. *)

(** ** The browser around the file system service *)

(** What the page finds in the browser at one moment: what a call of
    [window.showDirectoryPicker] resolves to or rejects with ([None] in a
    browser that has no such function), the error that every request on
    IndexedDB fails with, when there is one, and the state that
    [requestPermission] resolves to, or the error it rejects with. *)
Record Browser : Type := {
  showDirectoryPicker : option (result DirectoryHandle);
  indexedDB_error : option exn;
  requestPermission : result string
}.

(** The page: the world of the services, and the object store [handles] of
    the database [ERP_AI_DB], each stored handle with the directory it gives
    access to, as that directory is when the handle is read back. *)
Record Page : Type := {
  page_world : World;
  handles : gmap string DirectoryHandle
}.

Definition KEY_ROOT : string := "root_dir".

Definition on_world (f : World -> World) (p : Page) : Page :=
  {| page_world := f (page_world p); handles := handles p |}.

(** [idb.put(handle)]: [store.put(handle, KEY_ROOT)]. *)
Definition idb_put (b : Browser) (handle : DirectoryHandle) (p : Page) : result unit * Page :=
  match indexedDB_error b with
  | Some e => (Throw e, p)
  | None =>
      (Ok tt, {| page_world := page_world p; handles := <[KEY_ROOT := handle]> (handles p) |})
  end.

(** [idb.get()]: [store.get(KEY_ROOT)], [undefined] when nothing is stored. *)
Definition idb_get (b : Browser) (p : Page) : result (option DirectoryHandle) :=
  match indexedDB_error b with
  | Some e => Throw e
  | None => Ok (handles p !! KEY_ROOT)
  end.

Definition getStoredHandle (b : Browser) (p : Page) : option DirectoryHandle * Page :=
  match idb_get b p with
  | Ok handle => (handle, p)
  | Throw e => (None, on_world (emit (ConsoleWarn "IndexedDB access failed")) p)
  end.

(** [handle.queryPermission({ mode: 'readwrite' })]: the permission the
    handle carries, granted or to be asked for. *)
Definition queryPermission (handle : DirectoryHandle) : string :=
  if granted handle then "granted" else "prompt".

(** The handle once the user has granted access. *)
Definition grant (handle : DirectoryHandle) : DirectoryHandle :=
  {| handle_name := handle_name handle; granted := true; entries := entries handle |}.

(** The answer, and the handle with the permission it has afterwards:
    [requestPermission] changes the permission the handle carries, for
    whoever holds the handle. *)
Definition verifyPermission (b : Browser) (handle : DirectoryHandle) (withPrompt : bool)
    (w : World) : (bool * DirectoryHandle) * World :=
  if String.eqb (queryPermission handle) "granted" then ((true, handle), w)
  else if withPrompt then
    match requestPermission b with
    | Ok state =>
        if String.eqb state "granted" then ((true, grant handle), w)
        else ((false, handle), w)
    | Throw e =>
        ((false, handle),
         emit (ConsoleWarn "Permission verification failed (likely security restriction):") w)
    end
  else ((false, handle), w).

(** [handle.getDirectoryHandle(name, { create: true })], as the handle of the
    directory [name] inside the directory of [handle]; the directory is
    created empty when there is none. *)
Definition getSubdirectoryHandle (handle : DirectoryHandle) (name : string)
  : result DirectoryHandle :=
  if negb (granted handle) then Throw (NotAllowedError "The request is not allowed")
  else
    match lookup_entry name (entries handle) with
    | Some (FsDir children) =>
        Ok {| handle_name := name; granted := granted handle; entries := children |}
    | Some (FsFile _) => Throw (TypeMismatchError "The path is a file")
    | None => Ok {| handle_name := name; granted := granted handle; entries := [] |}
    end.

(** The body of the [try] of [selectDirectory]: pick, enter [ERP_AI], keep the
    handle, persist it. *)
Definition pick_directory (b : Browser) (picked : result DirectoryHandle) (p : Page)
  : result string * Page :=
  match picked with
  | Throw e => (Throw e, p)
  | Ok picked_handle =>
      let '(handle, p1) :=
        if negb (String.eqb (handle_name picked_handle) "ERP_AI") then
          match getSubdirectoryHandle picked_handle "ERP_AI" with
          | Ok subHandle => (subHandle, p)
          | Throw e =>
              (picked_handle,
               on_world
                 (emit (ConsoleWarn
                   "Could not auto-create ERP_AI subfolder, using selected folder instead."))
                 p)
          end
        else (picked_handle, p) in
      let p2 := on_world (set_rootHandle (Some handle)) p1 in
      match idb_put b handle p2 with
      | (Ok _, p3) => (Ok (handle_name handle), p3)
      | (Throw e, p3) => (Throw e, p3)
      end
  end.

Definition selectDirectory (b : Browser) (p : Page) : result string * Page :=
  match showDirectoryPicker b with
  | None => (Throw (Error "This browser does not support the File System Access API."), p)
  | Some picked =>
      match pick_directory b picked p with
      | (Ok name, p') => (Ok name, p')
      | (Throw error, p') =>
          if String.eqb (exn_name error) "AbortError" then (Throw error, p')
          else if truthy_string (exn_message error)
                  && (includes "Cross origin" (exn_message error)
                      || includes "SecurityError" (exn_message error))
          then
            (Throw (Error "Local file storage is blocked in this embedded preview. Please open the app in a new tab or full window to use this feature."),
             on_world (emit (ConsoleWarn "File System Access blocked: iframe detected.")) p')
          else (Throw error, on_world (emit (ConsoleError "Directory selection failed")) p')
      end
  end.

(** ** [App]: start of the application and the choice of templates *)

(** The state of [App] that the start of the application sets: whether the
    button that restores the access is shown, and the lists of groups and
    templates, as [getGroups] and [getTemplates] returned them. *)
Record AppLists : Type := {
  showRestoreStorage : bool;
  availableGroups : json;
  availableTemplates : json
}.

(** [refreshConfigs]: the groups are set before the templates are read. *)
Definition refreshConfigs (w : World) (st : AppLists) : result unit * AppLists :=
  match getGroups w with
  | Throw e => (Throw e, st)
  | Ok groups =>
      let st1 := {| showRestoreStorage := showRestoreStorage st;
                    availableGroups := groups;
                    availableTemplates := availableTemplates st |} in
      match getTemplates w with
      | Throw e => (Throw e, st1)
      | Ok templates =>
          (Ok tt, {| showRestoreStorage := showRestoreStorage st1;
                     availableGroups := availableGroups st1;
                     availableTemplates := templates |})
      end
  end.

Definition setShowRestoreStorage (v : bool) (st : AppLists) : AppLists :=
  {| showRestoreStorage := v;
     availableGroups := availableGroups st;
     availableTemplates := availableTemplates st |}.

(** [initApp], the effect run when the application starts. *)
Definition initApp (b : Browser) (st : AppLists) (p : Page)
  : (result unit * AppLists) * Page :=
  let '(savedHandle, p1) := getStoredHandle b p in
  let '(st2, p2) :=
    match savedHandle with
    | Some handle =>
        let '((hasPermission, handle'), w2) := verifyPermission b handle false (page_world p1) in
        let w3 := setRootHandle handle' w2 in
        if hasPermission then
          (st, {| page_world := snd (loadAutoConfig w3); handles := handles p1 |})
        else
          (setShowRestoreStorage true st, {| page_world := w3; handles := handles p1 |})
    | None => (st, p1)
    end in
  (refreshConfigs (page_world p2) st2, p2).

(** The alert a handler ends with. *)
Inductive Alert : Type :=
| accessRestored
| permissionDenied.

(** [handleRestoreStorageAccess], the handler of the button that restores the
    access; [isRestoring] is set while it runs and cleared when it ends. *)
Definition handleRestoreStorageAccess (b : Browser) (st : AppLists) (p : Page)
  : (option Alert * AppLists) * Page :=
  let '(savedHandle, p1) := getStoredHandle b p in
  match savedHandle with
  | None => ((None, st), p1)
  | Some handle =>
      let '((is_granted, handle'), w2) := verifyPermission b handle true (page_world p1) in
      if is_granted then
        let w3 := setRootHandle handle' w2 in
        let w4 := snd (loadAutoConfig w3) in
        match refreshConfigs w4 st with
        | (Ok _, st1) =>
            ((Some accessRestored, setShowRestoreStorage false st1),
             {| page_world := w4; handles := handles p1 |})
        | (Throw e, st1) =>
            ((None, st1),
             {| page_world := emit (ConsoleError (exn_message e)) w4; handles := handles p1 |})
        end
      else ((Some permissionDenied, st), {| page_world := w2; handles := handles p1 |})
  end.

(** A dropped file: its name and its content. *)
Definition File : Type := (string * string)%type.

(** [ids.includes(id)] on a list of identifiers. *)
Definition includes_id (ids : list string) (id : string) : bool :=
  existsb (String.eqb id) ids.

(** [getActiveTemplates], on the state it reads; the groups and templates are
    the records the state is typed with.  [None] is [undefined]. *)
Definition getActiveTemplates (selectedContextId : string) (stagedFiles : list File)
    (groups : list AnalysisGroup) (templates : list AnalysisTemplate)
  : option (list AnalysisTemplate) :=
  if negb (truthy_string selectedContextId) then None
  else if Nat.ltb 1 (length stagedFiles) then
    match List.find (fun g => String.eqb (group_id g) selectedContextId) groups with
    | None => None
    | Some group =>
        Some (List.filter (fun t => includes_id (templateIds group) (template_id t)) templates)
    end
  else if Nat.eqb (length stagedFiles) 1 then
    match List.find (fun t => String.eqb (template_id t) selectedContextId) templates with
    | Some template => Some [template]
    | None => None
    end
  else None.

(** The staging area of [App]. *)
Record Staging : Type := {
  stagedFiles : list File;
  selectedContextId : string;
  errorMessage : string
}.

(** [handleFilesDropped]: the files are staged and a context is chosen for
    them, the first template for one file, the first group for several.  The
    first element is read of a list that is not empty. *)
Definition handleFilesDropped (files : list File)
    (groups : list AnalysisGroup) (templates : list AnalysisTemplate) : Staging :=
  {| stagedFiles := files;
     selectedContextId :=
       if Nat.eqb (length files) 1 && Nat.ltb 0 (length templates)
       then match templates with t :: _ => template_id t | [] => "" end
       else if Nat.ltb 1 (length files) && Nat.ltb 0 (length groups)
       then match groups with g :: _ => group_id g | [] => "" end
       else "";
     errorMessage := "" |}.

(** ** The configuration manager

    The manager imports [configService] from [../services/sqlService], which
    is not among the sources; where its handlers call [configService], the
    operations of the same names of [services/configService.ts] are meant. *)

(** [Partial<AnalysisGroup>] and [Partial<AnalysisTemplate>]: the record under
    edit, any field of which may be missing. *)
Record PartialGroup : Type := {
  edit_group_id : option string;
  edit_group_name : option string;
  edit_group_description : option string;
  edit_templateIds : option (list string)
}.

Record PartialTemplate : Type := {
  edit_template_id : option string;
  edit_template_name : option string;
  edit_template_description : option string;
  edit_systemInstruction : option string;
  edit_customPrompt : option string
}.

(** The state of the configuration manager: the lists it shows and the
    records under edit ([None] when no form is open). *)
Record ManagerState : Type := {
  shown_groups : json;
  shown_templates : json;
  editGroup : option PartialGroup;
  editTemplate : option PartialTemplate
}.

Definition setEditGroup (g : option PartialGroup) (st : ManagerState) : ManagerState :=
  {| shown_groups := shown_groups st; shown_templates := shown_templates st;
     editGroup := g; editTemplate := editTemplate st |}.


(** [refreshData]: the groups are set before the templates are read. *)
Definition refreshData (w : World) (st : ManagerState) : result unit * ManagerState :=
  match getGroups w with
  | Throw e => (Throw e, st)
  | Ok groups =>
      let st1 := {| shown_groups := groups; shown_templates := shown_templates st;
                    editGroup := editGroup st; editTemplate := editTemplate st |} in
      match getTemplates w with
      | Throw e => (Throw e, st1)
      | Ok templates =>
          (Ok tt, {| shown_groups := groups; shown_templates := templates;
                     editGroup := editGroup st1; editTemplate := editTemplate st1 |})
      end
  end.

(** The callback [onUpdate] that the parent may give the manager: a
    function that returns or throws, and leaves the world as it likes.  What
    it sets in the parent is the parent's own state.  [App] gives
    [refreshConfigs]. *)
Definition Callback : Type := World -> result unit * World.

(** [onUpdate?.()] *)
Definition optional_call (onUpdate : option Callback) : Callback :=
  match onUpdate with
  | Some f => f
  | None => fun w => (Ok tt, w)
  end.

(** [handleImportConfig], from the moment the file is read ([reader.onload]):
    inside one [try] the text is parsed, the document imported, the lists of
    the manager refreshed and the parent called; then the success alert is
    shown ([true]).  Whatever is thrown on the way is logged, and the error
    alert is shown ([false]), with the storage as it is by then.
    [configService.importConfigData] is [importConfigData] of
    [services/configService.ts]. *)
Definition handleImportConfig (onUpdate : option Callback) (fileText : string)
    (st : ManagerState) (w : World) : (bool * ManagerState) * World :=
  match JSON_parse fileText with
  | Throw err => ((false, st), emit (ConsoleError (exn_message err)) w)
  | Ok json =>
      match importConfigData json w with
      | Throw err => ((false, st), emit (ConsoleError (exn_message err)) w)
      | Ok w1 =>
          match refreshData w1 st with
          | (Throw err, st1) => ((false, st1), emit (ConsoleError (exn_message err)) w1)
          | (Ok _, st1) =>
              match optional_call onUpdate w1 with
              | (Throw err, w2) => ((false, st1), emit (ConsoleError (exn_message err)) w2)
              | (Ok _, w2) => ((true, st1), w2)
              end
          end
      end
  end.

(** [handleExportConfig]: the name and the text of the file offered for
    download. *)
Definition handleExportConfig (w : World) : result (string * string) :=
  let* data := exportConfigData w in
  let jsonString := JSON_stringify_indent "  " "" data in
  Ok (CONFIG_FILENAME, jsonString).



(** [toggleGroupTemplate]: the identifier is taken out of the group under
    edit when it is there, and put at the end when it is not. *)
Definition toggleGroupTemplate (tmplId : string) (st : ManagerState) : ManagerState :=
  match editGroup st with
  | None => st
  | Some edit =>
      let currentIds := default [] (edit_templateIds edit) in
      let ids :=
        if includes_id currentIds tmplId
        then List.filter (fun id => negb (String.eqb id tmplId)) currentIds
        else currentIds ++ [tmplId] in
      setEditGroup
        (Some {| edit_group_id := edit_group_id edit;
                 edit_group_name := edit_group_name edit;
                 edit_group_description := edit_group_description edit;
                 edit_templateIds := Some ids |})
        st
  end.




(** ** Notions for the properties of the rest of the code *)

(** The files of a directory in the order of its entries, each with its
    text; the directories among the entries are left out. *)
Fixpoint files_of (l : list (string * FsNode)) : list (string * string) :=
  match l with
  | [] => []
  | (name, FsFile content) :: rest => (name, content) :: files_of rest
  | (_, FsDir _) :: rest => files_of rest
  end.

(** The file [EXCEL_AI.json] in the directory of the handle mirrors the
    store: it holds a JSON text whose members [groups] and [templates] are
    what [getGroups] and [getTemplates] return. *)
Definition mirrored (w : World) : Prop :=
  exists root text doc groups templates,
    rootHandle w = Some root /\
    lookup_entry CONFIG_FILENAME (entries root) = Some (FsFile text) /\
    JSON_parse text = Ok doc /\
    getGroups w = Ok groups /\
    getTemplates w = Ok templates /\
    member doc "groups" = Some groups /\
    member doc "templates" = Some templates.

(** A directory in which the service can write [EXCEL_AI.json]: permission
    is granted and no directory has that name. *)
Definition writable_root (root : DirectoryHandle) : Prop :=
  granted root = true /\
  forall children, lookup_entry CONFIG_FILENAME (entries root) <> Some (FsDir children).

(** The entries of the directory [name] inside the directory of the handle;
    none when there is no such directory. *)
Definition children_of (name : string) (root : DirectoryHandle) : list (string * FsNode) :=
  match lookup_entry name (entries root) with
  | Some (FsDir children) => children
  | _ => []
  end.

(** The directory of the handle after [writeBinaryFile], whether the write
    succeeds or fails: what [getDirectoryHandle] and the write leave. *)
Definition write_in (dirName fileName content : string) (root : DirectoryHandle)
  : DirectoryHandle :=
  if truthy_string dirName then
    match getDirectoryHandle root dirName with
    | Ok root1 =>
        match write_file root1 (ChildDir dirName) fileName content with
        | Ok root2 => root2
        | Throw _ => root1
        end
    | Throw _ => root
    end
  else
    match write_file root RootDir fileName content with
    | Ok root1 => root1
    | Throw _ => root
    end.

(** The message of an error tells that the page is embedded in a frame of
    another origin. *)
Definition blocked_message (msg : string) : Prop :=
  occurs_in "Cross origin" msg \/ occurs_in "SecurityError" msg.

(** The error [selectDirectory] throws in an embedded page. *)
Definition blocked_error : exn :=
  Error "Local file storage is blocked in this embedded preview. Please open the app in a new tab or full window to use this feature.".

(** The handle [selectDirectory] keeps for a picked directory: the
    directory [ERP_AI] inside it, unless the picked directory has that name
    or the directory inside cannot be had. *)
Definition kept_handle (picked : DirectoryHandle) : DirectoryHandle :=
  if String.eqb (handle_name picked) "ERP_AI" then picked
  else
    match getSubdirectoryHandle picked "ERP_AI" with
    | Ok subHandle => subHandle
    | Throw _ => picked
    end.



(** The group under edit with other template identifiers. *)
Definition with_templateIds (ids : list string) (edit : PartialGroup) : PartialGroup :=
  {| edit_group_id := edit_group_id edit;
     edit_group_name := edit_group_name edit;
     edit_group_description := edit_group_description edit;
     edit_templateIds := Some ids |}.

(** The event is a request to the hosted model; the event is a logged
    error. *)
Definition is_request (e : ai_event) : bool :=
  match e with
  | AiRequest _ => true
  | _ => false
  end.

Definition is_logged_error (e : ai_event) : bool :=
  match e with
  | AiError _ => true
  | _ => false
  end.

(** * Properties *)

(** ** The JSON codec round trip *)



Lemma append_assoc (a b c : string) : (a +:+ b) +:+ c = a +:+ (b +:+ c).
Proof. induction a as [|x a IH]; simpl; [reflexivity | now rewrite IH]. Qed.

Lemma append_nil_r (a : string) : a +:+ "" = a.
Proof. induction a as [|x a IH]; simpl; [reflexivity | now rewrite IH]. Qed.

Lemma length_append (a b : string) :
  String.length (a +:+ b) = String.length a + String.length b.
Proof. induction a as [|x a IH]; simpl; [reflexivity | now rewrite IH]. Qed.

Lemma read_digits_string_of_uint (u : Decimal.uint) (rest : string) :
  no_digit_head rest ->
  read_digits (NilEmpty.string_of_uint u +:+ rest) = (u, rest).
Proof.
  intros Hrest.
  induction u as [|u IH|u IH|u IH|u IH|u IH|u IH|u IH|u IH|u IH|u IH]; simpl;
    try (rewrite IH; reflexivity).
  destruct rest as [|c rest']; simpl in *; [reflexivity | now rewrite Hrest].
Qed.

Lemma unorm_to_uint (p : positive) : Decimal.unorm (Pos.to_uint p) = Pos.to_uint p.
Proof.
  rewrite <- DecimalPos.Unsigned.to_of.
  now rewrite DecimalPos.Unsigned.of_to.
Qed.

Lemma Z_of_uint_to_uint (p : positive) : Z.of_uint (Pos.to_uint p) = Z.pos p.
Proof.
  unfold Z.of_uint. change (Pos.of_uint (Pos.to_uint p)) with (N.of_uint (Pos.to_uint p)).
  fold (N.of_uint (Pos.to_uint p)).
  now rewrite DecimalPos.Unsigned.of_to.
Qed.

Lemma uint_beq_refl (u : Decimal.uint) : Decimal.uint_beq u u = true.
Proof. now apply Decimal.internal_uint_dec_lb. Qed.

Lemma digit_head_to_uint (p : positive) :
  exists c r, NilEmpty.string_of_uint (Pos.to_uint p) = String c r /\ digit_of c <> None.
Proof.
  pose proof (DecimalPos.Unsigned.to_uint_nonnil p) as Hn.
  destruct (Pos.to_uint p); [congruence | ..]; simpl; eexists _, _; (split; [reflexivity | discriminate]).
Qed.

Lemma parse_number_string_of_Z (n : Z) (rest : string) :
  no_digit_head rest ->
  parse_number (string_of_Z n +:+ rest) = Some (n, rest).
Proof.
  intros Hrest. unfold string_of_Z, parse_number.
  destruct n as [|p|p]; simpl Z.to_int; cbv iota.
  - simpl. destruct rest as [|c rest']; simpl in *; [reflexivity | now rewrite Hrest].
  - destruct (digit_head_to_uint p) as (c & r & Hc & Hd).
    assert (Hm : (c =? "-")%char = false).
    { destruct (Ascii.eqb_spec c "-"); [subst c; now elim Hd | reflexivity]. }
    pose proof (read_digits_string_of_uint (Pos.to_uint p) rest Hrest) as Hr.
    rewrite Hc in *. simpl append in *. cbv beta iota. rewrite Hm, Hr.
    rewrite unorm_to_uint, uint_beq_refl, Z_of_uint_to_uint. reflexivity.
  - simpl append. cbv beta iota. rewrite Ascii.eqb_refl.
    rewrite (read_digits_string_of_uint _ _ Hrest).
    rewrite unorm_to_uint, uint_beq_refl, Z_of_uint_to_uint. reflexivity.
Qed.

Lemma parse_chars_escape_char (c : ascii) (t : string) :
  parse_chars (escape_char c +:+ t) = prepend (String c "") (parse_chars t).
Proof.
  destruct c as [[] [] [] [] [] [] [] []]; reflexivity.
Qed.

Lemma parse_chars_escape (s rest : string) :
  parse_chars (escape s +:+ String dquote rest) = Some (s, rest).
Proof.
  induction s as [|c s IH]; simpl.
  - reflexivity.
  - rewrite append_assoc, parse_chars_escape_char. now rewrite IH.
Qed.

Lemma num_start_dispatch (c : ascii) :
  num_start c ->
  is_ws c = false /\ (c =? "n")%char = false /\ (c =? "t")%char = false /\
  (c =? "f")%char = false /\ (c =? dquote)%char = false /\
  (c =? "[")%char = false /\ (c =? "{")%char = false /\
  (c =? "]")%char = false /\ (c =? "}")%char = false.
Proof.
  intros [-> | Hd]; [repeat split; reflexivity |].
  destruct c as [[] [] [] [] [] [] [] []]; try (exfalso; apply Hd; reflexivity);
    repeat split; reflexivity.
Qed.

Lemma string_of_Z_head (n : Z) :
  exists c r, string_of_Z n = String c r /\ num_start c.
Proof.
  unfold string_of_Z. destruct n as [|p|p]; simpl Z.to_int; cbv iota.
  - eexists _, _; split; [reflexivity | right; discriminate].
  - destruct (digit_head_to_uint p) as (c & r & Hc & Hd).
    exists c, r; split; [assumption | now right].
  - eexists _, _; split; [reflexivity | now left].
Qed.

(** The first character of a value's text: neither white space nor a
    closing bracket. *)
Lemma JSON_stringify_head (v : json) :
  exists c r, JSON_stringify v = String c r /\
    is_ws c = false /\ (c =? "]")%char = false /\ (c =? "}")%char = false.
Proof.
  destruct v as [|[]|n|s|items|fields]; simpl;
    try (eexists _, _; split; [reflexivity | repeat split; reflexivity]).
  destruct (string_of_Z_head n) as (c & r & Hc & Hs).
  exists c, r; split; [assumption |].
  destruct (num_start_dispatch c Hs) as (? & _ & _ & _ & _ & _ & _ & ? & ?); auto.
Qed.

Lemma skip_ws_head (c : ascii) (r : string) :
  is_ws c = false -> skip_ws (String c r) = String c r.
Proof. intros H; simpl; now rewrite H. Qed.

Lemma parse_value_eq (fuel : nat) (s : string) :
  parse_value (S fuel) s =
  match skip_ws s with
  | "" => None
  | String c rest =>
      if (c =? "n")%char then
        match expect "ull" rest with Some r => Some (JNull, r) | None => None end
      else if (c =? "t")%char then
        match expect "rue" rest with Some r => Some (JBool true, r) | None => None end
      else if (c =? "f")%char then
        match expect "alse" rest with Some r => Some (JBool false, r) | None => None end
      else if (c =? dquote)%char then
        match parse_chars rest with
        | Some (str, r) => Some (JStr str, r)
        | None => None
        end
      else if (c =? "[")%char then
        match skip_ws rest with
        | String c1 r1 =>
            if (c1 =? "]")%char then Some (JArr [], r1)
            else
              match parse_elements fuel rest with
              | Some (vs, r) => Some (JArr vs, r)
              | None => None
              end
        | "" => None
        end
      else if (c =? "{")%char then
        match skip_ws rest with
        | String c1 r1 =>
            if (c1 =? "}")%char then Some (JObj [], r1)
            else
              match parse_members fuel rest with
              | Some (kvs, r) => Some (JObj kvs, r)
              | None => None
              end
        | "" => None
        end
      else
        match parse_number (String c rest) with
        | Some (n, r) => Some (JNum n, r)
        | None => None
        end
  end.
Proof. reflexivity. Qed.

Lemma parse_elements_eq (fuel : nat) (s : string) :
  parse_elements (S fuel) s =
  match parse_value fuel s with
  | Some (v, r) =>
      match skip_ws r with
      | String c r1 =>
          if (c =? ",")%char then
            match parse_elements fuel r1 with
            | Some (vs, r2) => Some (v :: vs, r2)
            | None => None
            end
          else if (c =? "]")%char then Some ([v], r1)
          else None
      | "" => None
      end
  | None => None
  end.
Proof. reflexivity. Qed.

Lemma parse_members_eq (fuel : nat) (s : string) :
  parse_members (S fuel) s =
  match skip_ws s with
  | String c r0 =>
      if (c =? dquote)%char then
        match parse_chars r0 with
        | Some (key, r1) =>
            match skip_ws r1 with
            | String c1 r2 =>
                if (c1 =? ":")%char then
                  match parse_value fuel r2 with
                  | Some (v, r3) =>
                      match skip_ws r3 with
                      | String c2 r4 =>
                          if (c2 =? ",")%char then
                            match parse_members fuel r4 with
                            | Some (kvs, r5) => Some ((key, v) :: kvs, r5)
                            | None => None
                            end
                          else if (c2 =? "}")%char then Some ([(key, v)], r4)
                          else None
                      | "" => None
                      end
                  | None => None
                  end
                else None
            | "" => None
            end
        | None => None
        end
      else None
  | "" => None
  end.
Proof. reflexivity. Qed.

Lemma parse_elements_join (items : list json) :
  Forall reads_back items -> items <> [] ->
  forall fuel rest,
    list_sum (map (fun x => S (jsize x)) items) <= fuel ->
    parse_elements fuel (join "," (map JSON_stringify items) +:+ String "]" rest)
    = Some (items, rest).
Proof.
  induction 1 as [|x items Hx Hitems IH]; [congruence | intros _ fuel rest Hfuel].
  destruct fuel as [|fuel]; [simpl in Hfuel; lia |].
  rewrite parse_elements_eq.
  destruct items as [|y items].
  - simpl in *. rewrite Hx by (first [lia | exact eq_refl]).
    reflexivity.
  - change (join "," (map JSON_stringify (x :: y :: items)))
      with (JSON_stringify x +:+ "," +:+ join "," (map JSON_stringify (y :: items))).
    rewrite !append_assoc.
    simpl in Hfuel.
    rewrite Hx by (first [lia | exact eq_refl]).
    simpl skip_ws. cbv beta iota. simpl Ascii.eqb. cbv iota.
    rewrite IH; [reflexivity | congruence | simpl; lia].
Qed.

Lemma parse_members_join (fields : list (string * json)) :
  Forall (fun kv => reads_back (snd kv)) fields -> fields <> [] ->
  forall fuel rest,
    list_sum (map (fun kv => S (jsize (snd kv))) fields) <= fuel ->
    parse_members fuel (join "," (map member_text fields) +:+ String "}" rest)
    = Some (fields, rest).
Proof.
  induction 1 as [|[k x] fields Hx Hfields IH]; [congruence | intros _ fuel rest Hfuel].
  destruct fuel as [|fuel]; [simpl in Hfuel; lia |].
  rewrite parse_members_eq. simpl in Hx.
  destruct fields as [|y fields].
  - simpl join. unfold member_text, quote. simpl fst; simpl snd.
    rewrite !append_assoc. simpl skip_ws. cbv beta iota.
    change ((dquote =? dquote)%char) with true. cbv iota.
    rewrite parse_chars_escape.
    simpl skip_ws. cbv beta iota. simpl Ascii.eqb. cbv iota.
    simpl in Hfuel.
    rewrite Hx by (first [lia | exact eq_refl]).
    reflexivity.
  - change (join "," (map member_text ((k, x) :: y :: fields)))
      with (member_text (k, x) +:+ "," +:+ join "," (map member_text (y :: fields))).
    unfold member_text at 1, quote. simpl fst; simpl snd.
    rewrite !append_assoc. simpl skip_ws. cbv beta iota.
    change ((dquote =? dquote)%char) with true. cbv iota.
    rewrite parse_chars_escape.
    simpl skip_ws. cbv beta iota. simpl Ascii.eqb. cbv iota.
    simpl in Hfuel.
    rewrite Hx by (first [lia | exact eq_refl]).
    simpl skip_ws. cbv beta iota. simpl Ascii.eqb. cbv iota.
    rewrite IH; [reflexivity | congruence | simpl; lia].
Qed.

Lemma JSON_stringify_arr (items : list json) :
  JSON_stringify (JArr items) = "[" +:+ join "," (map JSON_stringify items) +:+ "]".
Proof. reflexivity. Qed.

Lemma JSON_stringify_obj (fields : list (string * json)) :
  JSON_stringify (JObj fields) = "{" +:+ join "," (map member_text fields) +:+ "}".
Proof. reflexivity. Qed.

Lemma parse_value_stringify (v : json) : reads_back v.
Proof.
  induction v as [|b|n|s|items IH|fields IH] using json_ind;
    intros fuel rest Hfuel Hrest;
    (destruct fuel as [|fuel]; [simpl in Hfuel; lia |]);
    rewrite parse_value_eq.
  - reflexivity.
  - destruct b; reflexivity.
  - simpl JSON_stringify.
    destruct (string_of_Z_head n) as (c & r & Hc & Hs).
    destruct (num_start_dispatch c Hs) as (Hw & Hn & Ht & Hf & Hq & Ha & Ho & _ & _).
    pose proof (parse_number_string_of_Z n rest Hrest) as Hp.
    rewrite Hc in *. simpl append in *.
    rewrite (skip_ws_head _ _ Hw), Hn, Ht, Hf, Hq, Ha, Ho, Hp. reflexivity.
  - simpl JSON_stringify. unfold quote, dq. simpl append. rewrite append_assoc.
    simpl append. rewrite skip_ws_head by reflexivity.
    change ((dquote =? "n")%char) with false. change ((dquote =? "t")%char) with false.
    change ((dquote =? "f")%char) with false. change ((dquote =? dquote)%char) with true.
    cbv iota. now rewrite parse_chars_escape.
  - rewrite JSON_stringify_arr. simpl append. rewrite append_assoc. simpl append.
    rewrite skip_ws_head by reflexivity. simpl Ascii.eqb. cbv iota.
    destruct items as [|x items].
    + reflexivity.
    + destruct (JSON_stringify_head x) as (c & r & Hc & Hw & Hb & _).
      assert (Hhd : exists r', join "," (map JSON_stringify (x :: items)) +:+ String "]" rest
                               = String c r').
      { destruct items; simpl; rewrite Hc; simpl; eauto. }
      destruct Hhd as (r' & Hhd).
      rewrite (parse_elements_join (x :: items) IH) by (congruence || (simpl in *; lia)).
      rewrite Hhd, (skip_ws_head _ _ Hw), Hb. reflexivity.
  - rewrite JSON_stringify_obj. simpl append. rewrite append_assoc. simpl append.
    rewrite skip_ws_head by reflexivity. simpl Ascii.eqb. cbv iota.
    destruct fields as [|[k x] fields].
    + reflexivity.
    + assert (Hhd : exists r', join "," (map member_text ((k, x) :: fields)) +:+ String "}" rest
                               = String dquote r').
      { destruct fields; simpl; unfold member_text, quote, dq; simpl; eauto. }
      destruct Hhd as (r' & Hhd).
      rewrite (parse_members_join ((k, x) :: fields) IH) by (congruence || (simpl in *; lia)).
      rewrite Hhd, skip_ws_head by reflexivity. reflexivity.
Qed.

Lemma string_of_Z_length (n : Z) : 1 <= String.length (string_of_Z n).
Proof.
  destruct (string_of_Z_head n) as (c & r & -> & _). simpl. lia.
Qed.

Lemma jsize_elements_length (items : list json) :
  Forall (fun x => jsize x <= 2 * String.length (JSON_stringify x)) items ->
  list_sum (map (fun x => S (jsize x)) items)
  <= 2 * String.length (join "," (map JSON_stringify items)) + 1.
Proof.
  induction 1 as [|x items Hx _ IH]; [simpl; lia |].
  destruct items as [|y items].
  - simpl in *. lia.
  - change (join "," (map JSON_stringify (x :: y :: items)))
      with (JSON_stringify x +:+ "," +:+ join "," (map JSON_stringify (y :: items))).
    rewrite !length_append. simpl in *. lia.
Qed.

Lemma jsize_members_length (fields : list (string * json)) :
  Forall (fun kv => jsize (snd kv) <= 2 * String.length (JSON_stringify (snd kv))) fields ->
  list_sum (map (fun kv => S (jsize (snd kv))) fields)
  <= 2 * String.length (join "," (map member_text fields)) + 1.
Proof.
  induction 1 as [|[k x] fields Hx _ IH]; [simpl; lia |].
  destruct fields as [|y fields].
  - simpl in *. unfold member_text. rewrite !length_append. simpl in *. lia.
  - change (join "," (map member_text ((k, x) :: y :: fields)))
      with (member_text (k, x) +:+ "," +:+ join "," (map member_text (y :: fields))).
    unfold member_text at 1. rewrite !length_append. simpl in *. lia.
Qed.

Lemma jsize_length (v : json) : jsize v <= 2 * String.length (JSON_stringify v).
Proof.
  induction v as [|b|n|s|items IH|fields IH] using json_ind.
  - simpl. lia.
  - destruct b; simpl; lia.
  - pose proof (string_of_Z_length n). simpl. lia.
  - simpl. unfold quote. rewrite !length_append. simpl. lia.
  - pose proof (jsize_elements_length items IH).
    rewrite JSON_stringify_arr, !length_append. simpl. lia.
  - pose proof (jsize_members_length fields IH).
    rewrite JSON_stringify_obj, !length_append. simpl. lia.
Qed.

(** [JSON.parse(JSON.stringify(v))] is [v]. *)
Lemma JSON_parse_stringify (v : json) : JSON_parse (JSON_stringify v) = Ok v.
Proof.
  unfold JSON_parse.
  pose proof (jsize_length v) as Hlen.
  pose proof (parse_value_stringify v (2 * String.length (JSON_stringify v) + 2) "") as Hp.
  rewrite append_nil_r in Hp. rewrite Hp by (simpl; trivial; lia). reflexivity.
Qed.

(** ** The round trip of the indented form *)

Lemma skip_ws_app (a b : string) : all_ws a -> skip_ws (a +:+ b) = skip_ws b.
Proof.
  unfold all_ws. induction a as [|c a IH]; simpl; [reflexivity |].
  destruct (is_ws c); [exact IH | discriminate].
Qed.

Lemma all_ws_app (a b : string) : all_ws a -> all_ws b -> all_ws (a +:+ b).
Proof. intros Ha Hb. unfold all_ws. now rewrite skip_ws_app. Qed.

Lemma all_ws_nl (a : string) : all_ws a -> all_ws (nl +:+ a).
Proof. intros Ha. exact Ha. Qed.

(** White space before a value, an element or a member is passed over. *)
Lemma parse_value_skip_ws (fuel : nat) (ws s : string) :
  all_ws ws -> parse_value fuel (ws +:+ s) = parse_value fuel s.
Proof.
  intros Hws. destruct fuel as [|fuel]; [reflexivity |].
  now rewrite !parse_value_eq, skip_ws_app.
Qed.

Lemma parse_elements_cont (fuel : nat) (s : string) :
  parse_elements (S fuel) s
  = match parse_value fuel s with
    | Some (v, r) => elements_cont fuel v r
    | None => None
    end.
Proof. reflexivity. Qed.

Lemma elements_cont_comma (fuel : nat) (v : json) (t : string) :
  elements_cont fuel v ("," +:+ t)
  = match parse_elements fuel t with
    | Some (vs, r2) => Some (v :: vs, r2)
    | None => None
    end.
Proof. reflexivity. Qed.

Lemma elements_cont_end (fuel : nat) (v : json) (ws rest : string) :
  all_ws ws -> elements_cont fuel v (ws +:+ String "]" rest) = Some ([v], rest).
Proof. intros Hws. unfold elements_cont. now rewrite skip_ws_app. Qed.

Lemma members_cont_comma (fuel : nat) (key : string) (v : json) (t : string) :
  members_cont fuel key v ("," +:+ t)
  = match parse_members fuel t with
    | Some (kvs, r5) => Some ((key, v) :: kvs, r5)
    | None => None
    end.
Proof. reflexivity. Qed.

Lemma members_cont_end (fuel : nat) (key : string) (v : json) (ws rest : string) :
  all_ws ws -> members_cont fuel key v (ws +:+ String "}" rest) = Some ([(key, v)], rest).
Proof. intros Hws. unfold members_cont. now rewrite skip_ws_app. Qed.

(** A member: white space, the key, a colon, white space, the value. *)
Lemma parse_members_step (fuel : nat) (ws key ws' t : string) :
  all_ws ws -> all_ws ws' ->
  parse_members (S fuel) (ws +:+ quote key +:+ (":" +:+ ws') +:+ t)
  = match parse_value fuel t with
    | Some (v, r3) => members_cont fuel key v r3
    | None => None
    end.
Proof.
  intros Hws Hws'. rewrite parse_members_eq, skip_ws_app by assumption.
  unfold quote, dq. rewrite !append_assoc. simpl append.
  rewrite skip_ws_head by reflexivity.
  change ((dquote =? dquote)%char) with true. cbv iota.
  rewrite parse_chars_escape.
  rewrite skip_ws_head by reflexivity.
  change ((":" =? ":")%char) with true. cbv iota.
  now rewrite parse_value_skip_ws.
Qed.

Lemma parse_elements_skip_ws (fuel : nat) (ws s : string) :
  all_ws ws -> parse_elements fuel (ws +:+ s) = parse_elements fuel s.
Proof.
  intros Hws. destruct fuel as [|fuel]; [reflexivity |].
  now rewrite !parse_elements_cont, parse_value_skip_ws.
Qed.

Lemma parse_members_skip_ws (fuel : nat) (ws s : string) :
  all_ws ws -> parse_members fuel (ws +:+ s) = parse_members fuel s.
Proof.
  intros Hws. destruct fuel as [|fuel]; [reflexivity |].
  now rewrite !parse_members_eq, skip_ws_app.
Qed.

Lemma join_one (sep x : string) : join sep [x] = x.
Proof. reflexivity. Qed.

Lemma join_cons (sep x y : string) (l : list string) :
  join sep (x :: y :: l) = x +:+ sep +:+ join sep (y :: l).
Proof. reflexivity. Qed.

(** The text of a list, one item after the other, regrouped for the parser:
    the item, the comma, the white space, the items that follow. *)
Lemma items_text_cons (x inner j tail : string) :
  (x +:+ ("," +:+ nl +:+ inner) +:+ j) +:+ tail
  = x +:+ ("," +:+ ((nl +:+ inner) +:+ (j +:+ tail))).
Proof. now rewrite !append_assoc. Qed.

Lemma member_text_indented_app (gap inner : string) (kv : string * json) (t : string) :
  member_text_indented gap inner kv +:+ t
  = "" +:+ quote (fst kv) +:+ (":" +:+ " ")
       +:+ (JSON_stringify_indent gap inner (snd kv) +:+ t).
Proof. unfold member_text_indented. now rewrite !append_assoc. Qed.

Lemma JSON_stringify_indent_arr (gap indent : string) (x : json) (items : list json) :
  JSON_stringify_indent gap indent (JArr (x :: items))
  = "[" +:+ (nl +:+ indent +:+ gap)
        +:+ (join ("," +:+ nl +:+ indent +:+ gap)
               (map (JSON_stringify_indent gap (indent +:+ gap)) (x :: items))
             +:+ (nl +:+ indent) +:+ "]").
Proof. cbn [JSON_stringify_indent]. now rewrite !append_assoc. Qed.

Lemma JSON_stringify_indent_obj (gap indent : string) (kv : string * json)
    (fields : list (string * json)) :
  JSON_stringify_indent gap indent (JObj (kv :: fields))
  = "{" +:+ (nl +:+ indent +:+ gap)
        +:+ (join ("," +:+ nl +:+ indent +:+ gap)
               (map (member_text_indented gap (indent +:+ gap)) (kv :: fields))
             +:+ (nl +:+ indent) +:+ "}").
Proof. cbn [JSON_stringify_indent]. now rewrite !append_assoc. Qed.

Lemma parse_elements_join_indented (gap inner outer : string) (items : list json) :
  all_ws gap -> all_ws inner -> all_ws outer ->
  Forall reads_back_indented items -> items <> [] ->
  forall fuel rest,
    list_sum (map (fun x => S (jsize x)) items) <= fuel ->
    parse_elements fuel
      (join ("," +:+ nl +:+ inner) (map (JSON_stringify_indent gap inner) items)
       +:+ (nl +:+ outer) +:+ String "]" rest)
    = Some (items, rest).
Proof.
  intros Hgap Hin Hout.
  induction 1 as [|x items Hx Hitems IH]; [congruence | intros _ fuel rest Hfuel].
  destruct fuel as [|fuel]; [simpl in Hfuel; lia |].
  rewrite parse_elements_cont. simpl in Hfuel.
  destruct items as [|y items]; cbn [map].
  - rewrite join_one.
    rewrite Hx by first [assumption | lia | exact eq_refl].
    now apply elements_cont_end, all_ws_nl.
  - rewrite join_cons, items_text_cons.
    rewrite Hx by first [assumption | lia | exact eq_refl].
    rewrite elements_cont_comma, parse_elements_skip_ws by now apply all_ws_nl.
    change (JSON_stringify_indent gap inner y :: map (JSON_stringify_indent gap inner) items)
      with (map (JSON_stringify_indent gap inner) (y :: items)).
    rewrite IH; [reflexivity | congruence | simpl in *; lia].
Qed.

Lemma parse_members_join_indented (gap inner outer : string)
    (fields : list (string * json)) :
  all_ws gap -> all_ws inner -> all_ws outer ->
  Forall (fun kv => reads_back_indented (snd kv)) fields -> fields <> [] ->
  forall fuel rest,
    list_sum (map (fun kv => S (jsize (snd kv))) fields) <= fuel ->
    parse_members fuel
      (join ("," +:+ nl +:+ inner) (map (member_text_indented gap inner) fields)
       +:+ (nl +:+ outer) +:+ String "}" rest)
    = Some (fields, rest).
Proof.
  intros Hgap Hin Hout.
  induction 1 as [|[k x] fields Hx Hfields IH]; [congruence | intros _ fuel rest Hfuel].
  destruct fuel as [|fuel]; [simpl in Hfuel; lia |].
  simpl in Hfuel, Hx.
  destruct fields as [|y fields]; cbn [map].
  - rewrite join_one, member_text_indented_app.
    rewrite parse_members_step by reflexivity. cbn [fst snd].
    rewrite Hx by first [assumption | lia | exact eq_refl].
    now apply members_cont_end, all_ws_nl.
  - rewrite join_cons, items_text_cons, member_text_indented_app.
    rewrite parse_members_step by reflexivity. cbn [fst snd].
    rewrite Hx by first [assumption | lia | exact eq_refl].
    rewrite members_cont_comma, parse_members_skip_ws by now apply all_ws_nl.
    change (member_text_indented gap inner y :: map (member_text_indented gap inner) fields)
      with (map (member_text_indented gap inner) (y :: fields)).
    rewrite IH; [reflexivity | congruence | simpl in *; lia].
Qed.

Lemma JSON_stringify_indent_head (gap indent : string) (v : json) :
  exists c r, JSON_stringify_indent gap indent v = String c r /\
    is_ws c = false /\ (c =? "]")%char = false /\ (c =? "}")%char = false.
Proof.
  destruct v as [|b|n|str|[|x items]|[|kv fields]];
    try (rewrite JSON_stringify_indent_arr);
    try (rewrite JSON_stringify_indent_obj);
    try (eexists _, _; split; [reflexivity | repeat split; reflexivity]).
  - destruct b; eexists _, _; (split; [reflexivity | repeat split; reflexivity]).
  - exact (JSON_stringify_head (JNum n)).
Qed.

(** An opening bracket, white space, then the first element or member. *)
Lemma parse_value_array (fuel : nat) (ws t : string) (c : ascii) (r : string) :
  all_ws ws -> t = String c r -> is_ws c = false -> (c =? "]")%char = false ->
  parse_value (S fuel) ("[" +:+ ws +:+ t)
  = match parse_elements fuel t with
    | Some (vs, r) => Some (JArr vs, r)
    | None => None
    end.
Proof.
  intros Hws Ht Hc Hb. rewrite parse_value_eq.
  change ("[" +:+ ws +:+ t) with (String "[" (ws +:+ t)).
  rewrite skip_ws_head by reflexivity. simpl Ascii.eqb. cbv iota.
  rewrite skip_ws_app, parse_elements_skip_ws by assumption.
  rewrite Ht at 1. rewrite (skip_ws_head _ _ Hc), Hb. reflexivity.
Qed.

Lemma parse_value_object (fuel : nat) (ws t : string) (c : ascii) (r : string) :
  all_ws ws -> t = String c r -> is_ws c = false -> (c =? "}")%char = false ->
  parse_value (S fuel) ("{" +:+ ws +:+ t)
  = match parse_members fuel t with
    | Some (kvs, r) => Some (JObj kvs, r)
    | None => None
    end.
Proof.
  intros Hws Ht Hc Hb. rewrite parse_value_eq.
  change ("{" +:+ ws +:+ t) with (String "{" (ws +:+ t)).
  rewrite skip_ws_head by reflexivity. simpl Ascii.eqb. cbv iota.
  rewrite skip_ws_app, parse_members_skip_ws by assumption.
  rewrite Ht at 1. rewrite (skip_ws_head _ _ Hc), Hb. reflexivity.
Qed.

Lemma bracket_text (opening ws j ws' closing rest : string) :
  (opening +:+ ws +:+ (j +:+ ws' +:+ closing)) +:+ rest
  = opening +:+ ws +:+ (j +:+ ws' +:+ (closing +:+ rest)).
Proof. now rewrite !append_assoc. Qed.

Lemma parse_value_stringify_indent (v : json) : reads_back_indented v.
Proof.
  induction v as [|b|n|str|items IH|fields IH] using json_ind;
    intros gap indent fuel rest Hgap Hindent Hfuel Hrest.
  - now apply (parse_value_stringify JNull).
  - now apply (parse_value_stringify (JBool b)).
  - now apply (parse_value_stringify (JNum n)).
  - now apply (parse_value_stringify (JStr str)).
  - destruct items as [|x items]; [now apply (parse_value_stringify (JArr [])) |].
    destruct fuel as [|fuel]; [simpl in Hfuel; lia |].
    assert (Hinner : all_ws (indent +:+ gap)) by now apply all_ws_app.
    rewrite JSON_stringify_indent_arr, bracket_text.
    change ("]" +:+ rest) with (String "]" rest).
    destruct (JSON_stringify_indent_head gap (indent +:+ gap) x) as (c & r & Hc & Hw & Hb & _).
    assert (Hhd : exists r',
               join ("," +:+ nl +:+ indent +:+ gap)
                 (map (JSON_stringify_indent gap (indent +:+ gap)) (x :: items))
               +:+ (nl +:+ indent) +:+ String "]" rest = String c r').
    { destruct items; cbn [map]; rewrite ?join_one, ?join_cons, Hc; simpl; eauto. }
    destruct Hhd as (r' & Hhd).
    rewrite (parse_value_array fuel _ _ c r' (all_ws_nl _ Hinner) Hhd Hw Hb).
    rewrite (parse_elements_join_indented gap (indent +:+ gap) indent (x :: items))
      by first [assumption | congruence | (simpl in *; lia)].
    reflexivity.
  - destruct fields as [|[k x] fields]; [now apply (parse_value_stringify (JObj [])) |].
    destruct fuel as [|fuel]; [simpl in Hfuel; lia |].
    assert (Hinner : all_ws (indent +:+ gap)) by now apply all_ws_app.
    rewrite JSON_stringify_indent_obj, bracket_text.
    change ("}" +:+ rest) with (String "}" rest).
    assert (Hhd : exists r',
               join ("," +:+ nl +:+ indent +:+ gap)
                 (map (member_text_indented gap (indent +:+ gap)) ((k, x) :: fields))
               +:+ (nl +:+ indent) +:+ String "}" rest = String dquote r').
    { destruct fields; cbn [map]; rewrite ?join_one, ?join_cons;
        unfold member_text_indented, quote, dq; simpl; eauto. }
    destruct Hhd as (r' & Hhd).
    rewrite (parse_value_object fuel _ _ dquote r' (all_ws_nl _ Hinner) Hhd eq_refl eq_refl).
    rewrite (parse_members_join_indented gap (indent +:+ gap) indent ((k, x) :: fields))
      by first [assumption | congruence | (simpl in *; lia)].
    reflexivity.
Qed.

Lemma jsize_elements_length_indented (sep : string) (f : json -> string)
    (items : list json) :
  1 <= String.length sep ->
  Forall (fun x => jsize x <= 2 * String.length (f x)) items ->
  list_sum (map (fun x => S (jsize x)) items)
  <= 2 * String.length (join sep (map f items)) + 1.
Proof.
  intros Hsep. induction 1 as [|x items Hx _ IH]; [simpl; lia |].
  destruct items as [|y items]; cbn [map].
  - rewrite join_one. cbn [list_sum fold_right]. lia.
  - rewrite join_cons, !length_append. cbn [map] in IH.
    cbn [list_sum fold_right] in *. lia.
Qed.

Lemma jsize_members_length_indented (sep gap inner : string)
    (fields : list (string * json)) :
  1 <= String.length sep ->
  Forall (fun kv => jsize (snd kv)
                    <= 2 * String.length (JSON_stringify_indent gap inner (snd kv))) fields ->
  list_sum (map (fun kv => S (jsize (snd kv))) fields)
  <= 2 * String.length (join sep (map (member_text_indented gap inner) fields)) + 1.
Proof.
  intros Hsep. induction 1 as [|[k x] fields Hx _ IH]; [simpl; lia |].
  destruct fields as [|y fields]; cbn [map].
  - rewrite join_one. unfold member_text_indented. rewrite !length_append.
    cbn [list_sum fold_right fst snd] in *. lia.
  - rewrite join_cons. unfold member_text_indented at 1. rewrite !length_append.
    cbn [map] in IH. cbn [list_sum fold_right fst snd] in *. lia.
Qed.

Lemma jsize_length_indent (v : json) (gap indent : string) :
  jsize v <= 2 * String.length (JSON_stringify_indent gap indent v).
Proof.
  revert indent.
  induction v as [|b|n|str|items IH|fields IH] using json_ind; intros indent.
  - apply (jsize_length JNull).
  - apply (jsize_length (JBool b)).
  - apply (jsize_length (JNum n)).
  - apply (jsize_length (JStr str)).
  - destruct items as [|x items]; [simpl; lia |].
    rewrite JSON_stringify_indent_arr, !length_append.
    pose proof (jsize_elements_length_indented ("," +:+ nl +:+ indent +:+ gap)
                  (JSON_stringify_indent gap (indent +:+ gap)) (x :: items)) as Hl.
    assert (Hall : Forall (fun y => jsize y
                            <= 2 * String.length (JSON_stringify_indent gap (indent +:+ gap) y))
                     (x :: items)).
    { eapply Forall_impl; [exact IH |]. intros a Ha. apply Ha. }
    specialize (Hl ltac:(simpl; lia) Hall). cbn [jsize].
    change (String.length "[") with 1. change (String.length "]") with 1.
    revert Hl. generalize (String.length
        (join ("," +:+ nl +:+ indent +:+ gap)
           (map (JSON_stringify_indent gap (indent +:+ gap)) (x :: items)))).
    generalize (list_sum (map (fun x0 => S (jsize x0)) (x :: items))).
    intros. lia.
  - destruct fields as [|kv fields]; [simpl; lia |].
    rewrite JSON_stringify_indent_obj, !length_append.
    pose proof (jsize_members_length_indented ("," +:+ nl +:+ indent +:+ gap)
                  gap (indent +:+ gap) (kv :: fields)) as Hl.
    assert (Hall : Forall (fun p => jsize (snd p)
                            <= 2 * String.length
                                     (JSON_stringify_indent gap (indent +:+ gap) (snd p)))
                     (kv :: fields)).
    { eapply Forall_impl; [exact IH |]. intros a Ha. apply Ha. }
    specialize (Hl ltac:(simpl; lia) Hall). cbn [jsize].
    change (String.length "{") with 1. change (String.length "}") with 1.
    revert Hl. generalize (String.length
        (join ("," +:+ nl +:+ indent +:+ gap)
           (map (member_text_indented gap (indent +:+ gap)) (kv :: fields)))).
    generalize (list_sum (map (fun p => S (jsize (snd p))) (kv :: fields))).
    intros. lia.
Qed.

(** [JSON.parse(JSON.stringify(v, null, gap))] is [v], for a gap of white
    space. *)
Lemma JSON_parse_stringify_indent (gap : string) (v : json) :
  all_ws gap -> JSON_parse (JSON_stringify_indent gap "" v) = Ok v.
Proof.
  intros Hgap. unfold JSON_parse.
  pose proof (jsize_length_indent v gap "") as Hlen.
  pose proof (parse_value_stringify_indent v gap ""
                (2 * String.length (JSON_stringify_indent gap "" v) + 2) "") as Hp.
  rewrite append_nil_r in Hp. rewrite Hp by (first [assumption | reflexivity | lia]).
  reflexivity.
Qed.

(** ** Storage *)

Lemma JSON_stringify_truthy (v : json) : truthy_string (JSON_stringify v) = true.
Proof.
  destruct (JSON_stringify_head v) as (c & r & -> & _). reflexivity.
Qed.

Lemma load_save (key : string) (v : json) (w : World) : load key (save key v w) = Ok v.
Proof.
  unfold load, save. simpl. rewrite lookup_insert_eq.
  rewrite JSON_stringify_truthy. apply JSON_parse_stringify.
Qed.

Lemma load_save_ne (key key' : string) (v : json) (w : World) :
  key <> key' -> load key' (save key v w) = load key' w.
Proof.
  intros Hne. unfold load, save. simpl. now rewrite lookup_insert_ne.
Qed.

Lemma load_ext (key : string) (w w' : World) :
  localStorage w = localStorage w' -> load key w = load key w'.
Proof. unfold load. now intros ->. Qed.

Lemma keys_distinct : KEYS_TEMPLATES <> KEYS_GROUPS.
Proof. discriminate. Qed.

(** The file system service leaves the storage alone. *)
Lemma localStorage_getDir (name : string) (w : World) :
  localStorage (snd (getDir name w)) = localStorage w.
Proof.
  unfold getDir. destruct (rootHandle w) as [root|]; [|reflexivity]. simpl.
  destruct (getDirectoryHandle root name); reflexivity.
Qed.

Lemma localStorage_writeBinaryFile (dirName fileName content : string) (w : World) :
  localStorage (writeBinaryFile dirName fileName content w) = localStorage w.
Proof.
  unfold writeBinaryFile.
  destruct (truthy_string dirName).
  - pose proof (localStorage_getDir dirName w) as Hd.
    destruct (getDir dirName w) as [dir w1]. simpl in Hd.
    destruct dir as [d|]; [|assumption].
    destruct (rootHandle w1) as [root|]; [|assumption].
    destruct (write_file root d fileName content); simpl; assumption.
  - destruct (rootHandle w) as [root|]; [|reflexivity].
    destruct (write_file root RootDir fileName content); reflexivity.
Qed.

Lemma localStorage_syncToDisk (w : World) :
  localStorage (snd (syncToDisk w)) = localStorage w.
Proof.
  unfold syncToDisk. destruct (isHandleReady w); simpl; [|reflexivity].
  destruct (exportConfigData w); simpl; [|reflexivity].
  apply localStorage_writeBinaryFile.
Qed.

Lemma load_syncToDisk (key : string) (w : World) :
  load key (snd (syncToDisk w)) = load key w.
Proof. apply load_ext, localStorage_syncToDisk. Qed.

(** ** Lists of records in storage *)

Section records.

Context {R : Type}.
Variable enc : R -> json.
Variable rid : R -> string.
Hypothesis enc_id : forall r, get_prop (enc r) "id" = Ok (Some (JStr (rid r))).

Lemma findIndex_from_records (id : string) (rs : list R) (i : Z) :
  findIndex_from
    (fun t => let* tid := get_prop t "id" in Ok (strict_eq tid (Some (JStr id))))
    (map enc rs) i
  = Ok (match find_pos id (map rid rs) with
        | Some n => (i + Z.of_nat n)%Z
        | None => (-1)%Z
        end).
Proof.
  revert i. induction rs as [|r rs IH]; intros i; simpl; [reflexivity |].
  rewrite enc_id. simpl.
  destruct (String.eqb (rid r) id).
  - f_equal. lia.
  - rewrite IH. destruct (find_pos id (map rid rs)); f_equal; lia.
Qed.

Lemma filter_items_records (id : string) (rs : list R) :
  filter_items
    (fun t => let* tid := get_prop t "id" in Ok (negb (strict_eq tid (Some (JStr id)))))
    (map enc rs)
  = Ok (map enc (without rid id rs)).
Proof.
  induction rs as [|r rs IH]; simpl; [reflexivity |].
  rewrite enc_id. simpl. rewrite IH. simpl.
  destruct (String.eqb (rid r) id); reflexivity.
Qed.

Lemma map_insert (i : nat) (r : R) (rs : list R) :
  <[i := enc r]> (map enc rs) = map enc (<[i := r]> rs).
Proof.
  revert i. induction rs as [|x rs IH]; intros [|i]; simpl; try reflexivity.
  now rewrite IH.
Qed.

(** What [findIndex], then the assignment or the push, make of the list. *)
Lemma upsert_records (r : R) (rs : list R) :
  (let* index :=
     Array_findIndex (JArr (map enc rs))
       (fun t => let* tid := get_prop t "id" in Ok (strict_eq tid (Some (JStr (rid r))))) in
   Ok (if (index >=? 0)%Z then Array_set (JArr (map enc rs)) index (enc r)
       else Array_push (JArr (map enc rs)) (enc r)))
  = Ok (JArr (map enc (upsert rid r rs))).
Proof.
  unfold Array_findIndex, upsert. rewrite findIndex_from_records.
  destruct (find_pos (rid r) (map rid rs)) as [n|]; simpl.
  - rewrite Z.add_0_l.
    replace (Z.of_nat n >=? 0)%Z with true by (symmetry; apply Z.geb_le; lia).
    rewrite Nat2Z.id, map_insert. reflexivity.
  - now rewrite map_app.
Qed.

Lemma find_pos_lookup (id : string) (rs : list R) (n : nat) :
  find_pos id (map rid rs) = Some n ->
  exists old, rs !! n = Some old /\ rid old = id.
Proof.
  revert n. induction rs as [|r rs IH]; intros n; simpl; [discriminate |].
  destruct (String.eqb_spec (rid r) id) as [Heq | Hne].
  - intros [= <-]. exists r. split; [reflexivity | assumption].
  - destruct (find_pos id (map rid rs)) as [m|]; [|discriminate].
    intros [= <-]. destruct (IH m eq_refl) as (old & Hl & Ho). exists old. now split.
Qed.

Lemma find_pos_In (id : string) (ids : list string) :
  In id ids -> exists n, find_pos id ids = Some n.
Proof.
  induction ids as [|x ids IH]; simpl; [tauto |].
  intros [-> | Hin].
  - rewrite String.eqb_refl. eauto.
  - destruct (String.eqb x id); [eauto |].
    destruct (IH Hin) as (n & ->). eauto.
Qed.

Lemma find_pos_not_In (id : string) (ids : list string) :
  ~ In id ids -> find_pos id ids = None.
Proof.
  induction ids as [|x ids IH]; simpl; [reflexivity |].
  intros Hn. destruct (String.eqb_spec x id) as [-> | _]; [tauto |].
  rewrite IH by tauto. reflexivity.
Qed.

(** Replacing a record by one with the same identifier keeps the identifiers. *)
Lemma map_rid_insert (i : nat) (r old : R) (rs : list R) :
  rs !! i = Some old -> rid old = rid r ->
  map rid (<[i := r]> rs) = map rid rs.
Proof.
  revert i. induction rs as [|x rs IH]; intros [|i]; simpl; try discriminate.
  - intros [= ->] ->. reflexivity.
  - intros Hl He. now rewrite (IH i Hl He).
Qed.

Lemma In_upsert (r : R) (rs : list R) : In r (upsert rid r rs).
Proof.
  unfold upsert. destruct (find_pos (rid r) (map rid rs)) as [n|] eqn:Hf.
  - destruct (find_pos_lookup _ _ _ Hf) as (old & Hl & _).
    apply list_elem_of_In, list_elem_of_lookup. exists n.
    apply list_lookup_insert_eq. now apply lookup_lt_Some in Hl.
  - apply in_or_app. right. now left.
Qed.

Lemma not_In_without (id : string) (rs : list R) (r : R) :
  In r (without rid id rs) -> rid r <> id.
Proof.
  unfold without. rewrite filter_In. intros [_ Hb] Heq.
  rewrite Heq, String.eqb_refl in Hb. discriminate.
Qed.

Lemma In_without (id : string) (rs : list R) (r : R) :
  In r rs -> rid r <> id -> In r (without rid id rs).
Proof.
  unfold without. rewrite filter_In. intros Hin Hne. split; [assumption |].
  destruct (String.eqb_spec (rid r) id); [contradiction | reflexivity].
Qed.

End records.

Lemma template_id_prop (t : AnalysisTemplate) :
  get_prop (template_to_json t) "id" = Ok (Some (JStr (template_id t))).
Proof. reflexivity. Qed.

Lemma group_id_prop (g : AnalysisGroup) :
  get_prop (group_to_json g) "id" = Ok (Some (JStr (group_id g))).
Proof. reflexivity. Qed.

Lemma template_to_json_inj (t t' : AnalysisTemplate) :
  template_to_json t = template_to_json t' -> t = t'.
Proof.
  destruct t, t'. unfold template_to_json. simpl. intros H. now inversion H.
Qed.

Lemma group_to_json_inj (g g' : AnalysisGroup) :
  group_to_json g = group_to_json g' -> g = g'.
Proof.
  destruct g as [i n d ids], g' as [i' n' d' ids'].
  unfold group_to_json. simpl. intros H. inversion H as [[Hi Hn Hd Hids]].
  f_equal. clear H. revert ids' Hids.
  induction ids as [|x ids IH]; intros [|y ids']; simpl; try discriminate; [reflexivity |].
  intros [= -> Hrest]. f_equal. now apply IH.
Qed.

(** ** The four write operations on well-formed stores *)

Lemma saveTemplate_stores (tmpl : AnalysisTemplate) (ts : list AnalysisTemplate) (w : World) :
  stores_templates w ts ->
  exists w',
    saveTemplate tmpl w = Ok w' /\
    stores_templates w' (upsert template_id tmpl ts) /\
    getGroups w' = getGroups w.
Proof.
  unfold stores_templates, getTemplates, getGroups, saveTemplate. intros Hl.
  rewrite Hl. cbn [bind].
  pose proof (upsert_records template_to_json template_id template_id_prop tmpl ts) as Hu.
  destruct (Array_findIndex _ _) as [index|e]; [|discriminate].
  cbn [bind] in *. injection Hu as Hu. cbn [Array_set Array_push]. rewrite Hu.
  eexists. split; [reflexivity |].
  rewrite !load_syncToDisk. split.
  - apply load_save.
  - apply load_save_ne, keys_distinct.
Qed.

Lemma deleteTemplate_stores (id : string) (ts : list AnalysisTemplate) (w : World) :
  stores_templates w ts ->
  exists w',
    deleteTemplate id w = Ok w' /\
    stores_templates w' (without template_id id ts) /\
    getGroups w' = getGroups w.
Proof.
  unfold stores_templates, getTemplates, getGroups, deleteTemplate. intros Hl.
  rewrite Hl. cbn [bind]. unfold Array_filter.
  rewrite (filter_items_records template_to_json template_id template_id_prop).
  cbn [bind]. eexists. split; [reflexivity |].
  rewrite !load_syncToDisk. split.
  - apply load_save.
  - apply load_save_ne, keys_distinct.
Qed.

Lemma saveGroup_stores (group : AnalysisGroup) (gs : list AnalysisGroup) (w : World) :
  stores_groups w gs ->
  exists w',
    saveGroup group w = Ok w' /\
    stores_groups w' (upsert group_id group gs) /\
    getTemplates w' = getTemplates w.
Proof.
  unfold stores_groups, getTemplates, getGroups, saveGroup. intros Hl.
  rewrite Hl. cbn [bind].
  pose proof (upsert_records group_to_json group_id group_id_prop group gs) as Hu.
  destruct (Array_findIndex _ _) as [index|e]; [|discriminate].
  cbn [bind] in *. injection Hu as Hu. cbn [Array_set Array_push]. rewrite Hu.
  eexists. split; [reflexivity |].
  rewrite !load_syncToDisk. split.
  - apply load_save.
  - apply load_save_ne. intros H. symmetry in H. now apply keys_distinct.
Qed.

Lemma deleteGroup_stores (id : string) (gs : list AnalysisGroup) (w : World) :
  stores_groups w gs ->
  exists w',
    deleteGroup id w = Ok w' /\
    stores_groups w' (without group_id id gs) /\
    getTemplates w' = getTemplates w.
Proof.
  unfold stores_groups, getTemplates, getGroups, deleteGroup. intros Hl.
  rewrite Hl. cbn [bind]. unfold Array_filter.
  rewrite (filter_items_records group_to_json group_id group_id_prop).
  cbn [bind]. eexists. split; [reflexivity |].
  rewrite !load_syncToDisk. split.
  - apply load_save.
  - apply load_save_ne. intros H. symmetry in H. now apply keys_distinct.
Qed.

Lemma groups_entry_saveTemplate (tmpl : AnalysisTemplate) (w w' : World) :
  saveTemplate tmpl w = Ok w' ->
  localStorage w' !! KEYS_GROUPS = localStorage w !! KEYS_GROUPS.
Proof.
  unfold saveTemplate. destruct (load KEYS_TEMPLATES w); [|discriminate]. cbn [bind].
  destruct (Array_findIndex _ _); [|discriminate]. cbn [bind].
  intros [= <-]. rewrite localStorage_syncToDisk. unfold save. simpl.
  apply lookup_insert_ne, keys_distinct.
Qed.

Lemma groups_entry_deleteTemplate (id : string) (w w' : World) :
  deleteTemplate id w = Ok w' ->
  localStorage w' !! KEYS_GROUPS = localStorage w !! KEYS_GROUPS.
Proof.
  unfold deleteTemplate. destruct (load KEYS_TEMPLATES w); [|discriminate]. cbn [bind].
  destruct (Array_filter _ _); [|discriminate]. cbn [bind].
  intros [= <-]. rewrite localStorage_syncToDisk. unfold save. simpl.
  apply lookup_insert_ne, keys_distinct.
Qed.

Lemma templates_entry_deleteGroup (id : string) (w w' : World) :
  deleteGroup id w = Ok w' ->
  localStorage w' !! KEYS_TEMPLATES = localStorage w !! KEYS_TEMPLATES.
Proof.
  unfold deleteGroup. destruct (load KEYS_GROUPS w); [|discriminate]. cbn [bind].
  destruct (Array_filter _ _); [|discriminate]. cbn [bind].
  intros [= <-]. rewrite localStorage_syncToDisk. unfold save. simpl.
  apply lookup_insert_ne. intros H. symmetry in H. now apply keys_distinct.
Qed.

(** ** Claims on the configuration store *)

(** C3.  Templates and groups round-trip through storage: on a store that
    holds a list of templates and a list of groups, [saveTemplate t] succeeds
    and [getTemplates] then returns a list that contains [t]; a following
    [deleteTemplate] of the identifier of [t] succeeds and [getTemplates] then
    returns a list with no template of that identifier.  The same holds for
    [saveGroup], [getGroups] and [deleteGroup]. *)
Theorem crud_round_trip (t : AnalysisTemplate) (g : AnalysisGroup)
    (ts : list AnalysisTemplate) (gs : list AnalysisGroup) (w : World) :
  stores_templates w ts ->
  stores_groups w gs ->
  (exists w1 ts1,
      saveTemplate t w = Ok w1 /\
      getTemplates w1 = Ok (JArr (map template_to_json ts1)) /\ In t ts1 /\
      exists w2 ts2,
        deleteTemplate (template_id t) w1 = Ok w2 /\
        getTemplates w2 = Ok (JArr (map template_to_json ts2)) /\
        forall t', In t' ts2 -> template_id t' <> template_id t)
  /\
  (exists w1 gs1,
      saveGroup g w = Ok w1 /\
      getGroups w1 = Ok (JArr (map group_to_json gs1)) /\ In g gs1 /\
      exists w2 gs2,
        deleteGroup (group_id g) w1 = Ok w2 /\
        getGroups w2 = Ok (JArr (map group_to_json gs2)) /\
        forall g', In g' gs2 -> group_id g' <> group_id g).
Proof.
  intros Ht Hg. split.
  - destruct (saveTemplate_stores t ts w Ht) as (w1 & Hs & Hst & _).
    exists w1, (upsert template_id t ts). repeat split; [exact Hs | exact Hst | apply In_upsert |].
    destruct (deleteTemplate_stores (template_id t) _ w1 Hst) as (w2 & Hd & Hdt & _).
    exists w2, (without template_id (template_id t) (upsert template_id t ts)).
    repeat split; [exact Hd | exact Hdt |].
    intros t'. apply not_In_without.
  - destruct (saveGroup_stores g gs w Hg) as (w1 & Hs & Hst & _).
    exists w1, (upsert group_id g gs). repeat split; [exact Hs | exact Hst | apply In_upsert |].
    destruct (deleteGroup_stores (group_id g) _ w1 Hst) as (w2 & Hd & Hdt & _).
    exists w2, (without group_id (group_id g) (upsert group_id g gs)).
    repeat split; [exact Hd | exact Hdt |].
    intros g'. apply not_In_without.
Qed.

Lemma crud_round_trip_witness :
  stores_templates sample_world [sample_template; other_template] /\
  stores_groups sample_world [sample_group] /\
  (exists w1 ts1,
      saveTemplate sample_template_edited sample_world = Ok w1 /\
      getTemplates w1 = Ok (JArr (map template_to_json ts1)) /\
      In sample_template_edited ts1 /\
      exists w2 ts2,
        deleteTemplate (template_id sample_template_edited) w1 = Ok w2 /\
        getTemplates w2 = Ok (JArr (map template_to_json ts2)) /\
        forall t', In t' ts2 -> template_id t' <> template_id sample_template_edited)
  /\
  (exists w1 gs1,
      saveGroup sample_group sample_world = Ok w1 /\
      getGroups w1 = Ok (JArr (map group_to_json gs1)) /\ In sample_group gs1 /\
      exists w2 gs2,
        deleteGroup (group_id sample_group) w1 = Ok w2 /\
        getGroups w2 = Ok (JArr (map group_to_json gs2)) /\
        forall g', In g' gs2 -> group_id g' <> group_id sample_group).
Proof.
  assert (Ht : stores_templates sample_world [sample_template; other_template])
    by (vm_compute; reflexivity).
  assert (Hg : stores_groups sample_world [sample_group]) by (vm_compute; reflexivity).
  split; [exact Ht | split; [exact Hg |]].
  exact (crud_round_trip sample_template_edited sample_group _ _ sample_world Ht Hg).
Defined.

(** C4.  Last write wins, in place: on a store whose templates have pairwise
    distinct identifiers, [saveTemplate t] with an identifier that is already
    stored succeeds and puts [t] where the stored template with that
    identifier stood; no duplicate is appended, the length of the list is
    unchanged and the identifiers stay pairwise distinct.  The same holds for
    [saveGroup] on a store whose groups have pairwise distinct identifiers.
    Neither half asks anything of the other list. *)
Theorem save_replaces_in_place (t : AnalysisTemplate) (g : AnalysisGroup)
    (ts : list AnalysisTemplate) (gs : list AnalysisGroup) (w : World) :
  (stores_templates w ts ->
   NoDup (map template_id ts) ->
   In (template_id t) (map template_id ts) ->
   exists w' i old,
     saveTemplate t w = Ok w' /\
     ts !! i = Some old /\ template_id old = template_id t /\
     getTemplates w' = Ok (JArr (map template_to_json (<[i := t]> ts))) /\
     length (<[i := t]> ts) = length ts /\
     NoDup (map template_id (<[i := t]> ts)))
  /\
  (stores_groups w gs ->
   NoDup (map group_id gs) ->
   In (group_id g) (map group_id gs) ->
   exists w' i old,
     saveGroup g w = Ok w' /\
     gs !! i = Some old /\ group_id old = group_id g /\
     getGroups w' = Ok (JArr (map group_to_json (<[i := g]> gs))) /\
     length (<[i := g]> gs) = length gs /\
     NoDup (map group_id (<[i := g]> gs))).
Proof.
  split.
  - intros Ht Hdt Hit.
    destruct (saveTemplate_stores t ts w Ht) as (w' & Hs & Hst & _).
    destruct (find_pos_In _ _ Hit) as (i & Hpos).
    destruct (find_pos_lookup template_id _ _ _ Hpos) as (old & Hold & Hid).
    unfold upsert in Hst. rewrite Hpos in Hst.
    exists w', i, old. repeat split; try assumption.
    + apply length_insert.
    + now rewrite (map_rid_insert template_id i t old ts Hold Hid).
  - intros Hg Hdg Hig.
    destruct (saveGroup_stores g gs w Hg) as (w' & Hs & Hst & _).
    destruct (find_pos_In _ _ Hig) as (i & Hpos).
    destruct (find_pos_lookup group_id _ _ _ Hpos) as (old & Hold & Hid).
    unfold upsert in Hst. rewrite Hpos in Hst.
    exists w', i, old. repeat split; try assumption.
    + apply length_insert.
    + now rewrite (map_rid_insert group_id i g old gs Hold Hid).
Qed.

(** The template half on a store with templates and no group at all, the
    group half on the sample store. *)
Lemma save_replaces_in_place_witness :
  let w := save KEYS_TEMPLATES
             (JArr [template_to_json sample_template; template_to_json other_template])
             fresh_world in
  (exists w' i old,
      saveTemplate sample_template_edited w = Ok w' /\
      [sample_template; other_template] !! i = Some old /\
      template_id old = template_id sample_template_edited /\
      getTemplates w'
      = Ok (JArr (map template_to_json
                    (<[i := sample_template_edited]> [sample_template; other_template]))) /\
      length (<[i := sample_template_edited]> [sample_template; other_template]) = 2 /\
      NoDup (map template_id
               (<[i := sample_template_edited]> [sample_template; other_template])))
  /\
  (exists w' i old,
      saveGroup sample_group sample_world = Ok w' /\
      [sample_group] !! i = Some old /\ group_id old = group_id sample_group /\
      getGroups w' = Ok (JArr (map group_to_json (<[i := sample_group]> [sample_group]))) /\
      length (<[i := sample_group]> [sample_group]) = 1 /\
      NoDup (map group_id (<[i := sample_group]> [sample_group]))).
Proof.
  intros w. split.
  - refine (proj1 (save_replaces_in_place sample_template_edited sample_group
                     [sample_template; other_template] [] w) _ _ _).
    + vm_compute; reflexivity.
    + apply (bool_decide_unpack _); vm_compute; exact I.
    + simpl; auto.
  - refine (proj2 (save_replaces_in_place sample_template_edited sample_group
                     [] [sample_group] sample_world) _ _ _).
    + vm_compute; reflexivity.
    + apply (bool_decide_unpack _); vm_compute; exact I.
    + simpl; auto.
Defined.

(** C10.  [deleteTemplate id] keeps exactly the templates whose identifier
    is not [id], each unchanged and in the order they had, and leaves the
    stored groups as they were; [deleteGroup id] does the same to the groups
    and leaves the stored templates as they were. *)
Theorem delete_frame (id : string)
    (ts : list AnalysisTemplate) (gs : list AnalysisGroup) (w : World) :
  stores_templates w ts ->
  stores_groups w gs ->
  (exists w',
      deleteTemplate id w = Ok w' /\
      getTemplates w'
      = Ok (JArr (map template_to_json
                    (List.filter (fun t => negb (String.eqb (template_id t) id)) ts))) /\
      localStorage w' !! KEYS_GROUPS = localStorage w !! KEYS_GROUPS /\
      stores_groups w' gs)
  /\
  (exists w',
      deleteGroup id w = Ok w' /\
      getGroups w'
      = Ok (JArr (map group_to_json
                    (List.filter (fun g => negb (String.eqb (group_id g) id)) gs))) /\
      localStorage w' !! KEYS_TEMPLATES = localStorage w !! KEYS_TEMPLATES /\
      stores_templates w' ts).
Proof.
  intros Ht Hg. split.
  - destruct (deleteTemplate_stores id ts w Ht) as (w' & Hd & Hst & Hgr).
    exists w'. repeat split.
    + exact Hd.
    + exact Hst.
    + exact (groups_entry_deleteTemplate id w w' Hd).
    + unfold stores_groups. now rewrite Hgr.
  - destruct (deleteGroup_stores id gs w Hg) as (w' & Hd & Hst & Htm).
    exists w'. repeat split.
    + exact Hd.
    + exact Hst.
    + exact (templates_entry_deleteGroup id w w' Hd).
    + unfold stores_templates. now rewrite Htm.
Qed.

Lemma delete_frame_witness :
  exists w',
    deleteTemplate "t1" sample_world = Ok w' /\
    getTemplates w' = Ok (JArr [template_to_json other_template]) /\
    localStorage w' !! KEYS_GROUPS = localStorage sample_world !! KEYS_GROUPS /\
    stores_groups w' [sample_group].
Proof.
  refine (proj1 (delete_frame "t1" [sample_template; other_template] [sample_group]
                   sample_world _ _)).
  - vm_compute; reflexivity.
  - vm_compute; reflexivity.
Defined.

(** An accepted import: what is stored afterwards. *)
Lemma importConfigData_truthy (data : json) (w : World) :
  truthy data = true ->
  exists w',
    importConfigData data w = Ok w' /\
    getGroups w' = after_import (member data "groups") (getGroups w) /\
    getTemplates w' = after_import (member data "templates") (getTemplates w) /\
    rootHandle w' = rootHandle w /\ trace w' = trace w.
Proof.
  intros Hd. unfold importConfigData. rewrite Hd. cbn [negb].
  assert (Hp : forall key, get_prop data key = Ok (member data key)).
  { intros key. destruct data; try reflexivity. discriminate. }
  rewrite !Hp. cbn [bind]. eexists. split; [reflexivity |].
  unfold getGroups, getTemplates, after_import.
  destruct (member data "groups") as [g|]; destruct (member data "templates") as [t|];
    try destruct (truthy g); try destruct (truthy t);
    repeat split;
    rewrite ?load_save, ?(load_save_ne KEYS_GROUPS KEYS_TEMPLATES),
            ?(load_save_ne KEYS_TEMPLATES KEYS_GROUPS), ?load_save;
    try reflexivity; try apply keys_distinct;
    try (intros H; symmetry in H; now apply keys_distinct).
Qed.

(** The lists of the manager after [refreshData], when the store can be
    read. *)
Lemma refreshData_reads (w : World) (st : ManagerState) (groups templates : json) :
  getGroups w = Ok groups ->
  getTemplates w = Ok templates ->
  refreshData w st
  = (Ok tt, {| shown_groups := groups; shown_templates := templates;
               editGroup := editGroup st; editTemplate := editTemplate st |}).
Proof. intros Hg Ht. unfold refreshData. now rewrite Hg, Ht. Qed.

(** The handler of the import, once the text is parsed and the document
    accepted. *)
Lemma handleImportConfig_accepted (onUpdate : option Callback) (text : string)
    (st : ManagerState) (data : json) (w w' : World) :
  JSON_parse text = Ok data ->
  importConfigData data w = Ok w' ->
  handleImportConfig onUpdate text st w
  = match refreshData w' st with
    | (Throw err, st1) => ((false, st1), emit (ConsoleError (exn_message err)) w')
    | (Ok _, st1) =>
        match optional_call onUpdate w' with
        | (Throw err, w2) => ((false, st1), emit (ConsoleError (exn_message err)) w2)
        | (Ok _, w2) => ((true, st1), w2)
        end
    end.
Proof. intros Hp Hi. unfold handleImportConfig. now rewrite Hp, Hi. Qed.

(** C6.  Export followed by import is the identity on what is stored:
    whenever [getTemplates] and [getGroups] return values, [exportConfigData]
    returns a document, [importConfigData] accepts it, and afterwards
    [getTemplates] and [getGroups] return what they returned before.  The
    same holds when the document goes through its text, as the configuration
    manager exports and imports it: the handler of the import shows the
    success alert, with the lists read back, whenever the callback of the
    parent, if there is one, returns. *)
Theorem export_import_identity (w : World) (templates groups : json) :
  getTemplates w = Ok templates ->
  getGroups w = Ok groups ->
  exists doc w',
    exportConfigData w = Ok doc /\
    importConfigData doc w = Ok w' /\
    getTemplates w' = Ok templates /\
    getGroups w' = Ok groups /\
    forall onUpdate st,
      is_ok (fst (optional_call onUpdate w')) = true ->
      handleImportConfig onUpdate (JSON_stringify_indent "  " "" doc) st w
      = ((true, {| shown_groups := groups; shown_templates := templates;
                   editGroup := editGroup st; editTemplate := editTemplate st |}),
         snd (optional_call onUpdate w')).
Proof.
  intros Ht Hg.
  set (doc := JObj [("groups", groups); ("templates", templates);
                    ("exportedAt", JStr (now w)); ("version", JStr "3.0")]).
  destruct (importConfigData_truthy doc w eq_refl) as (w' & Hi & Hg' & Ht' & _).
  cbn [doc member lookup_field String.eqb Ascii.eqb Bool.eqb after_import] in Hg', Ht'.
  assert (Hg2 : getGroups w' = Ok groups) by (rewrite Hg'; now destruct (truthy groups)).
  assert (Ht2 : getTemplates w' = Ok templates)
    by (rewrite Ht'; now destruct (truthy templates)).
  exists doc, w'. split.
  { unfold exportConfigData. unfold getTemplates, getGroups in Ht, Hg. now rewrite Hg, Ht. }
  split; [exact Hi |]. split; [exact Ht2 |]. split; [exact Hg2 |].
  intros onUpdate st Hcall.
  rewrite (handleImportConfig_accepted onUpdate _ st doc w w'
             (JSON_parse_stringify_indent "  " doc eq_refl) Hi).
  rewrite (refreshData_reads w' st groups templates Hg2 Ht2).
  destruct (optional_call onUpdate w') as [[[]|e] w2]; [reflexivity | discriminate].
Qed.

Lemma export_import_identity_witness :
  exists doc w',
    exportConfigData sample_world = Ok doc /\
    importConfigData doc sample_world = Ok w' /\
    getTemplates w'
    = Ok (JArr [template_to_json sample_template; template_to_json other_template]) /\
    getGroups w' = Ok (JArr [group_to_json sample_group]) /\
    forall onUpdate st,
      is_ok (fst (optional_call onUpdate w')) = true ->
      handleImportConfig onUpdate (JSON_stringify_indent "  " "" doc) st sample_world
      = ((true, {| shown_groups := JArr [group_to_json sample_group];
                   shown_templates :=
                     JArr [template_to_json sample_template;
                           template_to_json other_template];
                   editGroup := editGroup st; editTemplate := editTemplate st |}),
         snd (optional_call onUpdate w')).
Proof.
  apply (export_import_identity sample_world); vm_compute; reflexivity.
Defined.

(** C2, as stated, fails: a document whose [templates] member is a string is
    accepted, and the stored templates are replaced by that string. *)
Lemma import_accepts_malformed_document :
  exists w',
    importConfigData (JObj [("templates", JStr "junk")]) sample_world = Ok w' /\
    getTemplates w' = Ok (JStr "junk") /\
    getTemplates w' <> getTemplates sample_world /\
    is_ok (saveTemplate sample_template w') = false.
Proof.
  eexists. split; [reflexivity |].
  split; [vm_compute; reflexivity |].
  split; [vm_compute; discriminate | vm_compute; reflexivity].
Qed.

(** C2, amended.  [importConfigData] rejects exactly the falsy documents
    ([null], [false], [0], the empty string), with the error [Invalid config
    file] and before anything is stored.  Every other document is accepted:
    the stored groups (templates) are replaced by the member [groups]
    ([templates]) of the document when it has one that is truthy, with no
    check of its shape, and are left as they were otherwise; the directory
    handle and the trace are left alone.  The handler of the configuration
    manager logs the error and shows the error alert, with the storage and
    the lists shown untouched, when the text of the file does not parse and
    when it parses to a falsy document.  When it parses to any other
    document, the document is imported whichever alert follows: the handler
    then shows the success alert exactly when both lists can be read back
    and the callback of the parent, if there is one, returns; when a list
    cannot be read back the parent is not called, and the storage is what
    [importConfigData] left, under the error alert. *)
Theorem import_rejects_falsy_only (data : json) (onUpdate : option Callback)
    (text : string) (st : ManagerState) (w : World) :
  (if truthy data
   then exists w',
       importConfigData data w = Ok w' /\
       getGroups w' = after_import (member data "groups") (getGroups w) /\
       getTemplates w' = after_import (member data "templates") (getTemplates w) /\
       rootHandle w' = rootHandle w /\ trace w' = trace w
   else importConfigData data w = Throw (Error "Invalid config file"))
  /\
  (forall err,
     JSON_parse text = Throw err ->
     handleImportConfig onUpdate text st w
     = ((false, st), emit (ConsoleError (exn_message err)) w))
  /\
  (JSON_parse text = Ok data ->
   if truthy data
   then exists w',
       importConfigData data w = Ok w' /\
       let listed := is_ok (getGroups w') && is_ok (getTemplates w') in
       let called := optional_call onUpdate w' in
       fst (fst (handleImportConfig onUpdate text st w))
       = listed && is_ok (fst called) /\
       localStorage (snd (handleImportConfig onUpdate text st w))
       = localStorage (if listed then snd called else w') /\
       rootHandle (snd (handleImportConfig onUpdate text st w))
       = rootHandle (if listed then snd called else w')
   else handleImportConfig onUpdate text st w
        = ((false, st), emit (ConsoleError "Invalid config file") w)).
Proof.
  split; [|split].
  - destruct (truthy data) eqn:Hd.
    + now apply importConfigData_truthy.
    + unfold importConfigData. now rewrite Hd.
  - intros err Hp. unfold handleImportConfig. now rewrite Hp.
  - intros Hp. destruct (truthy data) eqn:Hd.
    + destruct (importConfigData_truthy data w Hd) as (w' & Hi & _).
      exists w'. split; [exact Hi |].
      rewrite (handleImportConfig_accepted onUpdate text st data w w' Hp Hi).
      unfold refreshData.
      destruct (getGroups w') as [groups|e1]; cbn [is_ok andb fst snd];
        [|now repeat split].
      destruct (getTemplates w') as [templates|e2]; cbn [is_ok andb fst snd];
        [|now repeat split].
      destruct (optional_call onUpdate w') as [[[]|e] w2]; cbn [is_ok fst snd];
        now repeat split.
    + unfold handleImportConfig, importConfigData. now rewrite Hp, Hd.
Qed.

(** ** The directory *)

Lemma lookup_set_entry (name : string) (node : FsNode) (l : list (string * FsNode)) :
  lookup_entry name (set_entry name node l) = Some node.
Proof.
  induction l as [|[n old] l IH]; simpl.
  - now rewrite String.eqb_refl.
  - destruct (String.eqb name n) eqn:He; simpl; rewrite He; [reflexivity | exact IH].
Qed.




(** ** Without a directory handle *)

Lemma is_ok_saveTemplate_ext (t : AnalysisTemplate) (w w' : World) :
  localStorage w = localStorage w' ->
  is_ok (saveTemplate t w) = is_ok (saveTemplate t w').
Proof.
  intros H. unfold saveTemplate. rewrite (load_ext _ w w' H).
  destruct (load KEYS_TEMPLATES w'); [|reflexivity]. cbn [bind].
  destruct (Array_findIndex _ _); reflexivity.
Qed.

Lemma is_ok_deleteTemplate_ext (id : string) (w w' : World) :
  localStorage w = localStorage w' ->
  is_ok (deleteTemplate id w) = is_ok (deleteTemplate id w').
Proof.
  intros H. unfold deleteTemplate. rewrite (load_ext _ w w' H).
  destruct (load KEYS_TEMPLATES w'); [|reflexivity]. cbn [bind].
  destruct (Array_filter _ _); reflexivity.
Qed.

Lemma is_ok_saveGroup_ext (g : AnalysisGroup) (w w' : World) :
  localStorage w = localStorage w' ->
  is_ok (saveGroup g w) = is_ok (saveGroup g w').
Proof.
  intros H. unfold saveGroup. rewrite (load_ext _ w w' H).
  destruct (load KEYS_GROUPS w'); [|reflexivity]. cbn [bind].
  destruct (Array_findIndex _ _); reflexivity.
Qed.

Lemma is_ok_deleteGroup_ext (id : string) (w w' : World) :
  localStorage w = localStorage w' ->
  is_ok (deleteGroup id w) = is_ok (deleteGroup id w').
Proof.
  intros H. unfold deleteGroup. rewrite (load_ext _ w w' H).
  destruct (load KEYS_GROUPS w'); [|reflexivity]. cbn [bind].
  destruct (Array_filter _ _); reflexivity.
Qed.

Lemma is_ok_importConfigData_ext (data : json) (w w' : World) :
  is_ok (importConfigData data w) = is_ok (importConfigData data w').
Proof.
  unfold importConfigData. destruct (truthy data); [|reflexivity]. cbn [negb].
  destruct (get_prop data "groups"); [|reflexivity]. cbn [bind].
  destruct (get_prop data "templates"); reflexivity.
Qed.

Lemma getDir_no_handle (name : string) (w : World) :
  rootHandle w = None -> getDir name w = (None, w).
Proof. unfold getDir. now intros ->. Qed.

(** C9.  With no directory handle set, [loadAutoConfig] and [syncToDisk]
    return [false] and leave everything as it was: no file is read or written
    (the trace does not grow) and the storage is not touched; [readAllFiles]
    returns the empty list and [writeBinaryFile] returns with nothing done,
    whatever the directory name.  No operation of the configuration service
    fails for want of a handle: each one succeeds without a handle exactly
    when it succeeds with one. *)
Theorem no_handle_no_effect (w : World) :
  isHandleReady w = false ->
  loadAutoConfig w = (false, w) /\
  syncToDisk w = (false, w) /\
  (forall dirName, readAllFiles dirName w = ([], w)) /\
  (forall dirName fileName content, writeBinaryFile dirName fileName content w = w) /\
  (forall h t, is_ok (saveTemplate t w) = is_ok (saveTemplate t (setRootHandle h w))) /\
  (forall h id, is_ok (deleteTemplate id w) = is_ok (deleteTemplate id (setRootHandle h w))) /\
  (forall h g, is_ok (saveGroup g w) = is_ok (saveGroup g (setRootHandle h w))) /\
  (forall h id, is_ok (deleteGroup id w) = is_ok (deleteGroup id (setRootHandle h w))) /\
  (forall h, getTemplates w = getTemplates (setRootHandle h w)) /\
  (forall h, getGroups w = getGroups (setRootHandle h w)) /\
  (forall h, exportConfigData w = exportConfigData (setRootHandle h w)) /\
  (forall h data,
      is_ok (importConfigData data w) = is_ok (importConfigData data (setRootHandle h w))).
Proof.
  intros Hready.
  assert (Hroot : rootHandle w = None).
  { unfold isHandleReady in Hready. destruct (rootHandle w); [discriminate | reflexivity]. }
  split; [unfold loadAutoConfig; now rewrite Hready |].
  split; [unfold syncToDisk; now rewrite Hready |].
  split.
  { intros dirName. unfold readAllFiles.
    destruct (truthy_string dirName).
    - now rewrite (getDir_no_handle _ _ Hroot).
    - now rewrite Hroot. }
  split.
  { intros dirName fileName content. unfold writeBinaryFile.
    destruct (truthy_string dirName).
    - now rewrite (getDir_no_handle _ _ Hroot).
    - now rewrite Hroot. }
  split; [intros h t; now apply is_ok_saveTemplate_ext |].
  split; [intros h id; now apply is_ok_deleteTemplate_ext |].
  split; [intros h g; now apply is_ok_saveGroup_ext |].
  split; [intros h id; now apply is_ok_deleteGroup_ext |].
  split; [reflexivity |].
  split; [reflexivity |].
  split; [reflexivity |].
  intros h data. apply is_ok_importConfigData_ext.
Qed.

Lemma no_handle_no_effect_witness :
  loadAutoConfig sample_world = (false, sample_world) /\
  syncToDisk sample_world = (false, sample_world) /\
  readAllFiles "excel_history" sample_world = ([], sample_world) /\
  writeBinaryFile "" "EXCEL_AI.json" "{}" sample_world = sample_world /\
  is_ok (saveTemplate sample_template sample_world) = true.
Proof.
  destruct (no_handle_no_effect sample_world eq_refl)
    as (Hl & Hs & Hr & Hw & Hsave & _).
  split; [exact Hl |].
  split; [exact Hs |].
  split; [apply Hr |].
  split; [apply Hw |].
  rewrite (Hsave sample_directory sample_template). vm_compute. reflexivity.
Defined.

(** ** Substrings *)

Lemma prefix_append (a b : string) : String.prefix a (a +:+ b) = true.
Proof.
  induction a as [|c a IH]; simpl; [now destruct b |].
  destruct (ascii_dec c c); [exact IH | contradiction].
Qed.

Lemma prefix_split (a s : string) :
  String.prefix a s = true -> exists b, s = a +:+ b.
Proof.
  revert s. induction a as [|c a IH]; intros s.
  - intros _. now exists s.
  - destruct s as [|d s]; simpl; [discriminate |].
    destruct (ascii_dec c d) as [-> | _]; [|discriminate].
    intros H. destruct (IH s H) as (b & ->). now exists b.
Qed.

(** [includes] finds exactly the substrings. *)
Lemma includes_occurs_in (needle s : string) :
  includes needle s = true <-> occurs_in needle s.
Proof.
  split.
  - induction s as [|c s IH]; cbn [includes]; rewrite orb_true_iff.
    + intros [H | H]; [|discriminate].
      destruct (prefix_split _ _ H) as (b & Hb). exists "", b. exact Hb.
    + intros [H | H].
      * destruct (prefix_split _ _ H) as (b & Hb). exists "", b. exact Hb.
      * destruct (IH H) as (before & after & ->). now exists (String c before), after.
  - intros (before & after & ->).
    induction before as [|c before IH].
    + change ("" +:+ needle +:+ after) with (needle +:+ after).
      destruct (needle +:+ after) eqn:E; cbn [includes];
        rewrite <- E, prefix_append; reflexivity.
    + change (String c before +:+ needle +:+ after)
        with (String c (before +:+ needle +:+ after)).
      cbn [includes]. rewrite IH. apply orb_true_r.
Qed.

Lemma occurs_in_here (needle after : string) : occurs_in needle (needle +:+ after).
Proof. now exists "", after. Qed.

Lemma occurs_in_app_r (needle a b : string) :
  occurs_in needle b -> occurs_in needle (a +:+ b).
Proof.
  intros (before & after & ->). exists (a +:+ before), after.
  now rewrite append_assoc.
Qed.

Lemma occurs_in_app_l (needle a b : string) :
  occurs_in needle a -> occurs_in needle (a +:+ b).
Proof.
  intros (before & after & ->). exists before, (after +:+ b).
  now rewrite !append_assoc.
Qed.

(** The test of the retry is the test of the four substrings. *)
Lemma is_network_error_message (err : exn) :
  is_network_error err = true <-> network_message (exn_message err).
Proof.
  unfold is_network_error, network_message. split.
  - rewrite andb_true_iff, !orb_true_iff, !includes_occurs_in.
    intros (_ & [[[H | H] | H] | H]); eexists; (split; [|exact H]); simpl; auto.
  - intros (needle & Hin & Hocc).
    assert (Hne : truthy_string (exn_message err) = true).
    { destruct Hocc as (before & after & ->).
      simpl in Hin. destruct Hin as [<- | [<- | [<- | [<- | []]]]];
        destruct before; reflexivity. }
    rewrite Hne. cbn [andb]. rewrite !orb_true_iff, !includes_occurs_in.
    simpl in Hin. destruct Hin as [<- | [<- | [<- | [<- | []]]]]; auto.
Qed.

(** ** The response schema *)

Lemma conforms_string (d : string) (enum : list string) (x : json) :
  conforms (SchemaString d enum) x = true ->
  exists str, x = JStr str /\ (enum = [] \/ In str enum).
Proof.
  destruct x as [| | |str| |]; simpl; try discriminate.
  destruct enum as [|e enum]; intros H; exists str; (split; [reflexivity |]).
  - now left.
  - right. apply existsb_exists in H. destruct H as (y & Hin & Heq).
    apply String.eqb_eq in Heq. now subst y.
Qed.

Lemma conforms_array (d : string) (items : Schema) (x : json) :
  conforms (SchemaArray d items) x = true ->
  exists l, x = JArr l /\ Forall (fun y => conforms items y = true) l.
Proof.
  destruct x as [| | | |l|]; simpl; try discriminate.
  intros H. exists l. split; [reflexivity |].
  apply List.Forall_forall. now apply forallb_forall.
Qed.

Lemma conforms_strings (d : string) (l : list json) :
  Forall (fun y => conforms (SchemaString d []) y = true) l ->
  exists strs, l = map JStr strs.
Proof.
  induction 1 as [|x l Hx _ (strs & ->)]; [now exists [] |].
  destruct (conforms_string _ _ _ Hx) as (str & -> & _). now exists (str :: strs).
Qed.

(** The property [key] of a conforming object, when the schema lists it as
    [(key, schema)] and requires it. *)
Lemma conforms_required (properties : list (string * Schema)) (required : list string)
    (fields : list (string * json)) (key : string) (schema : Schema) :
  conforms (SchemaObject properties required) (JObj fields) = true ->
  In key required -> In (key, schema) properties ->
  exists x, lookup_field key fields = Some x /\ conforms schema x = true.
Proof.
  cbn [conforms]. rewrite andb_true_iff, !forallb_forall. intros (Hreq & Hprop) Hk Hp.
  specialize (Hreq key Hk). specialize (Hprop (key, schema) Hp). cbn [fst snd] in Hprop.
  destruct (lookup_field key fields) as [x|]; [|discriminate]. now exists x.
Qed.

(** The schema of the request admits the results the specification
    describes, and no other value. *)
Lemma conforms_chart (v : json) :
  conforms
    (SchemaObject
       [("id", SchemaString "" []);
        ("title", SchemaString "" []);
        ("type", SchemaString "" ["bar"; "line"; "area"; "pie"; "scatter"; "radar"]);
        ("xAxisKey", SchemaString "Exact column name to use for the X-axis (category)." []);
        ("dataKey", SchemaString "Exact column name to use for the Y-axis (numerical value)." []);
        ("description", SchemaString "Why this chart is relevant." [])]
       ["id"; "title"; "type"; "xAxisKey"; "dataKey"; "description"]) v = true ->
  is_chart_descriptor v.
Proof.
  destruct v as [| | | | |fields]; try discriminate. intros H.
  destruct (conforms_required _ _ _ "id" (SchemaString "" []) H) as (x1 & L1 & C1);
    [simpl; tauto | simpl; tauto |].
  destruct (conforms_required _ _ _ "title" (SchemaString "" []) H) as (x2 & L2 & C2);
    [simpl; tauto | simpl; tauto |].
  destruct (conforms_required _ _ _ "type" (SchemaString "" ["bar"; "line"; "area"; "pie"; "scatter"; "radar"]) H) as (x3 & L3 & C3);
    [simpl; tauto | simpl; tauto |].
  destruct (conforms_required _ _ _ "xAxisKey" (SchemaString "Exact column name to use for the X-axis (category)." []) H) as (x4 & L4 & C4);
    [simpl; tauto | simpl; tauto |].
  destruct (conforms_required _ _ _ "dataKey" (SchemaString "Exact column name to use for the Y-axis (numerical value)." []) H) as (x5 & L5 & C5);
    [simpl; tauto | simpl; tauto |].
  destruct (conforms_required _ _ _ "description" (SchemaString "Why this chart is relevant." []) H) as (x6 & L6 & C6);
    [simpl; tauto | simpl; tauto |].
  apply conforms_string in C1, C2, C3, C4, C5, C6.
  destruct C1 as (s1 & -> & _), C2 as (s2 & -> & _), C3 as (s3 & -> & [? | Hin]),
           C4 as (s4 & -> & _), C5 as (s5 & -> & _), C6 as (s6 & -> & _);
    [discriminate |].
  exists s1, s2, s3, s4, s5, s6. unfold member. repeat split; assumption.
Qed.

Lemma conforms_analysisSchema (v : json) :
  conforms analysisSchema v = true -> is_analysis_result v.
Proof.
  destruct v as [| | | | |fields]; try discriminate. unfold analysisSchema. intros H.
  destruct (conforms_required _ _ _ "summary" (SchemaString "A professional executive summary of the dataset suitable for ERP reporting. If answering a user question, address it here." []) H) as (x1 & L1 & C1);
    [simpl; tauto | simpl; tauto |].
  destruct (conforms_required _ _ _ "keyInsights" (SchemaArray "List of 3-5 specific, actionable insights derived from the data trends." (SchemaString "" [])) H) as (x2 & L2 & C2);
    [simpl; tauto | simpl; tauto |].
  match type of H with
  | conforms (SchemaObject [_; _; (_, ?charts)] _) _ = _ =>
      destruct (conforms_required _ _ _ "charts" charts H) as (x3 & L3 & C3);
      [simpl; tauto | simpl; tauto |]
  end.
  apply conforms_string in C1. destruct C1 as (summary & -> & _).
  apply conforms_array in C2. destruct C2 as (l & -> & Hl).
  apply conforms_strings in Hl. destruct Hl as (insights & ->).
  apply conforms_array in C3. destruct C3 as (charts & -> & Hc).
  exists summary, insights, charts. unfold member. repeat split; try assumption.
  eapply Forall_impl; [exact Hc |]. intros c. apply conforms_chart.
Qed.

(** ** Claims on the analysis request *)

(** ** The rows in the prompt *)

(** On rows whose cells are JSON values, [stringify_rows] is
    [JSON_stringify] of the array of the rows. *)
Lemma stringify_rows_of_json (rows : list (list (string * json))) :
  stringify_rows (map (map (fun kv => (fst kv, cell_of (snd kv)))) rows)
  = JSON_stringify (JArr (map JObj rows)).
Proof.
  unfold stringify_rows. cbn [JSON_stringify]. rewrite !map_map.
  f_equal. f_equal. f_equal. apply map_ext. intros row. cbn [JSON_stringify].
  f_equal. f_equal. f_equal.
  induction row as [|[k v] row IH]; [reflexivity |].
  cbn [map printed_members fst snd cell_of]. now rewrite IH.
Qed.

Section analysis_claims.

Variable generateContent :
  nat -> GenerateContentParameters -> result GenerateContentResponse.

Variable key : string.
Variable data : list ExcelDataRow.
Variable language : Language.
Variable userPrompt : option string.
Variable image : option ChatAttachment.
Variable history : list ChatMessage.
Variable templates : list AnalysisTemplate.
Variable s : Session.

(** The analysis, run with an API key, and the request it sends. *)
#[local] Abbreviation run :=
  (analyzeDataWithGemini generateContent (Some key) data language userPrompt image
     history templates s).

#[local] Abbreviation params := (request_of data language userPrompt image history templates).

(** The analysis when the first request is answered. *)
Lemma run_first_reply (response : GenerateContentResponse) :
  truthy_string key = true ->
  generateContent (sent s) params = Ok response ->
  run = (decode_reply response,
         {| sent := S (sent s);
            events := (events s ++ [AiRequest params]) ++ closing_events (decode_reply response) |}).
Proof.
  intros Hk H1. unfold analyzeDataWithGemini, createAIClient, performRequest.
  unfold request_of in *.
  rewrite Hk, H1. cbn [bind]. fold (decode_reply response).
  destruct (decode_reply response); unfold closing_events, record; simpl;
    now rewrite ?app_nil_r.
Qed.

(** The analysis when the first request throws an error that is not retried. *)
Lemma run_first_error (err : exn) :
  truthy_string key = true ->
  generateContent (sent s) params = Throw err ->
  is_network_error err = false ->
  run = (Throw err,
         {| sent := S (sent s);
            events := (events s ++ [AiRequest params])
                      ++ [AiError ("Gemini Analysis Error: " +:+ exn_message err)] |}).
Proof.
  intros Hk H1 Hn. unfold analyzeDataWithGemini, createAIClient, performRequest.
  unfold request_of in *.
  rewrite Hk, H1, Hn. reflexivity.
Qed.

(** The analysis when the first request throws an error that is retried. *)
Lemma run_retry (err : exn) :
  truthy_string key = true ->
  generateContent (sent s) params = Throw err ->
  is_network_error err = true ->
  let outcome := let* response := generateContent (S (sent s)) params in decode_reply response in
  run = (outcome,
         {| sent := S (S (sent s));
            events :=
              (events s
               ++ [AiRequest params;
                   AiWarn ("Retrying Gemini request due to network/server error: "
                           +:+ exn_message err);
                   AiSleep 1000;
                   AiRequest params])
              ++ closing_events outcome |}).
Proof.
  intros Hk H1 Hn. unfold analyzeDataWithGemini, createAIClient, performRequest.
  unfold request_of in *.
  rewrite Hk, H1, Hn. cbn [record sent events]. cbv zeta.
  destruct (generateContent (S (sent s)) _) as [response|err2]; cbn [bind].
  - fold (decode_reply response).
    destruct (decode_reply response); unfold closing_events, record; simpl;
      rewrite <- ?app_assoc; simpl; now rewrite ?app_nil_r.
  - unfold closing_events, record; simpl. rewrite <- !app_assoc. reflexivity.
Qed.

(** C1.  When the first request of the analysis throws an error whose
    message contains one of [500], [xhr], [fetch], [Rpc], the request is sent
    again exactly once, after a warning and a wait of 1000 ms: two requests
    are sent in all, and an error thrown by the second one is thrown to the
    caller.  When the message contains none of them, the error itself is
    thrown to the caller and no second request is sent. *)
Theorem retry_once_on_network_error (err : exn) :
  truthy_string key = true ->
  generateContent (sent s) params = Throw err ->
  (network_message (exn_message err) ->
   exists warning,
     events (snd run)
     = (events s ++ [AiRequest params; AiWarn warning; AiSleep 1000; AiRequest params])
       ++ closing_events (fst run) /\
     sent (snd run) = sent s + 2 /\
     forall err2, generateContent (S (sent s)) params = Throw err2 -> fst run = Throw err2)
  /\
  (~ network_message (exn_message err) ->
   fst run = Throw err /\
   sent (snd run) = sent s + 1 /\
   events (snd run) = (events s ++ [AiRequest params]) ++ closing_events (fst run)).
Proof.
  intros Hk H1. split; intros Hmsg.
  - apply is_network_error_message in Hmsg.
    rewrite (run_retry err Hk H1 Hmsg). cbn [fst snd sent events].
    eexists. split; [reflexivity |]. split; [lia |].
    intros err2 ->. reflexivity.
  - assert (Hn : is_network_error err = false).
    { destruct (is_network_error err) eqn:E; [|reflexivity].
      apply is_network_error_message in E. contradiction. }
    rewrite (run_first_error err Hk H1 Hn). cbn [fst snd sent events closing_events].
    repeat split. lia.
Qed.


(** A successful analysis returns the parsed text of a reply to a request
    of the analysis. *)
Lemma run_success (v : json) :
  fst run = Ok v ->
  exists n response t,
    generateContent n params = Ok response /\
    text response = Some t /\ truthy_string t = true /\ JSON_parse t = Ok v.
Proof.
  assert (Hdec : forall response, decode_reply response = Ok v ->
            exists t, text response = Some t /\ truthy_string t = true /\ JSON_parse t = Ok v).
  { intros response. unfold decode_reply, truthy_opt_string.
    destruct (text response) as [t|]; [|discriminate].
    destruct (truthy_string t) eqn:Ht; [|discriminate].
    intros H. now exists t. }
  unfold analyzeDataWithGemini, request_of.
  destruct (createAIClient (Some key)) as [ai|e]; [|discriminate].
  unfold performRequest.
  destruct (generateContent (sent s) _) as [response|err] eqn:H1.
  - cbn [bind]. fold (decode_reply response).
    destruct (decode_reply response) as [v'|e] eqn:Hd; cbn [fst]; [|discriminate].
    intros [= ->]. destruct (Hdec response Hd) as (t & ? & ? & ?).
    now exists (sent s), response, t.
  - destruct (is_network_error err).
    + cbn [record sent events].
      destruct (generateContent (S (sent s)) _) as [response|err2] eqn:H2; cbn [bind].
      * fold (decode_reply response).
        destruct (decode_reply response) as [v'|e] eqn:Hd; cbn [fst]; [|discriminate].
        intros [= ->]. destruct (Hdec response Hd) as (t & ? & ? & ?).
        now exists (S (sent s)), response, t.
      * discriminate.
    + discriminate.
Qed.

(** C7, as stated, fails: the reply is not validated.  A model that answers
    with the empty object makes the analysis succeed with the empty object,
    which has no summary. *)
Lemma analysis_returns_unvalidated_reply :
  fst (analyzeDataWithGemini (fun _ _ => Ok {| text := Some "{}" |}) (Some "key")
         sample_rows en_US None None [] [] fresh_session)
  = Ok (JObj []) /\
  ~ is_analysis_result (JObj []).
Proof.
  split; [vm_compute; reflexivity |].
  intros (summary & insights & charts & Hs & _). discriminate Hs.
Qed.

(** C7, amended.  Every successful result of the analysis is the parsed
    text of a reply to a request that carries the response schema
    [analysisSchema]; the result is not validated.  When the reply has no
    text, the analysis fails with [No response generated from AI.] and
    returns no value, on the first attempt as on the second.  Both hold
    whatever the hosted model does.  With a hosted model that honours the
    response schema of the request, every successful result moreover has the
    shape of that schema: a summary string, a list of insight strings
    [keyInsights] and a list of chart descriptors, each with an id, a title,
    a type out of bar, line, area, pie, scatter and radar, an x-axis key, a
    data key and a description. *)
Theorem analysis_result_shape :
  (forall v, fst run = Ok v ->
     exists n response t,
       generateContent n params = Ok response /\
       responseSchema params = analysisSchema /\
       text response = Some t /\ truthy_string t = true /\ JSON_parse t = Ok v)
  /\
  (forall response,
     truthy_string key = true ->
     generateContent (sent s) params = Ok response ->
     truthy_opt_string (text response) = false ->
     fst run = Throw (Error "No response generated from AI."))
  /\
  (forall err response,
     truthy_string key = true ->
     generateContent (sent s) params = Throw err ->
     network_message (exn_message err) ->
     generateContent (S (sent s)) params = Ok response ->
     truthy_opt_string (text response) = false ->
     fst run = Throw (Error "No response generated from AI."))
  /\
  (honours_schema generateContent ->
   forall v, fst run = Ok v -> is_analysis_result v).
Proof.
  split; [|split; [|split]].
  - intros v Hv. destruct (run_success v Hv) as (n & response & t & Hr & Ht & Hne & Hp).
    now exists n, response, t.
  - intros response Hk H1 Hno. rewrite (run_first_reply response Hk H1).
    cbn [fst]. unfold decode_reply. now rewrite Hno.
  - intros err response Hk H1 Hmsg H2 Hno.
    apply is_network_error_message in Hmsg.
    rewrite (run_retry err Hk H1 Hmsg). cbn [fst]. rewrite H2. cbn [bind].
    unfold decode_reply. now rewrite Hno.
  - intros Hmodel v Hv.
    destruct (run_success v Hv) as (n & response & t & Hr & Ht & Hne & Hp).
    apply conforms_analysisSchema.
    exact (Hmodel n params response t v Hr Ht Hp).
Qed.





End analysis_claims.

Lemma flaky_model_honours_schema : honours_schema flaky_model.
Proof.
  intros n params response t v. unfold flaky_model.
  destruct n as [|n]; [discriminate |].
  destruct (JSON_parse sample_reply) as [v0|e] eqn:Hp; [|discriminate].
  destruct (conforms (responseSchema params) v0) eqn:Hc; [|discriminate].
  intros [= <-]. cbn [text]. intros [= <-]. rewrite Hp. now intros [= <-].
Qed.

Lemma retry_once_on_network_error_witness :
  let run := analyzeDataWithGemini flaky_model (Some "key") sample_rows en_US
               None None [] [] fresh_session in
  let params := request_of sample_rows en_US None None [] [] in
  exists warning,
    events (snd run)
    = ([] ++ [AiRequest params; AiWarn warning; AiSleep 1000; AiRequest params])
      ++ closing_events (fst run) /\
    sent (snd run) = 2 /\
    forall err2, flaky_model 1 params = Throw err2 -> fst run = Throw err2.
Proof.
  refine (proj1 (retry_once_on_network_error flaky_model "key" sample_rows en_US
                   None None [] [] fresh_session (Error "TypeError: fetch failed")
                   eq_refl eq_refl) _).
  exists "fetch". split.
  - simpl. auto.
  - now exists "TypeError: ", " failed".
Defined.

Lemma analysis_result_shape_witness :
  honours_schema flaky_model /\
  exists v,
    fst (analyzeDataWithGemini flaky_model (Some "key") sample_rows en_US
           None None [] [] fresh_session) = Ok v /\
    is_analysis_result v.
Proof.
  split; [exact flaky_model_honours_schema |].
  eexists. split; [vm_compute; reflexivity |].
  apply (proj2 (proj2 (proj2 (analysis_result_shape flaky_model "key" sample_rows en_US
                                None None [] [] fresh_session)))
           flaky_model_honours_schema).
  vm_compute. reflexivity.
Defined.


(** * Reading and writing the directory *)

Lemma read_entries_files (dir : DirRef) (l : list (string * FsNode)) (w : World) :
  fst (read_entries dir l w) = files_of l.
Proof.
  revert w. induction l as [|[name [content|children]] l IH]; intros w; simpl.
  - reflexivity.
  - specialize (IH (emit (FsReadFile dir name) w)).
    destruct (read_entries dir l _) as [files w']. simpl in *. now rewrite IH.
  - apply IH.
Qed.

Lemma read_entries_frame (dir : DirRef) (l : list (string * FsNode)) (w : World) :
  rootHandle (snd (read_entries dir l w)) = rootHandle w /\
  localStorage (snd (read_entries dir l w)) = localStorage w.
Proof.
  revert w. induction l as [|[name [content|children]] l IH]; intros w; simpl.
  - now split.
  - specialize (IH (emit (FsReadFile dir name) w)).
    destruct (read_entries dir l _) as [files w']. simpl in *. exact IH.
  - apply IH.
Qed.

(** Reading the root: the files of the directory with permission, none
    without; the handle and the storage stay as they are. *)
Lemma readAllFiles_root (w : World) (root : DirectoryHandle) :
  rootHandle w = Some root ->
  fst (readAllFiles "" w) = (if granted root then files_of (entries root) else []) /\
  rootHandle (snd (readAllFiles "" w)) = Some root /\
  localStorage (snd (readAllFiles "" w)) = localStorage w.
Proof.
  intros Hr. unfold readAllFiles. cbn [truthy_string String.eqb negb].
  rewrite Hr. cbn [emit rootHandle]. destruct (granted root); cbn [negb dir_entries].
  - rewrite read_entries_files.
    destruct (read_entries_frame RootDir (entries root) (emit (FsListDir RootDir) w))
      as [H1 H2].
    rewrite H1, H2. cbn [emit rootHandle localStorage]. now rewrite Hr.
  - cbn [fst snd emit rootHandle localStorage]. now rewrite Hr.
Qed.

Lemma readAllFiles_root_none (w : World) :
  rootHandle w = None -> readAllFiles "" w = ([], w).
Proof.
  intros Hr. unfold readAllFiles. cbn [truthy_string String.eqb negb]. now rewrite Hr.
Qed.

(** The file written is the one found under its name; the files of other
    names are found as before. *)
Lemma find_file_set_entry (name content : string) (l : list (string * FsNode)) :
  (forall children, lookup_entry name l <> Some (FsDir children)) ->
  find_file name (files_of (set_entry name (FsFile content) l)) = Some content.
Proof.
  induction l as [|[n node] l IH]; simpl; intros Hfree.
  - now rewrite String.eqb_refl.
  - destruct (String.eqb_spec name n) as [<- | Hne].
    + destruct node as [old|children]; [|exfalso; now apply (Hfree children)].
      simpl. now rewrite String.eqb_refl.
    + destruct node as [old|children]; simpl.
      * destruct (String.eqb_spec n name) as [-> | _]; [contradiction |]. now apply IH.
      * now apply IH.
Qed.

Lemma find_file_set_entry_ne (name name' content : string) (l : list (string * FsNode)) :
  name' <> name ->
  find_file name' (files_of (set_entry name (FsFile content) l)) = find_file name' (files_of l).
Proof.
  intros Hne. induction l as [|[n node] l IH]; simpl.
  - destruct (String.eqb_spec name name'); [congruence | reflexivity].
  - destruct (String.eqb_spec name n) as [<- | Hn].
    + destruct node as [old|children]; simpl.
      * destruct (String.eqb_spec name name'); [congruence | reflexivity].
      * destruct (String.eqb_spec name name'); [congruence | reflexivity].
    + destruct node as [old|children]; simpl; [|exact IH].
      now rewrite IH.
Qed.

(** Writing a file into the root, when nothing stands in the way. *)
Lemma writeBinaryFile_root (fileName content : string) (w : World) (root : DirectoryHandle) :
  rootHandle w = Some root ->
  granted root = true ->
  fileName <> "" ->
  (forall children, lookup_entry fileName (entries root) <> Some (FsDir children)) ->
  writeBinaryFile "" fileName content w
  = set_rootHandle
      (Some (put_dir_entries root RootDir (set_entry fileName (FsFile content) (entries root))))
      (emit (FsWriteFile RootDir fileName content) w).
Proof.
  intros Hr Hg Hn Hfree. unfold writeBinaryFile. cbn [truthy_string String.eqb negb].
  rewrite Hr. cbn [emit rootHandle]. unfold write_file. rewrite Hg. cbn [negb].
  destruct (String.eqb_spec fileName "") as [-> | _]; [contradiction |].
  cbn [dir_entries bind].
  destruct (lookup_entry fileName (entries root)) as [[old|children]|] eqn:Hl.
  - reflexivity.
  - exfalso. now apply (Hfree children).
  - reflexivity.
Qed.

(** Writing a file into the root, when the write fails. *)
Lemma writeBinaryFile_root_fails (fileName content : string) (w : World)
    (root : DirectoryHandle) :
  rootHandle w = Some root ->
  (granted root = false \/ fileName = "" \/
   exists children, lookup_entry fileName (entries root) = Some (FsDir children)) ->
  writeBinaryFile "" fileName content w
  = emit (ConsoleError ("Failed to write binary file " +:+ "" +:+ "/" +:+ fileName))
      (emit (FsWriteFile RootDir fileName content) w).
Proof.
  intros Hr Hcase. unfold writeBinaryFile. cbn [truthy_string String.eqb negb].
  rewrite Hr. cbn [emit rootHandle]. unfold write_file.
  destruct (granted root) eqn:Hg; cbn [negb]; [|reflexivity].
  destruct (String.eqb_spec fileName "") as [-> | Hn]; [reflexivity |].
  destruct Hcase as [H | [H | (children & H)]]; [discriminate | contradiction |].
  cbn [dir_entries bind]. now rewrite H.
Qed.

(** * Further properties of the configuration store *)

Section more_records.

Context {R : Type}.
Variable rid : R -> string.

Lemma find_pos_None_not_In (id : string) (ids : list string) :
  find_pos id ids = None -> ~ In id ids.
Proof.
  induction ids as [|x ids IH]; simpl; [tauto |].
  destruct (String.eqb_spec x id) as [-> | Hne]; [discriminate |].
  destruct (find_pos id ids); [discriminate |].
  intros _ [H | H]; [contradiction | now apply IH].
Qed.

Lemma find_pos_app_new (id : string) (ids : list string) :
  ~ In id ids -> find_pos id (ids ++ [id]) = Some (length ids).
Proof.
  induction ids as [|x ids IH]; simpl; intros Hn.
  - now rewrite String.eqb_refl.
  - destruct (String.eqb_spec x id) as [-> | _]; [tauto |].
    rewrite IH by tauto. reflexivity.
Qed.

Lemma upsert_upsert (r : R) (rs : list R) :
  upsert rid r (upsert rid r rs) = upsert rid r rs.
Proof.
  unfold upsert at 2 3.
  destruct (find_pos (rid r) (map rid rs)) as [i|] eqn:Hf.
  - destruct (find_pos_lookup rid _ _ _ Hf) as (old & Hl & Ho).
    unfold upsert. rewrite (map_rid_insert rid i r old rs Hl Ho), Hf.
    apply list_insert_insert_eq.
  - unfold upsert. rewrite map_app. simpl.
    rewrite (find_pos_app_new _ _ (find_pos_None_not_In _ _ Hf)).
    rewrite length_map. rewrite insert_app_r_alt by lia.
    rewrite Nat.sub_diag. reflexivity.
Qed.

Lemma without_without (id : string) (rs : list R) :
  without rid id (without rid id rs) = without rid id rs.
Proof.
  unfold without. induction rs as [|x rs IH]; simpl; [reflexivity |].
  destruct (String.eqb (rid x) id) eqn:He; simpl; [exact IH |].
  rewrite He. simpl. now rewrite IH.
Qed.

Lemma without_absent (id : string) (rs : list R) :
  ~ In id (map rid rs) -> without rid id rs = rs.
Proof.
  unfold without. induction rs as [|x rs IH]; simpl; [reflexivity |].
  intros Hn. destruct (String.eqb_spec (rid x) id) as [He | _]; [tauto |].
  simpl. rewrite IH by tauto. reflexivity.
Qed.

Lemma without_upsert_new (r : R) (rs : list R) :
  ~ In (rid r) (map rid rs) -> without rid (rid r) (upsert rid r rs) = rs.
Proof.
  intros Hn. unfold upsert. rewrite (find_pos_not_In _ _ Hn).
  unfold without. rewrite List.filter_app. simpl.
  rewrite String.eqb_refl. simpl. rewrite app_nil_r.
  now apply without_absent.
Qed.

Lemma NoDup_upsert (r : R) (rs : list R) :
  NoDup (map rid rs) -> NoDup (map rid (upsert rid r rs)).
Proof.
  intros Hd. unfold upsert.
  destruct (find_pos (rid r) (map rid rs)) as [i|] eqn:Hf.
  - destruct (find_pos_lookup rid _ _ _ Hf) as (old & Hl & Ho).
    now rewrite (map_rid_insert rid i r old rs Hl Ho).
  - rewrite map_app. simpl. apply NoDup_app. split; [exact Hd |]. split.
    + intros x Hx Hx'. apply list_elem_of_In in Hx.
      apply list_elem_of_In in Hx'. destruct Hx' as [<- | []].
      now apply (find_pos_None_not_In _ _ Hf).
    + apply NoDup_singleton.
Qed.

Lemma In_map_without (id x : string) (rs : list R) :
  In x (map rid (without rid id rs)) -> In x (map rid rs).
Proof.
  unfold without. rewrite !in_map_iff. intros (r & Hr & Hin).
  apply filter_In in Hin. exists r. tauto.
Qed.

Lemma NoDup_without (id : string) (rs : list R) :
  NoDup (map rid rs) -> NoDup (map rid (without rid id rs)).
Proof.
  induction rs as [|x rs IH]; simpl; [trivial |].
  rewrite !NoDup_cons. intros [Hx Hd].
  fold (without rid id rs).
  destruct (negb (String.eqb (rid x) id)); simpl; [|now apply IH].
  apply NoDup_cons. split; [|now apply IH].
  intros Hin. apply Hx. apply list_elem_of_In. apply list_elem_of_In in Hin.
  now apply In_map_without in Hin.
Qed.

End more_records.

(** The four write operations, on a store that holds a list of records:
    the list is stored, then mirrored. *)
Lemma saveTemplate_syncs (tmpl : AnalysisTemplate) (ts : list AnalysisTemplate) (w : World) :
  stores_templates w ts ->
  saveTemplate tmpl w
  = Ok (snd (syncToDisk
               (save KEYS_TEMPLATES
                  (JArr (map template_to_json (upsert template_id tmpl ts))) w))).
Proof.
  unfold stores_templates, getTemplates, saveTemplate. intros Hl.
  rewrite Hl. cbn [bind].
  pose proof (upsert_records template_to_json template_id template_id_prop tmpl ts) as Hu.
  destruct (Array_findIndex _ _) as [index|e]; [|discriminate].
  cbn [bind] in *. injection Hu as Hu. cbn [Array_set Array_push]. now rewrite Hu.
Qed.

Lemma deleteTemplate_syncs (id : string) (ts : list AnalysisTemplate) (w : World) :
  stores_templates w ts ->
  deleteTemplate id w
  = Ok (snd (syncToDisk
               (save KEYS_TEMPLATES
                  (JArr (map template_to_json (without template_id id ts))) w))).
Proof.
  unfold stores_templates, getTemplates, deleteTemplate. intros Hl.
  rewrite Hl. cbn [bind]. unfold Array_filter.
  now rewrite (filter_items_records template_to_json template_id template_id_prop).
Qed.

Lemma saveGroup_syncs (group : AnalysisGroup) (gs : list AnalysisGroup) (w : World) :
  stores_groups w gs ->
  saveGroup group w
  = Ok (snd (syncToDisk
               (save KEYS_GROUPS (JArr (map group_to_json (upsert group_id group gs))) w))).
Proof.
  unfold stores_groups, getGroups, saveGroup. intros Hl.
  rewrite Hl. cbn [bind].
  pose proof (upsert_records group_to_json group_id group_id_prop group gs) as Hu.
  destruct (Array_findIndex _ _) as [index|e]; [|discriminate].
  cbn [bind] in *. injection Hu as Hu. cbn [Array_set Array_push]. now rewrite Hu.
Qed.

Lemma deleteGroup_syncs (id : string) (gs : list AnalysisGroup) (w : World) :
  stores_groups w gs ->
  deleteGroup id w
  = Ok (snd (syncToDisk
               (save KEYS_GROUPS (JArr (map group_to_json (without group_id id gs))) w))).
Proof.
  unfold stores_groups, getGroups, deleteGroup. intros Hl.
  rewrite Hl. cbn [bind]. unfold Array_filter.
  now rewrite (filter_items_records group_to_json group_id group_id_prop).
Qed.

Lemma localStorage_sync_save (key : string) (v : json) (w : World) :
  localStorage (snd (syncToDisk (save key v w)))
  = <[key := JSON_stringify v]> (localStorage w).
Proof. now rewrite localStorage_syncToDisk. Qed.

Lemma stores_templates_sync_save (ts : list AnalysisTemplate) (w : World) :
  stores_templates
    (snd (syncToDisk (save KEYS_TEMPLATES (JArr (map template_to_json ts)) w))) ts.
Proof. unfold stores_templates, getTemplates. rewrite load_syncToDisk. apply load_save. Qed.

Lemma stores_groups_sync_save (gs : list AnalysisGroup) (w : World) :
  stores_groups (snd (syncToDisk (save KEYS_GROUPS (JArr (map group_to_json gs)) w))) gs.
Proof. unfold stores_groups, getGroups. rewrite load_syncToDisk. apply load_save. Qed.

(** X1.  A record that is created and then deleted leaves no trace in the
    lists: on a store that holds the templates [ts] and the groups [gs],
    saving a template whose identifier is not yet stored and then deleting
    that identifier gives back a store that holds [ts] and [gs]; the same
    holds for a group. *)
Theorem create_then_delete_restores (t : AnalysisTemplate) (g : AnalysisGroup)
    (ts : list AnalysisTemplate) (gs : list AnalysisGroup) (w : World) :
  stores_templates w ts ->
  stores_groups w gs ->
  ~ In (template_id t) (map template_id ts) ->
  ~ In (group_id g) (map group_id gs) ->
  (exists w1 w2,
      saveTemplate t w = Ok w1 /\
      deleteTemplate (template_id t) w1 = Ok w2 /\
      stores_templates w2 ts /\ stores_groups w2 gs)
  /\
  (exists w1 w2,
      saveGroup g w = Ok w1 /\
      deleteGroup (group_id g) w1 = Ok w2 /\
      stores_groups w2 gs /\ stores_templates w2 ts).
Proof.
  intros Ht Hg Hnt Hng. split.
  - destruct (saveTemplate_stores t ts w Ht) as (w1 & Hs & Hst & Hgr).
    destruct (deleteTemplate_stores (template_id t) _ w1 Hst) as (w2 & Hd & Hdt & Hgr2).
    exists w1, w2. split; [exact Hs |]. split; [exact Hd |]. split.
    + now rewrite (without_upsert_new template_id t ts Hnt) in Hdt.
    + unfold stores_groups. now rewrite Hgr2, Hgr.
  - destruct (saveGroup_stores g gs w Hg) as (w1 & Hs & Hst & Htm).
    destruct (deleteGroup_stores (group_id g) _ w1 Hst) as (w2 & Hd & Hdt & Htm2).
    exists w1, w2. split; [exact Hs |]. split; [exact Hd |]. split.
    + now rewrite (without_upsert_new group_id g gs Hng) in Hdt.
    + unfold stores_templates. now rewrite Htm2, Htm.
Qed.

Lemma create_then_delete_restores_witness :
  exists w1 w2,
    saveTemplate {| template_id := "t9"; template_name := "Cash";
                    template_description := ""; systemInstruction := "You are a treasurer";
                    customPrompt := "" |} sample_world = Ok w1 /\
    deleteTemplate "t9" w1 = Ok w2 /\
    stores_templates w2 [sample_template; other_template] /\
    stores_groups w2 [sample_group].
Proof.
  refine (proj1 (create_then_delete_restores
                   {| template_id := "t9"; template_name := "Cash";
                      template_description := ""; systemInstruction := "You are a treasurer";
                      customPrompt := "" |}
                   {| group_id := "g9"; group_name := "Year end";
                      group_description := ""; templateIds := [] |}
                   [sample_template; other_template] [sample_group] sample_world _ _ _ _)).
  - vm_compute; reflexivity.
  - vm_compute; reflexivity.
  - simpl. intros [H | [H | []]]; discriminate H.
  - simpl. intros [H | []]; discriminate H.
Defined.

(** X2.  Saving or deleting twice is the same as doing it once: on a store
    that holds a list of templates, a second [saveTemplate] of the same
    template, and a second [deleteTemplate] of the same identifier, succeed
    and leave the storage exactly as the first one left it; the same holds
    for the groups. *)
Theorem repeated_write_changes_nothing (t : AnalysisTemplate) (g : AnalysisGroup)
    (id : string) (ts : list AnalysisTemplate) (gs : list AnalysisGroup) (w : World) :
  stores_templates w ts ->
  stores_groups w gs ->
  (exists w1 w2,
      saveTemplate t w = Ok w1 /\ saveTemplate t w1 = Ok w2 /\
      localStorage w2 = localStorage w1)
  /\
  (exists w1 w2,
      deleteTemplate id w = Ok w1 /\ deleteTemplate id w1 = Ok w2 /\
      localStorage w2 = localStorage w1)
  /\
  (exists w1 w2,
      saveGroup g w = Ok w1 /\ saveGroup g w1 = Ok w2 /\
      localStorage w2 = localStorage w1)
  /\
  (exists w1 w2,
      deleteGroup id w = Ok w1 /\ deleteGroup id w1 = Ok w2 /\
      localStorage w2 = localStorage w1).
Proof.
  intros Ht Hg. split; [|split; [|split]].
  - eexists _, _. split; [exact (saveTemplate_syncs t ts w Ht) |].
    split; [exact (saveTemplate_syncs t _ _ (stores_templates_sync_save _ w)) |].
    rewrite upsert_upsert, !localStorage_sync_save. apply insert_insert_eq.
  - eexists _, _. split; [exact (deleteTemplate_syncs id ts w Ht) |].
    split; [exact (deleteTemplate_syncs id _ _ (stores_templates_sync_save _ w)) |].
    rewrite without_without, !localStorage_sync_save. apply insert_insert_eq.
  - eexists _, _. split; [exact (saveGroup_syncs g gs w Hg) |].
    split; [exact (saveGroup_syncs g _ _ (stores_groups_sync_save _ w)) |].
    rewrite upsert_upsert, !localStorage_sync_save. apply insert_insert_eq.
  - eexists _, _. split; [exact (deleteGroup_syncs id gs w Hg) |].
    split; [exact (deleteGroup_syncs id _ _ (stores_groups_sync_save _ w)) |].
    rewrite without_without, !localStorage_sync_save. apply insert_insert_eq.
Qed.

Lemma repeated_write_changes_nothing_witness :
  exists w1 w2,
    saveTemplate sample_template_edited sample_world = Ok w1 /\
    saveTemplate sample_template_edited w1 = Ok w2 /\
    localStorage w2 = localStorage w1.
Proof.
  refine (proj1 (repeated_write_changes_nothing sample_template_edited sample_group "t1"
                   [sample_template; other_template] [sample_group] sample_world _ _)).
  - vm_compute; reflexivity.
  - vm_compute; reflexivity.
Defined.

(** X3.  The four write operations keep the identifiers pairwise distinct:
    on a store whose templates, and whose groups, have pairwise distinct
    identifiers, [saveTemplate], [deleteTemplate], [saveGroup] and
    [deleteGroup] succeed and leave a store whose templates and groups again
    have pairwise distinct identifiers, whether the identifier written was
    stored before or not. *)
Theorem identifiers_stay_distinct (t : AnalysisTemplate) (g : AnalysisGroup)
    (id : string) (ts : list AnalysisTemplate) (gs : list AnalysisGroup) (w : World) :
  stores_templates w ts ->
  stores_groups w gs ->
  NoDup (map template_id ts) ->
  NoDup (map group_id gs) ->
  let distinct w' :=
    exists ts' gs',
      stores_templates w' ts' /\ stores_groups w' gs' /\
      NoDup (map template_id ts') /\ NoDup (map group_id gs') in
  (exists w', saveTemplate t w = Ok w' /\ distinct w') /\
  (exists w', deleteTemplate id w = Ok w' /\ distinct w') /\
  (exists w', saveGroup g w = Ok w' /\ distinct w') /\
  (exists w', deleteGroup id w = Ok w' /\ distinct w').
Proof.
  intros Ht Hg Hdt Hdg distinct. unfold distinct. split; [|split; [|split]].
  - destruct (saveTemplate_stores t ts w Ht) as (w' & Hs & Hst & Hgr).
    exists w'. split; [exact Hs |]. exists (upsert template_id t ts), gs.
    split; [exact Hst |]. split; [unfold stores_groups; now rewrite Hgr |].
    split; [now apply NoDup_upsert | exact Hdg].
  - destruct (deleteTemplate_stores id ts w Ht) as (w' & Hs & Hst & Hgr).
    exists w'. split; [exact Hs |]. exists (without template_id id ts), gs.
    split; [exact Hst |]. split; [unfold stores_groups; now rewrite Hgr |].
    split; [now apply NoDup_without | exact Hdg].
  - destruct (saveGroup_stores g gs w Hg) as (w' & Hs & Hst & Htm).
    exists w'. split; [exact Hs |]. exists ts, (upsert group_id g gs).
    split; [unfold stores_templates; now rewrite Htm |]. split; [exact Hst |].
    split; [exact Hdt | now apply NoDup_upsert].
  - destruct (deleteGroup_stores id gs w Hg) as (w' & Hs & Hst & Htm).
    exists w'. split; [exact Hs |]. exists ts, (without group_id id gs).
    split; [unfold stores_templates; now rewrite Htm |]. split; [exact Hst |].
    split; [exact Hdt | now apply NoDup_without].
Qed.

Lemma identifiers_stay_distinct_witness :
  exists w',
    saveTemplate sample_template_edited sample_world = Ok w' /\
    exists ts' gs',
      stores_templates w' ts' /\ stores_groups w' gs' /\
      NoDup (map template_id ts') /\ NoDup (map group_id gs').
Proof.
  refine (proj1 (identifiers_stay_distinct sample_template_edited sample_group "t2"
                   [sample_template; other_template] [sample_group] sample_world _ _ _ _)).
  - vm_compute; reflexivity.
  - vm_compute; reflexivity.
  - apply (bool_decide_unpack _); vm_compute; exact I.
  - apply (bool_decide_unpack _); vm_compute; exact I.
Defined.

(** X4.  A stored text that is not JSON blocks every operation that reads
    it: when the text stored for the templates is not empty and
    [JSON.parse] throws on it, [getTemplates], [saveTemplate],
    [deleteTemplate] and (when the groups can be read) [exportConfigData]
    throw that error and change nothing, and [syncToDisk] with a directory
    handle returns [false] after logging; the operations on the groups still
    read and write the groups.  An import whose [templates] member is truthy
    replaces the text, after which [getTemplates] returns that member. *)
Theorem corrupt_storage_blocks_templates (item : string) (e : exn) (w : World) :
  localStorage w !! KEYS_TEMPLATES = Some item ->
  item <> "" ->
  JSON_parse item = Throw e ->
  getTemplates w = Throw e /\
  (forall t, saveTemplate t w = Throw e) /\
  (forall id, deleteTemplate id w = Throw e) /\
  (forall groups, getGroups w = Ok groups -> exportConfigData w = Throw e) /\
  (forall groups, getGroups w = Ok groups -> isHandleReady w = true ->
     syncToDisk w = (false, emit (ConsoleError "Sync to disk failed") w)) /\
  (forall g gs, stores_groups w gs ->
     exists w', saveGroup g w = Ok w' /\ stores_groups w' (upsert group_id g gs) /\
                getTemplates w' = Throw e) /\
  (forall data v, member data "templates" = Some v -> truthy v = true ->
     exists w', importConfigData data w = Ok w' /\ getTemplates w' = Ok v).
Proof.
  intros Hitem Hne Hparse.
  assert (Hload : load KEYS_TEMPLATES w = Throw e).
  { unfold load. rewrite Hitem. unfold truthy_string.
    destruct (String.eqb_spec item ""); [contradiction | exact Hparse]. }
  split; [exact Hload |].
  split; [intros t; unfold saveTemplate; now rewrite Hload |].
  split; [intros id; unfold deleteTemplate; now rewrite Hload |].
  assert (Hexp : forall groups, getGroups w = Ok groups -> exportConfigData w = Throw e).
  { intros groups Hg. unfold exportConfigData. unfold getGroups in Hg.
    now rewrite Hg, Hload. }
  split; [exact Hexp |].
  split.
  { intros groups Hg Hready. unfold syncToDisk. now rewrite Hready, (Hexp groups Hg). }
  split.
  { intros g gs Hg. destruct (saveGroup_stores g gs w Hg) as (w' & Hs & Hst & Htm).
    exists w'. split; [exact Hs |]. split; [exact Hst |]. now rewrite Htm. }
  intros data v Hm Hv.
  assert (Hd : truthy data = true) by (destruct data; try discriminate Hm; reflexivity).
  destruct (importConfigData_truthy data w Hd) as (w' & Hi & _ & Ht & _).
  exists w'. split; [exact Hi |]. rewrite Ht, Hm. cbn [after_import]. now rewrite Hv.
Qed.

Lemma corrupt_storage_blocks_templates_witness :
  let w := set_localStorage (<[KEYS_TEMPLATES := "[{"]> (localStorage sample_world))
             sample_world in
  getTemplates w = Throw (SyntaxError "Unexpected token in JSON") /\
  saveTemplate sample_template w = Throw (SyntaxError "Unexpected token in JSON").
Proof.
  intros w.
  destruct (corrupt_storage_blocks_templates "[{" (SyntaxError "Unexpected token in JSON") w)
    as (Hg & Hs & _).
  - reflexivity.
  - discriminate.
  - vm_compute. reflexivity.
  - split; [exact Hg | apply Hs].
Defined.

(** ** The mirror in the directory *)

Lemma CONFIG_FILENAME_not_empty : CONFIG_FILENAME <> "".
Proof. discriminate. Qed.

(** What [syncToDisk] does in a directory it can write in. *)
Lemma syncToDisk_writes (w : World) (root : DirectoryHandle) (groups templates : json) :
  rootHandle w = Some root ->
  writable_root root ->
  getGroups w = Ok groups ->
  getTemplates w = Ok templates ->
  let doc := JObj [("groups", groups); ("templates", templates);
                   ("exportedAt", JStr (now w)); ("version", JStr "3.0")] in
  let text := JSON_stringify_indent "  " "" doc in
  syncToDisk w
  = (true,
     set_rootHandle
       (Some (put_dir_entries root RootDir
                (set_entry CONFIG_FILENAME (FsFile text) (entries root))))
       (emit (FsWriteFile RootDir CONFIG_FILENAME text) w)).
Proof.
  intros Hr [Hgr Hfree] Hg Ht doc text.
  unfold syncToDisk, isHandleReady, exportConfigData. unfold getGroups, getTemplates in *.
  rewrite Hr, Hg, Ht. cbn [negb bind]. fold doc. fold text.
  now rewrite (writeBinaryFile_root CONFIG_FILENAME text w root Hr Hgr
                 CONFIG_FILENAME_not_empty Hfree).
Qed.

Lemma syncToDisk_mirrors (w : World) (root : DirectoryHandle) (groups templates : json) :
  rootHandle w = Some root ->
  writable_root root ->
  getGroups w = Ok groups ->
  getTemplates w = Ok templates ->
  mirrored (snd (syncToDisk w)).
Proof.
  intros Hr Hw Hg Ht. rewrite (syncToDisk_writes w root groups templates Hr Hw Hg Ht).
  cbn [snd]. unfold mirrored.
  eexists _, _, _, groups, templates. split; [reflexivity |].
  split; [apply lookup_set_entry |].
  split; [now apply JSON_parse_stringify_indent |].
  split; [exact Hg |]. split; [exact Ht |]. split; reflexivity.
Qed.

(** X5.  Every write of the configuration is mirrored: with a directory
    handle set, permission granted and no directory named [EXCEL_AI.json] in
    the way, on a store that holds a list of templates and a list of groups,
    each of [saveTemplate], [deleteTemplate], [saveGroup] and [deleteGroup]
    succeeds and leaves in the directory a file [EXCEL_AI.json] whose text is
    JSON and whose members [groups] and [templates] are the lists that
    [getGroups] and [getTemplates] return afterwards. *)
Theorem writes_are_mirrored (t : AnalysisTemplate) (g : AnalysisGroup) (id : string)
    (ts : list AnalysisTemplate) (gs : list AnalysisGroup)
    (w : World) (root : DirectoryHandle) :
  rootHandle w = Some root ->
  writable_root root ->
  stores_templates w ts ->
  stores_groups w gs ->
  (exists w', saveTemplate t w = Ok w' /\ mirrored w') /\
  (exists w', deleteTemplate id w = Ok w' /\ mirrored w') /\
  (exists w', saveGroup g w = Ok w' /\ mirrored w') /\
  (exists w', deleteGroup id w = Ok w' /\ mirrored w').
Proof.
  intros Hr Hw Ht Hg.
  assert (HT : forall v, mirrored (snd (syncToDisk (save KEYS_TEMPLATES v w)))).
  { intros v. apply (syncToDisk_mirrors _ root (JArr (map group_to_json gs)) v).
    - exact Hr.
    - exact Hw.
    - unfold getGroups. rewrite load_save_ne by apply keys_distinct. exact Hg.
    - apply load_save. }
  assert (HG : forall v, mirrored (snd (syncToDisk (save KEYS_GROUPS v w)))).
  { intros v. apply (syncToDisk_mirrors _ root v (JArr (map template_to_json ts))).
    - exact Hr.
    - exact Hw.
    - apply load_save.
    - unfold getTemplates. rewrite load_save_ne; [exact Ht |].
      intros H. symmetry in H. now apply keys_distinct. }
  split; [|split; [|split]].
  - eexists. split; [exact (saveTemplate_syncs t ts w Ht) | apply HT].
  - eexists. split; [exact (deleteTemplate_syncs id ts w Ht) | apply HT].
  - eexists. split; [exact (saveGroup_syncs g gs w Hg) | apply HG].
  - eexists. split; [exact (deleteGroup_syncs id gs w Hg) | apply HG].
Qed.

Lemma sample_directory_writable : writable_root sample_directory.
Proof. split; [reflexivity |]. intros children. vm_compute. discriminate. Qed.

Lemma writes_are_mirrored_witness :
  exists w', saveTemplate sample_template_edited synced_world = Ok w' /\ mirrored w'.
Proof.
  refine (proj1 (writes_are_mirrored sample_template_edited sample_group "t1"
                   [sample_template; other_template] [sample_group]
                   synced_world sample_directory _ _ _ _)).
  - reflexivity.
  - exact sample_directory_writable.
  - vm_compute; reflexivity.
  - vm_compute; reflexivity.
Defined.

(** X6.  The result of [syncToDisk] does not tell whether the file was
    written: with a directory handle set and a store that can be exported,
    when permission is not granted, or a directory is named [EXCEL_AI.json],
    [syncToDisk] still returns [true]; the write is attempted, its failure
    is logged by [writeBinaryFile], and the directory and the storage are
    left as they were. *)
Theorem syncToDisk_true_without_write (w : World) (root : DirectoryHandle)
    (groups templates : json) :
  rootHandle w = Some root ->
  getGroups w = Ok groups ->
  getTemplates w = Ok templates ->
  (granted root = false \/
   exists children, lookup_entry CONFIG_FILENAME (entries root) = Some (FsDir children)) ->
  exists w' text,
    syncToDisk w = (true, w') /\
    rootHandle w' = Some root /\
    localStorage w' = localStorage w /\
    trace w' = trace w ++ [FsWriteFile RootDir CONFIG_FILENAME text;
                           ConsoleError "Failed to write binary file /EXCEL_AI.json"].
Proof.
  intros Hr Hg Ht Hcase.
  unfold syncToDisk, isHandleReady, exportConfigData. unfold getGroups, getTemplates in *.
  rewrite Hr, Hg, Ht. cbn [negb bind].
  rewrite (writeBinaryFile_root_fails CONFIG_FILENAME _ w root Hr)
    by (destruct Hcase as [H | H]; [now left | now right; right]).
  eexists _, _. split; [reflexivity |].
  cbn [emit rootHandle localStorage trace]. split; [exact Hr |]. split; [reflexivity |].
  now rewrite <- app_assoc.
Qed.

Lemma syncToDisk_true_without_write_witness :
  let locked := {| handle_name := "ERP_AI"; granted := false; entries := [] |} in
  exists w' text,
    syncToDisk (setRootHandle locked sample_world) = (true, w') /\
    rootHandle w' = Some locked /\
    localStorage w' = localStorage (setRootHandle locked sample_world) /\
    trace w' = trace (setRootHandle locked sample_world)
               ++ [FsWriteFile RootDir CONFIG_FILENAME text;
                   ConsoleError "Failed to write binary file /EXCEL_AI.json"].
Proof.
  intros locked.
  refine (syncToDisk_true_without_write (setRootHandle locked sample_world) locked
            (JArr [group_to_json sample_group])
            (JArr [template_to_json sample_template; template_to_json other_template])
            _ _ _ _).
  - reflexivity.
  - vm_compute; reflexivity.
  - vm_compute; reflexivity.
  - now left.
Defined.

(** What [loadAutoConfig] does with the file it finds. *)
Lemma loadAutoConfig_reads (w : World) (root : DirectoryHandle) (text : string) (doc : json) :
  rootHandle w = Some root ->
  granted root = true ->
  find_file CONFIG_FILENAME (files_of (entries root)) = Some text ->
  JSON_parse text = Ok doc ->
  truthy doc = true ->
  exists w',
    loadAutoConfig w = (true, w') /\
    getGroups w' = after_import (member doc "groups") (getGroups w) /\
    getTemplates w' = after_import (member doc "templates") (getTemplates w) /\
    rootHandle w' = Some root.
Proof.
  intros Hr Hgr Hfile Hparse Hdoc. unfold loadAutoConfig, isHandleReady. rewrite Hr.
  cbn [negb]. destruct (readAllFiles_root w root Hr) as (Hfiles & Hroot & Hls).
  destruct (readAllFiles "" w) as [files w1]. cbn [fst snd] in *.
  rewrite Hgr in Hfiles. subst files. rewrite Hfile, Hparse. cbn [bind].
  destruct (importConfigData_truthy doc w1 Hdoc) as (w2 & Hi & Hg & Ht & Hr2 & _).
  rewrite Hi. eexists. split; [reflexivity |].
  unfold getGroups, getTemplates in *.
  rewrite (load_ext KEYS_GROUPS _ w2) by reflexivity.
  rewrite (load_ext KEYS_TEMPLATES _ w2) by reflexivity.
  rewrite Hg, Ht, (load_ext KEYS_GROUPS w1 w Hls), (load_ext KEYS_TEMPLATES w1 w Hls).
  repeat split. cbn [emit rootHandle]. now rewrite Hr2.
Qed.

(** X7.  The mirror restores the store: after a [syncToDisk] into a
    directory the service can write in, of a store whose groups and templates
    are truthy values (lists, for one), [loadAutoConfig] run with the same
    directory and any storage whatever (an emptied one, that of another
    browser) returns [true] and leaves a storage in which [getGroups] and
    [getTemplates] return what they returned when the mirror was written. *)
Theorem mirror_restores_store (w : World) (root : DirectoryHandle)
    (groups templates : json) (storage : gmap string string) :
  rootHandle w = Some root ->
  writable_root root ->
  getGroups w = Ok groups ->
  getTemplates w = Ok templates ->
  truthy groups = true ->
  truthy templates = true ->
  exists w1 w2,
    syncToDisk w = (true, w1) /\
    loadAutoConfig (set_localStorage storage w1) = (true, w2) /\
    getGroups w2 = Ok groups /\
    getTemplates w2 = Ok templates.
Proof.
  intros Hr Hw Hg Ht Hgt Htt.
  rewrite (syncToDisk_writes w root groups templates Hr Hw Hg Ht).
  match goal with |- context [(true, ?x)] => set (w1 := x) end.
  destruct (loadAutoConfig_reads (set_localStorage storage w1) _ _ _ eq_refl (proj1 Hw)
              (find_file_set_entry CONFIG_FILENAME _ (entries root) (proj2 Hw))
              (JSON_parse_stringify_indent "  " _ eq_refl) eq_refl)
    as (w2 & Hl & Hg2 & Ht2 & _).
  cbn [member lookup_field String.eqb Ascii.eqb Bool.eqb after_import] in Hg2, Ht2.
  rewrite Hgt in Hg2. rewrite Htt in Ht2.
  exists w1, w2. split; [reflexivity |]. split; [exact Hl |]. now split.
Qed.

Lemma mirror_restores_store_witness :
  exists w1 w2,
    syncToDisk synced_world = (true, w1) /\
    loadAutoConfig (set_localStorage ∅ w1) = (true, w2) /\
    getGroups w2 = Ok (JArr [group_to_json sample_group]) /\
    getTemplates w2
    = Ok (JArr [template_to_json sample_template; template_to_json other_template]).
Proof.
  refine (mirror_restores_store synced_world sample_directory _ _ ∅ _ _ _ _ _ _).
  - reflexivity.
  - exact sample_directory_writable.
  - vm_compute; reflexivity.
  - vm_compute; reflexivity.
  - reflexivity.
  - reflexivity.
Defined.

Lemma rootHandle_importConfigData (data : json) (w w' : World) :
  importConfigData data w = Ok w' -> rootHandle w' = rootHandle w.
Proof.
  unfold importConfigData. destruct (truthy data); [|discriminate]. cbn [negb].
  destruct (get_prop data "groups") as [g|]; [|discriminate]. cbn [bind].
  destruct (get_prop data "templates") as [t|]; [|discriminate]. cbn [bind].
  intros [= <-].
  destruct g as [g|]; destruct t as [t|];
    try destruct (truthy g); try destruct (truthy t); reflexivity.
Qed.

(** [loadAutoConfig] only reads the directory. *)
Lemma rootHandle_loadAutoConfig (w : World) :
  rootHandle (snd (loadAutoConfig w)) = rootHandle w.
Proof.
  unfold loadAutoConfig, isHandleReady.
  destruct (rootHandle w) as [root|] eqn:Hr; cbn [negb]; [|exact Hr].
  destruct (readAllFiles_root w root Hr) as (_ & Hroot & _).
  destruct (readAllFiles "" w) as [files w1]. cbn [fst snd] in *.
  destruct (find_file CONFIG_FILENAME files) as [content|]; [|exact Hroot].
  destruct (JSON_parse content) as [json|e]; cbn [bind]; [|exact Hroot].
  destruct (importConfigData json w1) as [w2|e] eqn:Hi; [|exact Hroot].
  cbn [snd emit rootHandle]. now rewrite (rootHandle_importConfigData _ _ _ Hi).
Qed.

(** X8.  [loadAutoConfig] only reads the directory, and a load that fails
    changes nothing: the directory handle is the same afterwards, whatever
    happens; whenever [false] is returned the storage is as it was; and
    [false] is returned when the root of the directory has no file named
    [EXCEL_AI.json], and when it has one whose text is not JSON, which is
    logged as a warning. *)
Theorem loadAutoConfig_rejects_quietly (w : World) :
  rootHandle (snd (loadAutoConfig w)) = rootHandle w /\
  (fst (loadAutoConfig w) = false ->
   localStorage (snd (loadAutoConfig w)) = localStorage w) /\
  (forall root,
     rootHandle w = Some root ->
     find_file CONFIG_FILENAME (files_of (entries root)) = None ->
     fst (loadAutoConfig w) = false) /\
  (forall root text,
     rootHandle w = Some root ->
     granted root = true ->
     find_file CONFIG_FILENAME (files_of (entries root)) = Some text ->
     is_ok (JSON_parse text) = false ->
     fst (loadAutoConfig w) = false /\
     exists before,
       trace (snd (loadAutoConfig w))
       = before ++ [ConsoleWarn "Failed to auto-load config"]).
Proof.
  split; [apply rootHandle_loadAutoConfig |].
  unfold loadAutoConfig, isHandleReady.
  destruct (rootHandle w) as [root|] eqn:Hr; cbn [negb].
  2:{ cbn [fst snd]. split; [reflexivity |]. split; intros; discriminate. }
  destruct (readAllFiles_root w root Hr) as (Hfiles & Hroot & Hls).
  destruct (readAllFiles "" w) as [files w1]. cbn [fst snd] in *.
  split; [|split].
  - destruct (find_file CONFIG_FILENAME files) as [content|]; [|intros _; exact Hls].
    destruct (JSON_parse content) as [json|e]; cbn [bind]; [|intros _; exact Hls].
    destruct (importConfigData json w1) as [w2|e]; [discriminate | intros _; exact Hls].
  - intros root' [= <-] Hnone. subst files.
    destruct (granted root); [now rewrite Hnone | reflexivity].
  - intros root' text [= <-] Hgr Hfile Hbad. subst files. rewrite Hgr, Hfile.
    destruct (JSON_parse text) as [json|e]; [discriminate |]. cbn [bind fst snd].
    split; [reflexivity |]. now exists (trace w1).
Qed.

(** X9.  The exported file carries the configuration to another store:
    [handleExportConfig] offers the file [EXCEL_AI.json], and the import of
    its text into any store leaves a store where [getGroups] returns the
    exported groups when these are truthy (a list, for one) and what the
    store held before when they are not; the same holds for the templates.
    The import leaves the directory handle alone: the file of the directory
    is not rewritten.  [handleImportConfig] shows the success alert exactly
    when both lists can be read back from that store and the callback of the
    parent, if there is one, returns; the lists shown are then the ones read
    back.  When a list cannot be read back, the handler logs the error and
    shows the error alert over the store the import has left. *)
Theorem exported_file_transfers (w w' : World) (groups templates : json) :
  getGroups w = Ok groups ->
  getTemplates w = Ok templates ->
  exists text w'',
    handleExportConfig w = Ok ("EXCEL_AI.json", text) /\
    getGroups w'' = (if truthy groups then Ok groups else getGroups w') /\
    getTemplates w'' = (if truthy templates then Ok templates else getTemplates w') /\
    rootHandle w'' = rootHandle w' /\
    trace w'' = trace w' /\
    forall onUpdate st,
      fst (fst (handleImportConfig onUpdate text st w'))
      = is_ok (getGroups w'') && is_ok (getTemplates w'')
        && is_ok (fst (optional_call onUpdate w'')) /\
      (forall shownGroups shownTemplates,
         getGroups w'' = Ok shownGroups ->
         getTemplates w'' = Ok shownTemplates ->
         is_ok (fst (optional_call onUpdate w'')) = true ->
         handleImportConfig onUpdate text st w'
         = ((true, {| shown_groups := shownGroups; shown_templates := shownTemplates;
                      editGroup := editGroup st; editTemplate := editTemplate st |}),
            snd (optional_call onUpdate w''))) /\
      (is_ok (getGroups w'') && is_ok (getTemplates w'') = false ->
       exists message,
         snd (handleImportConfig onUpdate text st w')
         = emit (ConsoleError message) w'').
Proof.
  intros Hg Ht. unfold handleExportConfig, exportConfigData.
  unfold getGroups, getTemplates in Hg, Ht. rewrite Hg, Ht. cbn [bind].
  set (doc := JObj [("groups", groups); ("templates", templates);
                    ("exportedAt", JStr (now w)); ("version", JStr "3.0")]).
  destruct (importConfigData_truthy doc w' eq_refl) as (w'' & Hi & Hg2 & Ht2 & Hr & Htr).
  cbn [doc member lookup_field String.eqb Ascii.eqb Bool.eqb after_import] in Hg2, Ht2.
  exists (JSON_stringify_indent "  " "" doc), w''. split; [reflexivity |].
  split; [exact Hg2 |]. split; [exact Ht2 |]. split; [exact Hr |]. split; [exact Htr |].
  intros onUpdate st.
  rewrite (handleImportConfig_accepted onUpdate _ st doc w' w''
             (JSON_parse_stringify_indent "  " doc eq_refl) Hi).
  clear Hg2 Ht2. unfold refreshData.
  destruct (getGroups w'') as [shownG|e1]; cbn [is_ok andb fst snd].
  2:{ split; [reflexivity |]. split; [discriminate |]. intros _. now eexists. }
  destruct (getTemplates w'') as [shownT|e2]; cbn [is_ok andb fst snd].
  2:{ split; [reflexivity |]. split; [discriminate |]. intros _. now eexists. }
  destruct (optional_call onUpdate w'') as [[[]|e] w3]; cbn [is_ok fst snd].
  - split; [reflexivity |]. split; [|discriminate].
    now intros shownGroups shownTemplates [= <-] [= <-] _.
  - split; [reflexivity |]. split; discriminate.
Qed.

Lemma exported_file_transfers_witness :
  exists text w'',
    handleExportConfig sample_world = Ok ("EXCEL_AI.json", text) /\
    getGroups w'' = Ok (JArr [group_to_json sample_group]) /\
    getTemplates w''
    = Ok (JArr [template_to_json sample_template; template_to_json other_template]) /\
    rootHandle w'' = None /\
    trace w'' = [] /\
    handleImportConfig None text
      {| shown_groups := JArr []; shown_templates := JArr [];
         editGroup := None; editTemplate := None |} fresh_world
    = ((true, {| shown_groups := JArr [group_to_json sample_group];
                 shown_templates :=
                   JArr [template_to_json sample_template;
                         template_to_json other_template];
                 editGroup := None; editTemplate := None |}), w'').
Proof.
  destruct (exported_file_transfers sample_world fresh_world
              (JArr [group_to_json sample_group])
              (JArr [template_to_json sample_template; template_to_json other_template])
              eq_refl eq_refl)
    as (text & w'' & He & Hg & Ht & Hr & Htr & Hh).
  exists text, w''. split; [exact He |]. split; [exact Hg |]. split; [exact Ht |].
  split; [exact Hr |]. split; [exact Htr |].
  exact (proj1 (proj2 (Hh None _)) _ _ Hg Ht eq_refl).
Defined.

(** * Further properties of the file system service *)

Lemma rootHandle_writeBinaryFile (dirName fileName content : string) (w : World) :
  rootHandle (writeBinaryFile dirName fileName content w)
  = match rootHandle w with
    | Some root => Some (write_in dirName fileName content root)
    | None => None
    end.
Proof.
  unfold writeBinaryFile, write_in, getDir.
  destruct (rootHandle w) as [root|] eqn:Hr.
  - destruct (truthy_string dirName).
    + destruct (getDirectoryHandle root dirName) as [root1|e]; cbn [emit set_rootHandle rootHandle].
      * destruct (write_file root1 (ChildDir dirName) fileName content); reflexivity.
      * now rewrite Hr.
    + rewrite Hr. destruct (write_file root RootDir fileName content);
        cbn [emit set_rootHandle rootHandle]; [reflexivity | exact Hr].
  - destruct (truthy_string dirName); now rewrite ?Hr.
Qed.

Lemma lookup_entry_app_new (name : string) (node : FsNode) (l : list (string * FsNode)) :
  lookup_entry name l = None -> lookup_entry name (l ++ [(name, node)]) = Some node.
Proof.
  induction l as [|[n x] l IH]; simpl.
  - now rewrite String.eqb_refl.
  - destruct (String.eqb name n); [discriminate | exact IH].
Qed.

Lemma files_of_app (l l' : list (string * FsNode)) :
  files_of (l ++ l') = files_of l ++ files_of l'.
Proof.
  induction l as [|[n [c|ch]] l IH]; simpl; [reflexivity | now rewrite IH | exact IH].
Qed.

Lemma files_of_set_entry_dir (name : string) (old new : list (string * FsNode))
    (l : list (string * FsNode)) :
  lookup_entry name l = Some (FsDir old) ->
  files_of (set_entry name (FsDir new) l) = files_of l.
Proof.
  induction l as [|[n x] l IH]; simpl; [discriminate |].
  destruct (String.eqb name n).
  - intros [= ->]. reflexivity.
  - intros H. destruct x; simpl; now rewrite (IH H).
Qed.

Lemma set_entry_set_entry (name : string) (a b : FsNode) (l : list (string * FsNode)) :
  set_entry name b (set_entry name a l) = set_entry name b l.
Proof.
  induction l as [|[n x] l IH]; simpl.
  - now rewrite String.eqb_refl.
  - destruct (String.eqb name n) eqn:He; simpl; rewrite He; [reflexivity | now rewrite IH].
Qed.

(** Entering a directory of the root: it is there afterwards, and the files
    of the root are the same. *)
Lemma getDirectoryHandle_enters (root : DirectoryHandle) (name : string) :
  granted root = true ->
  (forall c, lookup_entry name (entries root) <> Some (FsFile c)) ->
  exists root1,
    getDirectoryHandle root name = Ok root1 /\
    granted root1 = true /\
    lookup_entry name (entries root1) = Some (FsDir (children_of name root)) /\
    files_of (entries root1) = files_of (entries root).
Proof.
  intros Hg Hfile. unfold getDirectoryHandle, children_of. rewrite Hg. cbn [negb].
  destruct (lookup_entry name (entries root)) as [[c|children]|] eqn:Hl.
  - exfalso. now apply (Hfile c).
  - exists root. now repeat split.
  - eexists. split; [reflexivity |]. cbn [granted entries]. split; [reflexivity |].
    split; [now apply lookup_entry_app_new |].
    rewrite files_of_app. simpl. apply app_nil_r.
Qed.

Lemma getDirectoryHandle_refused (root : DirectoryHandle) (name : string) :
  (granted root = false \/ exists c, lookup_entry name (entries root) = Some (FsFile c)) ->
  exists e, getDirectoryHandle root name = Throw e.
Proof.
  unfold getDirectoryHandle. intros [Hg | (c & Hl)].
  - rewrite Hg. cbn [negb]. eauto.
  - destruct (granted root); cbn [negb]; [rewrite Hl |]; eauto.
Qed.

(** What [readAllFiles] returns, read off the directory. *)
Lemma fst_readAllFiles (dirName : string) (w : World) (root : DirectoryHandle) :
  rootHandle w = Some root ->
  fst (readAllFiles dirName w)
  = if truthy_string dirName then
      match getDirectoryHandle root dirName with
      | Ok root1 =>
          match dir_entries root1 (ChildDir dirName) with
          | Ok l => if granted root1 then files_of l else []
          | Throw _ => []
          end
      | Throw _ => []
      end
    else if granted root then files_of (entries root) else [].
Proof.
  intros Hr. destruct (truthy_string dirName) eqn:Hd.
  - unfold readAllFiles, getDir. rewrite Hd, Hr.
    destruct (getDirectoryHandle root dirName) as [root1|e];
      cbn [emit set_rootHandle rootHandle].
    + destruct (granted root1); cbn [negb].
      * destruct (dir_entries root1 (ChildDir dirName)) as [l|e]; [|reflexivity].
        apply read_entries_files.
      * now destruct (dir_entries root1 (ChildDir dirName)).
    + reflexivity.
  - assert (dirName = "") as ->.
    { unfold truthy_string in Hd. destruct (String.eqb_spec dirName ""); [assumption | discriminate]. }
    exact (proj1 (readAllFiles_root w root Hr)).
Qed.

(** Writing a file into a directory of the root, when nothing stands in the
    way. *)
Lemma write_in_child (dirName fileName content : string) (root : DirectoryHandle) :
  truthy_string dirName = true ->
  granted root = true ->
  (forall c, lookup_entry dirName (entries root) <> Some (FsFile c)) ->
  fileName <> "" ->
  (forall sub, lookup_entry fileName (children_of dirName root) <> Some (FsDir sub)) ->
  granted (write_in dirName fileName content root) = true /\
  lookup_entry dirName (entries (write_in dirName fileName content root))
  = Some (FsDir (set_entry fileName (FsFile content) (children_of dirName root))) /\
  files_of (entries (write_in dirName fileName content root)) = files_of (entries root).
Proof.
  intros Hd Hg Hfile Hn Hsub. unfold write_in. rewrite Hd.
  destruct (getDirectoryHandle_enters root dirName Hg Hfile) as (root1 & -> & Hg1 & Hl1 & Hf1).
  unfold write_file. rewrite Hg1. cbn [negb].
  destruct (String.eqb_spec fileName "") as [-> | _]; [contradiction |].
  cbn [dir_entries]. rewrite Hl1. cbn [bind].
  destruct (lookup_entry fileName (children_of dirName root)) as [[old|sub]|] eqn:Hl;
    try (exfalso; now apply (Hsub sub));
    (cbn [put_dir_entries granted entries]; split; [exact Hg1 |];
     split; [apply lookup_set_entry |];
     now rewrite (files_of_set_entry_dir _ _ _ _ Hl1)).
Qed.

(** Reading a directory of the root that is there. *)
Lemma read_child (dirName : string) (w : World) (root : DirectoryHandle)
    (l : list (string * FsNode)) :
  truthy_string dirName = true ->
  rootHandle w = Some root ->
  granted root = true ->
  lookup_entry dirName (entries root) = Some (FsDir l) ->
  fst (readAllFiles dirName w) = files_of l.
Proof.
  intros Hd Hr Hg Hl. rewrite (fst_readAllFiles dirName w root Hr), Hd.
  unfold getDirectoryHandle. rewrite Hg, Hl. cbn [negb dir_entries]. now rewrite Hl, Hg.
Qed.

(** Reading a directory of the root, there or not: it is entered first. *)
Lemma read_child_entered (dirName : string) (w : World) (root : DirectoryHandle) :
  truthy_string dirName = true ->
  rootHandle w = Some root ->
  granted root = true ->
  (forall c, lookup_entry dirName (entries root) <> Some (FsFile c)) ->
  fst (readAllFiles dirName w) = files_of (children_of dirName root).
Proof.
  intros Hd Hr Hg Hfile. rewrite (fst_readAllFiles dirName w root Hr), Hd.
  destruct (getDirectoryHandle_enters root dirName Hg Hfile) as (root1 & -> & Hg1 & Hl1 & _).
  cbn [dir_entries]. now rewrite Hl1, Hg1.
Qed.

(** X10.  A file written into the root of the directory is read back: with
    a directory handle set, permission granted, a file name that is not
    empty and no directory of that name in the root, after [writeBinaryFile]
    with the empty directory name [readAllFiles] of the root finds the
    content written under the file name, and under every other name the
    content it found before; the storage is not touched. *)
Theorem written_file_is_read_back (fileName content : string) (w : World)
    (root : DirectoryHandle) :
  rootHandle w = Some root ->
  granted root = true ->
  fileName <> "" ->
  (forall children, lookup_entry fileName (entries root) <> Some (FsDir children)) ->
  let w' := writeBinaryFile "" fileName content w in
  find_file fileName (fst (readAllFiles "" w')) = Some content /\
  (forall name, name <> fileName ->
     find_file name (fst (readAllFiles "" w')) = find_file name (fst (readAllFiles "" w))) /\
  localStorage w' = localStorage w.
Proof.
  intros Hr Hg Hn Hfree w'. subst w'.
  rewrite (writeBinaryFile_root fileName content w root Hr Hg Hn Hfree).
  match goal with |- context [readAllFiles "" ?x] => set (w' := x) end.
  destruct (readAllFiles_root w' _ eq_refl) as (Hf' & _).
  destruct (readAllFiles_root w root Hr) as (Hf & _).
  rewrite Hf', Hf. cbn [put_dir_entries granted entries]. rewrite Hg.
  split; [now apply find_file_set_entry |].
  split; [|reflexivity].
  intros name Hne. now apply find_file_set_entry_ne.
Qed.

Lemma written_file_is_read_back_witness :
  let w' := writeBinaryFile "" "summary.txt" "done" synced_world in
  find_file "summary.txt" (fst (readAllFiles "" w')) = Some "done" /\
  find_file "notes.txt" (fst (readAllFiles "" w')) = Some "hello".
Proof.
  intros w'.
  destruct (written_file_is_read_back "summary.txt" "done" synced_world sample_directory)
    as (Hnew & Hold & _).
  - reflexivity.
  - reflexivity.
  - discriminate.
  - intros children. vm_compute. discriminate.
  - split; [exact Hnew |]. rewrite Hold by discriminate. vm_compute. reflexivity.
Defined.

(** X11.  An uploaded spreadsheet is kept in [excel_history], apart from
    the files of the root: with a directory handle set, permission granted,
    a file name that is not empty, no file named [excel_history] in the root
    and no directory of the name of the upload inside [excel_history],
    [saveExcelFile] creates the directory [excel_history] when it is not
    there and writes the file into it; [readAllFiles] of [excel_history]
    then finds the content under the name of the upload and the earlier
    uploads of other names unchanged, while [readAllFiles] of the root
    returns exactly the files it returned before: an upload, whatever it is
    called, is never taken for the file [EXCEL_AI.json] of the root. *)
Theorem saveExcelFile_keeps_uploads_apart (fileName content : string) (w : World)
    (root : DirectoryHandle) :
  rootHandle w = Some root ->
  granted root = true ->
  fileName <> "" ->
  (forall c, lookup_entry "excel_history" (entries root) <> Some (FsFile c)) ->
  (forall sub,
     lookup_entry fileName (children_of "excel_history" root) <> Some (FsDir sub)) ->
  let w' := saveExcelFile fileName content w in
  find_file fileName (fst (readAllFiles "excel_history" w')) = Some content /\
  (forall name, name <> fileName ->
     find_file name (fst (readAllFiles "excel_history" w'))
     = find_file name (fst (readAllFiles "excel_history" w))) /\
  fst (readAllFiles "" w') = fst (readAllFiles "" w) /\
  localStorage w' = localStorage w.
Proof.
  intros Hr Hg Hn Hfile Hsub w'. subst w'. unfold saveExcelFile.
  pose proof (rootHandle_writeBinaryFile "excel_history" fileName content w) as Hr'.
  rewrite Hr in Hr'.
  destruct (write_in_child "excel_history" fileName content root eq_refl Hg Hfile Hn Hsub)
    as (Hg' & Hl' & Hf').
  rewrite (read_child "excel_history" _ _ _ eq_refl Hr' Hg' Hl').
  rewrite (read_child_entered "excel_history" w root eq_refl Hr Hg Hfile).
  rewrite (proj1 (readAllFiles_root _ _ Hr')), (proj1 (readAllFiles_root w root Hr)).
  rewrite Hg, Hg', Hf'.
  split; [now apply find_file_set_entry |].
  split; [intros name Hne; now apply find_file_set_entry_ne |].
  split; [reflexivity | apply localStorage_writeBinaryFile].
Qed.

Lemma saveExcelFile_keeps_uploads_apart_witness :
  let w' := saveExcelFile "EXCEL_AI.json" "PK.." synced_world in
  find_file "EXCEL_AI.json" (fst (readAllFiles "excel_history" w')) = Some "PK.." /\
  fst (readAllFiles "" w') = [("notes.txt", "hello")].
Proof.
  intros w'.
  destruct (saveExcelFile_keeps_uploads_apart "EXCEL_AI.json" "PK.." synced_world
              sample_directory)
    as (Hnew & _ & Hroot & _).
  - reflexivity.
  - reflexivity.
  - discriminate.
  - intros c. vm_compute. discriminate.
  - intros sub. vm_compute. discriminate.
  - subst w'. split; [exact Hnew |]. rewrite Hroot. vm_compute. reflexivity.
Defined.

Lemma getDirectoryHandle_again (root root1 : DirectoryHandle) (name : string) :
  getDirectoryHandle root name = Ok root1 ->
  getDirectoryHandle root1 name = Ok root1 /\
  granted root1 = true /\
  exists l, lookup_entry name (entries root1) = Some (FsDir l).
Proof.
  unfold getDirectoryHandle. destruct (granted root) eqn:Hg; cbn [negb]; [|discriminate].
  destruct (lookup_entry name (entries root)) as [[c|children]|] eqn:Hl; [discriminate | |].
  - intros [= <-]. rewrite Hg, Hl. cbn [negb]. eauto.
  - intros [= <-]. cbn [granted entries negb].
    rewrite (lookup_entry_app_new name (FsDir []) _ Hl). eauto.
Qed.

Lemma write_file_again (root root1 : DirectoryHandle) (dir : DirRef)
    (fileName content content' : string) :
  write_file root dir fileName content = Ok root1 ->
  write_file root1 dir fileName content' = write_file root dir fileName content'.
Proof.
  unfold write_file. destruct (granted root) eqn:Hg; cbn [negb]; [|discriminate].
  destruct (String.eqb fileName ""); [discriminate |].
  destruct dir as [|name]; cbn [dir_entries].
  - cbn [bind].
    destruct (lookup_entry fileName (entries root)) as [[old|sub]|] eqn:Hl;
      try discriminate;
      (intros [= <-]; cbn [put_dir_entries granted entries negb]; rewrite Hg;
       cbn [negb bind]; rewrite lookup_set_entry, set_entry_set_entry; reflexivity).
  - destruct (lookup_entry name (entries root)) as [[c|l]|] eqn:Hd; try discriminate.
    cbn [bind].
    destruct (lookup_entry fileName l) as [[old|sub]|] eqn:Hl;
      try discriminate;
      (intros [= <-]; cbn [put_dir_entries granted entries negb]; rewrite Hg;
       cbn [negb]; rewrite lookup_set_entry; cbn [bind];
       rewrite lookup_set_entry, !set_entry_set_entry; reflexivity).
Qed.

Lemma write_in_again (dirName fileName content content' : string) (root : DirectoryHandle) :
  write_in dirName fileName content' (write_in dirName fileName content root)
  = write_in dirName fileName content' root.
Proof.
  unfold write_in. destruct (truthy_string dirName).
  - destruct (getDirectoryHandle root dirName) as [root1|e] eqn:Hd.
    + destruct (getDirectoryHandle_again _ _ _ Hd) as (Hd1 & Hg1 & l & Hl1).
      destruct (write_file root1 (ChildDir dirName) fileName content) as [root2|e] eqn:Hw.
      * assert (Hd2 : getDirectoryHandle root2 dirName = Ok root2).
        { revert Hw. unfold write_file. rewrite Hg1. cbn [negb].
          destruct (String.eqb fileName ""); [discriminate |].
          cbn [dir_entries]. rewrite Hl1. cbn [bind].
          destruct (lookup_entry fileName l) as [[old|sub]|]; try discriminate;
            (intros [= <-]; unfold getDirectoryHandle;
             cbn [put_dir_entries granted entries]; rewrite Hg1; cbn [negb];
             now rewrite lookup_set_entry). }
        rewrite Hd2, (write_file_again _ _ _ _ _ content' Hw).
        destruct (write_file root1 (ChildDir dirName) fileName content') as [root3|e'] eqn:Hw'.
        -- reflexivity.
        -- exfalso. revert Hw Hw'. unfold write_file. rewrite Hg1. cbn [negb].
           destruct (String.eqb fileName ""); [discriminate |].
           cbn [dir_entries]. rewrite Hl1. cbn [bind].
           destruct (lookup_entry fileName l) as [[old|sub]|]; discriminate.
      * rewrite Hd1.
        assert (Hw' : exists e', write_file root1 (ChildDir dirName) fileName content' = Throw e').
        { revert Hw. unfold write_file. rewrite Hg1. cbn [negb].
          destruct (String.eqb fileName ""); [eauto |].
          cbn [dir_entries]. rewrite Hl1. cbn [bind].
          destruct (lookup_entry fileName l) as [[old|sub]|]; try discriminate; eauto. }
        destruct Hw' as (e' & ->). reflexivity.
    + now rewrite Hd.
  - destruct (write_file root RootDir fileName content) as [root1|e] eqn:Hw.
    + rewrite (write_file_again _ _ _ _ _ content' Hw).
      destruct (write_file root RootDir fileName content') as [root2|e'] eqn:Hw'.
      * reflexivity.
      * exfalso. revert Hw Hw'. unfold write_file.
        destruct (granted root); cbn [negb]; [|discriminate].
        destruct (String.eqb fileName ""); [discriminate |].
        cbn [dir_entries bind].
        destruct (lookup_entry fileName (entries root)) as [[old|sub]|]; discriminate.
    + assert (Hw' : exists e', write_file root RootDir fileName content' = Throw e').
      { revert Hw. unfold write_file.
        destruct (granted root); cbn [negb]; [|eauto].
        destruct (String.eqb fileName ""); [eauto |].
        cbn [dir_entries bind].
        destruct (lookup_entry fileName (entries root)) as [[old|sub]|];
          try discriminate; eauto. }
      destruct Hw' as (e' & ->). reflexivity.
Qed.

(** X12.  The last write of a name wins: two calls of [writeBinaryFile]
    with the same directory name and the same file name leave the directory
    as the second call alone leaves it, whatever the two contents, with or
    without permission, and whether the writes succeed or fail; so a
    spreadsheet uploaded again under the same name replaces the earlier one
    in [excel_history], and no second copy is kept. *)
Theorem last_write_of_a_name_wins (dirName fileName content content' : string) (w : World) :
  rootHandle (writeBinaryFile dirName fileName content'
                (writeBinaryFile dirName fileName content w))
  = rootHandle (writeBinaryFile dirName fileName content' w) /\
  rootHandle (saveExcelFile fileName content' (saveExcelFile fileName content w))
  = rootHandle (saveExcelFile fileName content' w).
Proof.
  assert (H : forall d,
             rootHandle (writeBinaryFile d fileName content'
                           (writeBinaryFile d fileName content w))
             = rootHandle (writeBinaryFile d fileName content' w)).
  { intros d. rewrite !rootHandle_writeBinaryFile.
    destruct (rootHandle w) as [root|]; [|reflexivity].
    now rewrite write_in_again. }
  split; [apply H | apply (H "excel_history")].
Qed.

(** X13.  Without permission nothing is read or written: with a directory
    handle set whose permission is not granted,
    [writeBinaryFile] leaves the directory as it is, [readAllFiles] returns
    no file, and each of them logs one error after its one attempt on the
    handle; [loadAutoConfig] then returns [false]. *)
Theorem without_permission_nothing_moves (dirName fileName content : string)
    (w : World) (root : DirectoryHandle) :
  rootHandle w = Some root ->
  granted root = false ->
  (rootHandle (writeBinaryFile dirName fileName content w) = Some root /\
   exists attempt message,
     trace (writeBinaryFile dirName fileName content w)
     = trace w ++ [attempt; ConsoleError message]) /\
  (fst (readAllFiles dirName w) = [] /\
   rootHandle (snd (readAllFiles dirName w)) = Some root /\
   exists attempt message,
     trace (snd (readAllFiles dirName w)) = trace w ++ [attempt; ConsoleError message]) /\
  fst (loadAutoConfig w) = false.
Proof.
  intros Hr Hg. split; [|split].
  - unfold writeBinaryFile, getDir, getDirectoryHandle, write_file.
    destruct (truthy_string dirName); rewrite Hr, ?Hg; cbn [negb emit rootHandle trace];
      rewrite ?Hr, ?Hg; cbn [negb emit rootHandle trace];
      (split; [first [exact Hr | reflexivity] |]); eexists _, _; now rewrite <- app_assoc.
  - unfold readAllFiles, getDir, getDirectoryHandle.
    destruct (truthy_string dirName); rewrite Hr, ?Hg; cbn [negb emit rootHandle trace];
      rewrite ?Hr, ?Hg; cbn [negb emit rootHandle trace fst snd];
      (split; [reflexivity |]); (split; [first [exact Hr | reflexivity] |]);
      eexists _, _; now rewrite <- app_assoc.
  - unfold loadAutoConfig, isHandleReady. rewrite Hr. cbn [negb].
    pose proof (proj1 (readAllFiles_root w root Hr)) as Hf. rewrite Hg in Hf.
    destruct (readAllFiles "" w) as [files w1]. cbn [fst] in Hf. now subst files.
Qed.

Lemma without_permission_nothing_moves_witness :
  let locked := {| handle_name := "ERP_AI"; granted := false;
                   entries := [("EXCEL_AI.json", FsFile "{}")] |} in
  let w := setRootHandle locked sample_world in
  rootHandle (saveExcelFile "sales.xlsx" "PK.." w) = Some locked /\
  fst (readAllFiles "" w) = [] /\
  fst (loadAutoConfig w) = false.
Proof.
  intros locked w.
  destruct (without_permission_nothing_moves "excel_history" "sales.xlsx" "PK.." w locked
              eq_refl eq_refl) as ((Hw & _) & _ & Hl).
  destruct (without_permission_nothing_moves "" "sales.xlsx" "PK.." w locked
              eq_refl eq_refl) as (_ & (Hf & _) & _).
  split; [exact Hw |]. split; [exact Hf | exact Hl].
Defined.

(** * The directory picker, the stored handle and the start of the application *)

Lemma is_blocked_message (msg : string) :
  truthy_string msg && (includes "Cross origin" msg || includes "SecurityError" msg) = true
  <-> blocked_message msg.
Proof.
  unfold blocked_message. rewrite andb_true_iff, orb_true_iff, !includes_occurs_in.
  split; [tauto |]. intros H. split; [|exact H].
  destruct H as [(before & after & ->) | (before & after & ->)]; now destruct before.
Qed.

(** The body of [selectDirectory] once a directory is picked. *)
Lemma pick_directory_picked (b : Browser) (picked : DirectoryHandle) (p : Page) :
  exists p1,
    rootHandle (page_world p1) = Some (kept_handle picked) /\
    localStorage (page_world p1) = localStorage (page_world p) /\
    handles p1 = handles p /\
    (exists warnings, trace (page_world p1) = trace (page_world p) ++ warnings) /\
    pick_directory b (Ok picked) p
    = match indexedDB_error b with
      | Some e => (Throw e, p1)
      | None =>
          (Ok (handle_name (kept_handle picked)),
           {| page_world := page_world p1;
              handles := <[KEY_ROOT := kept_handle picked]> (handles p) |})
      end.
Proof.
  unfold pick_directory, kept_handle, idb_put.
  destruct (String.eqb (handle_name picked) "ERP_AI"); cbn [negb].
  - exists (on_world (set_rootHandle (Some picked)) p).
    split; [reflexivity |]. split; [reflexivity |]. split; [reflexivity |].
    split; [exists []; cbn; now rewrite app_nil_r |].
    destruct (indexedDB_error b); reflexivity.
  - destruct (getSubdirectoryHandle picked "ERP_AI") as [subHandle|e].
    + exists (on_world (set_rootHandle (Some subHandle)) p).
      split; [reflexivity |]. split; [reflexivity |]. split; [reflexivity |].
      split; [exists []; cbn; now rewrite app_nil_r |].
      destruct (indexedDB_error b); reflexivity.
    + exists (on_world (set_rootHandle (Some picked))
                (on_world
                   (emit (ConsoleWarn
                      "Could not auto-create ERP_AI subfolder, using selected folder instead."))
                   p)).
      split; [reflexivity |]. split; [reflexivity |]. split; [reflexivity |].
      split; [eexists; reflexivity |].
      destruct (indexedDB_error b); reflexivity.
Qed.

(** X14.  A picked directory is kept and persisted: when the picker
    returns a directory and IndexedDB works, [selectDirectory] returns the
    name of the handle it keeps, sets it as the root handle and stores it,
    so that [getStoredHandle] returns it; the storage of the configuration
    is not touched.  The handle kept is the picked directory when that is
    named [ERP_AI]; otherwise it is the directory [ERP_AI] inside the picked
    one, with the entries that directory has (none when it is created),
    provided permission is granted and no file has that name; and it is the
    picked directory itself when [ERP_AI] cannot be had. *)
Theorem selectDirectory_keeps_and_persists (b : Browser) (p : Page)
    (picked : DirectoryHandle) :
  showDirectoryPicker b = Some (Ok picked) ->
  indexedDB_error b = None ->
  exists handle p',
    selectDirectory b p = (Ok (handle_name handle), p') /\
    rootHandle (page_world p') = Some handle /\
    getStoredHandle b p' = (Some handle, p') /\
    localStorage (page_world p') = localStorage (page_world p) /\
    (handle_name picked = "ERP_AI" -> handle = picked) /\
    (handle_name picked <> "ERP_AI" ->
     granted picked = true ->
     (forall c, lookup_entry "ERP_AI" (entries picked) <> Some (FsFile c)) ->
     handle_name handle = "ERP_AI" /\
     granted handle = true /\
     entries handle = children_of "ERP_AI" picked) /\
    (handle_name picked <> "ERP_AI" ->
     (granted picked = false \/
      exists c, lookup_entry "ERP_AI" (entries picked) = Some (FsFile c)) ->
     handle = picked).
Proof.
  intros Hpick Hidb.
  destruct (pick_directory_picked b picked p) as (p1 & Hroot & Hls & Hh & _ & Hp).
  rewrite Hidb in Hp.
  eexists (kept_handle picked), _. unfold selectDirectory. rewrite Hpick, Hp.
  split; [reflexivity |]. cbn [page_world]. split; [exact Hroot |].
  split.
  { unfold getStoredHandle, idb_get. rewrite Hidb. cbn [handles].
    now rewrite lookup_insert_eq. }
  split; [exact Hls |].
  unfold kept_handle, getSubdirectoryHandle, children_of.
  split; [|split].
  - intros ->. reflexivity.
  - intros Hname Hg Hfile.
    destruct (String.eqb_spec (handle_name picked) "ERP_AI"); [contradiction |].
    rewrite Hg. cbn [negb].
    destruct (lookup_entry "ERP_AI" (entries picked)) as [[c|children]|] eqn:Hl;
      [exfalso; now apply (Hfile c) | |]; cbn [handle_name granted entries]; auto.
  - intros Hname Hcase.
    destruct (String.eqb_spec (handle_name picked) "ERP_AI"); [contradiction |].
    destruct Hcase as [Hg | (c & Hl)].
    + rewrite Hg. reflexivity.
    + destruct (granted picked); cbn [negb]; [now rewrite Hl | reflexivity].
Qed.

Lemma selectDirectory_keeps_and_persists_witness :
  let home := {| handle_name := "Documents"; granted := true;
                 entries := [("ERP_AI", FsDir [("EXCEL_AI.json", FsFile "{}")])] |} in
  let b := {| showDirectoryPicker := Some (Ok home); indexedDB_error := None;
              requestPermission := Ok "granted" |} in
  let p := {| page_world := sample_world; handles := ∅ |} in
  exists handle p',
    selectDirectory b p = (Ok "ERP_AI", p') /\
    rootHandle (page_world p') = Some handle /\
    getStoredHandle b p' = (Some handle, p') /\
    entries handle = [("EXCEL_AI.json", FsFile "{}")].
Proof.
  intros home b p.
  destruct (selectDirectory_keeps_and_persists b p home eq_refl eq_refl)
    as (handle & p' & Hs & Hr & Hg & _ & _ & Hsub & _).
  destruct Hsub as (Hn & _ & He).
  - discriminate.
  - reflexivity.
  - intros c. vm_compute. discriminate.
  - exists handle, p'. rewrite Hn in Hs. now repeat split.
Defined.

(** X15.  The failures of the picker: in a browser without
    [showDirectoryPicker] the error names the missing API and nothing else
    happens; when the picker rejects, the root handle and the stored handle
    stay as they were, and the error thrown is the error of the picker
    itself, without any logging, when its name is [AbortError] (the user
    closed the picker); the error about the embedded preview, after a
    warning, when the message contains [Cross origin] or [SecurityError]; and
    the error of the picker after an error is logged, in every other
    case. *)
Theorem selectDirectory_failures (b : Browser) (p : Page) :
  (showDirectoryPicker b = None ->
   selectDirectory b p
   = (Throw (Error "This browser does not support the File System Access API."), p))
  /\
  (forall e,
     showDirectoryPicker b = Some (Throw e) ->
     rootHandle (page_world (snd (selectDirectory b p))) = rootHandle (page_world p) /\
     handles (snd (selectDirectory b p)) = handles p /\
     localStorage (page_world (snd (selectDirectory b p))) = localStorage (page_world p) /\
     (exn_name e = "AbortError" -> selectDirectory b p = (Throw e, p)) /\
     (exn_name e <> "AbortError" -> blocked_message (exn_message e) ->
      selectDirectory b p
      = (Throw blocked_error,
         on_world (emit (ConsoleWarn "File System Access blocked: iframe detected.")) p)) /\
     (exn_name e <> "AbortError" -> ~ blocked_message (exn_message e) ->
      selectDirectory b p
      = (Throw e, on_world (emit (ConsoleError "Directory selection failed")) p))).
Proof.
  split; [unfold selectDirectory; now intros -> |].
  intros e He. unfold selectDirectory. rewrite He. cbn [pick_directory].
  destruct (String.eqb_spec (exn_name e) "AbortError") as [Hn | Hn].
  - cbn [snd]. repeat split; tauto.
  - destruct (truthy_string (exn_message e)
              && (includes "Cross origin" (exn_message e)
                  || includes "SecurityError" (exn_message e))) eqn:Hb.
    + apply is_blocked_message in Hb. cbn [snd on_world page_world handles].
      repeat split; tauto.
    + assert (Hnb : ~ blocked_message (exn_message e)).
      { intros H. apply is_blocked_message in H. congruence. }
      cbn [snd on_world page_world handles]. repeat split; tauto.
Qed.

(** X16.  A handle that cannot be persisted is still used: when the picker
    returns a directory and IndexedDB fails, [selectDirectory] throws, but
    the root handle is already set to the handle of the picked directory, so
    the service is ready for this session, while nothing is stored and
    [getStoredHandle] returns no handle. *)
Theorem selectDirectory_unpersisted (b : Browser) (p : Page)
    (picked : DirectoryHandle) (e : exn) :
  showDirectoryPicker b = Some (Ok picked) ->
  indexedDB_error b = Some e ->
  let p' := snd (selectDirectory b p) in
  is_ok (fst (selectDirectory b p)) = false /\
  (exn_name e = "AbortError" \/ ~ blocked_message (exn_message e) ->
   fst (selectDirectory b p) = Throw e) /\
  rootHandle (page_world p') = Some (kept_handle picked) /\
  isHandleReady (page_world p') = true /\
  handles p' = handles p /\
  fst (getStoredHandle b p') = None.
Proof.
  intros Hpick Hidb p'. subst p'.
  destruct (pick_directory_picked b picked p) as (p1 & Hroot & Hls & Hh & _ & Hp).
  rewrite Hidb in Hp. unfold selectDirectory. rewrite Hpick, Hp.
  assert (Hget : forall q, fst (getStoredHandle b q) = None).
  { intros q. unfold getStoredHandle, idb_get. now rewrite Hidb. }
  unfold isHandleReady.
  destruct (String.eqb_spec (exn_name e) "AbortError") as [Hn | Hn].
  - cbn [fst snd is_ok]. rewrite Hroot. now repeat split.
  - destruct (truthy_string (exn_message e)
              && (includes "Cross origin" (exn_message e)
                  || includes "SecurityError" (exn_message e))) eqn:Hb;
      cbn [fst snd is_ok on_world page_world handles emit rootHandle]; rewrite Hroot;
      repeat split; try assumption; try apply Hget.
    + apply is_blocked_message in Hb. tauto.
Qed.

Lemma selectDirectory_unpersisted_witness :
  let b := {| showDirectoryPicker := Some (Ok sample_directory);
              indexedDB_error := Some (MkExn "InvalidStateError" "The database is closed");
              requestPermission := Ok "granted" |} in
  let p := {| page_world := sample_world; handles := ∅ |} in
  is_ok (fst (selectDirectory b p)) = false /\
  isHandleReady (page_world (snd (selectDirectory b p))) = true /\
  fst (getStoredHandle b (snd (selectDirectory b p))) = None.
Proof.
  intros b p.
  destruct (selectDirectory_unpersisted b p sample_directory
              (MkExn "InvalidStateError" "The database is closed") eq_refl eq_refl)
    as (H1 & _ & _ & H2 & _ & H3).
  now repeat split.
Defined.

(** X17.  [verifyPermission] tells whether the handle can be used
    afterwards: its answer is the permission the handle carries when it
    returns; the answer is [true] exactly when permission was granted
    already, or the prompt was allowed and the user granted it; without the
    prompt the user is not asked, whatever the browser would answer, and the
    handle and the world are left as they were; in no case are the name or
    the entries of the directory changed. *)
Theorem verifyPermission_answer (b : Browser) (handle : DirectoryHandle)
    (withPrompt : bool) (w : World) :
  let answer := fst (fst (verifyPermission b handle withPrompt w)) in
  let handle' := snd (fst (verifyPermission b handle withPrompt w)) in
  let w' := snd (verifyPermission b handle withPrompt w) in
  answer = granted handle' /\
  (answer = true <->
   granted handle = true \/ (withPrompt = true /\ requestPermission b = Ok "granted")) /\
  handle_name handle' = handle_name handle /\
  entries handle' = entries handle /\
  (withPrompt = false ->
   verifyPermission b handle withPrompt w = ((granted handle, handle), w)) /\
  localStorage w' = localStorage w /\ rootHandle w' = rootHandle w.
Proof.
  unfold verifyPermission, queryPermission.
  destruct (granted handle) eqn:Hg; cbn [String.eqb Ascii.eqb Bool.eqb fst snd].
  - rewrite Hg. repeat split; auto.
  - destruct withPrompt.
    + destruct (requestPermission b) as [state|e]; cbn [fst snd].
      * destruct (String.eqb_spec state "granted") as [-> | Hne]; cbn [fst snd grant granted].
        -- repeat split; auto. discriminate.
        -- rewrite Hg. repeat split; auto; try discriminate.
           intros [H | [_ H]]; [discriminate | congruence].
      * rewrite Hg. repeat split; auto; try discriminate.
        intros [H | [_ H]]; discriminate.
    + cbn [fst snd]. rewrite Hg. repeat split; auto; try discriminate.
      intros [H | [H _]]; discriminate.
Qed.

(** The lists after [refreshConfigs], when the store can be read. *)
Lemma refreshConfigs_reads (w : World) (st : AppLists) (groups templates : json) :
  getGroups w = Ok groups ->
  getTemplates w = Ok templates ->
  refreshConfigs w st
  = (Ok tt, {| showRestoreStorage := showRestoreStorage st;
               availableGroups := groups; availableTemplates := templates |}).
Proof. intros Hg Ht. unfold refreshConfigs. now rewrite Hg, Ht. Qed.

(** X18.  The application starts from the mirror when it may: when a handle
    is stored whose permission is granted and the root of its directory has
    a file [EXCEL_AI.json] with a JSON document whose [groups] and
    [templates] members are truthy (lists, for one), [initApp] sets the
    stored handle as the root handle and replaces the stored groups and
    templates by those of the document, whatever the storage held; the lists
    of the application are these groups and templates, and the button that
    restores the access is not touched. *)
Theorem initApp_starts_from_mirror (b : Browser) (st : AppLists) (p : Page)
    (handle : DirectoryHandle) (text : string) (doc groups templates : json) :
  indexedDB_error b = None ->
  handles p !! KEY_ROOT = Some handle ->
  granted handle = true ->
  find_file CONFIG_FILENAME (files_of (entries handle)) = Some text ->
  JSON_parse text = Ok doc ->
  member doc "groups" = Some groups ->
  member doc "templates" = Some templates ->
  truthy groups = true ->
  truthy templates = true ->
  exists p',
    initApp b st p
    = ((Ok tt, {| showRestoreStorage := showRestoreStorage st;
                  availableGroups := groups; availableTemplates := templates |}), p') /\
    rootHandle (page_world p') = Some handle /\
    getGroups (page_world p') = Ok groups /\
    getTemplates (page_world p') = Ok templates /\
    handles p' = handles p.
Proof.
  intros Hidb Hh Hg Hfile Hparse Hmg Hmt Htg Htt.
  unfold initApp, getStoredHandle, idb_get. rewrite Hidb, Hh.
  unfold verifyPermission, queryPermission. rewrite Hg.
  cbn [String.eqb Ascii.eqb Bool.eqb].
  assert (Hdoc : truthy doc = true) by (destruct doc; try discriminate Hmg; reflexivity).
  destruct (loadAutoConfig_reads (setRootHandle handle (page_world p)) handle text doc
              eq_refl Hg Hfile Hparse Hdoc) as (w' & Hl & Hg' & Ht' & Hr').
  rewrite Hmg in Hg'. rewrite Hmt in Ht'. cbn [after_import] in Hg', Ht'.
  rewrite Htg in Hg'. rewrite Htt in Ht'.
  rewrite Hl. cbn [snd page_world handles].
  rewrite (refreshConfigs_reads w' st groups templates Hg' Ht').
  eexists. split; [reflexivity |]. now repeat split.
Qed.

Lemma initApp_starts_from_mirror_witness :
  let text := JSON_stringify (JObj [("groups", JArr []);
                                    ("templates", JArr [template_to_json other_template])]) in
  let handle := {| handle_name := "ERP_AI"; granted := true;
                   entries := [("EXCEL_AI.json", FsFile text)] |} in
  let b := {| showDirectoryPicker := None; indexedDB_error := None;
              requestPermission := Ok "denied" |} in
  let st := {| showRestoreStorage := false;
               availableGroups := JArr []; availableTemplates := JArr [] |} in
  let p := {| page_world := sample_world; handles := {[ KEY_ROOT := handle ]} |} in
  exists p',
    initApp b st p
    = ((Ok tt, {| showRestoreStorage := false;
                  availableGroups := JArr [];
                  availableTemplates := JArr [template_to_json other_template] |}), p') /\
    rootHandle (page_world p') = Some handle /\
    getGroups (page_world p') = Ok (JArr []) /\
    getTemplates (page_world p') = Ok (JArr [template_to_json other_template]) /\
    handles p' = handles p.
Proof.
  intros text handle b st p.
  refine (initApp_starts_from_mirror b st p handle text _ _ _ eq_refl _ eq_refl _ _ _ _ _ _).
  - apply lookup_singleton_eq.
  - reflexivity.
  - apply JSON_parse_stringify.
  - reflexivity.
  - reflexivity.
  - reflexivity.
  - reflexivity.
Defined.

Lemma showRestoreStorage_refreshConfigs (w : World) (st : AppLists) :
  showRestoreStorage (snd (refreshConfigs w st)) = showRestoreStorage st.
Proof.
  unfold refreshConfigs. destruct (getGroups w); [|reflexivity].
  destruct (getTemplates w); reflexivity.
Qed.

(** X19.  The application starts without the mirror when it must: when no
    handle is stored, or IndexedDB fails, [initApp] leaves the root handle,
    the storage and the restore button as they were; when a handle is stored
    whose permission is not granted, [initApp] sets it as the root handle all
    the same and shows the restore button, without asking the user and
    without reading the directory or touching the storage.  In both cases
    the lists of the application are those of the storage. *)
Theorem initApp_without_access (b : Browser) (st : AppLists) (p : Page) :
  let st' := snd (fst (initApp b st p)) in
  let p' := snd (initApp b st p) in
  (fst (getStoredHandle b p) = None ->
   rootHandle (page_world p') = rootHandle (page_world p) /\
   localStorage (page_world p') = localStorage (page_world p) /\
   showRestoreStorage st' = showRestoreStorage st /\
   fst (initApp b st p) = refreshConfigs (page_world p) st)
  /\
  (forall handle,
     indexedDB_error b = None ->
     handles p !! KEY_ROOT = Some handle ->
     granted handle = false ->
     p' = on_world (setRootHandle handle) p /\
     showRestoreStorage st' = true /\
     fst (initApp b st p)
     = refreshConfigs (page_world p) (setShowRestoreStorage true st)).
Proof.
  intros st' p'. subst st' p'. unfold initApp. split.
  - destruct (getStoredHandle b p) as [savedHandle p1] eqn:Hs. cbn [fst].
    intros ->. cbn [fst snd]. rewrite showRestoreStorage_refreshConfigs.
    revert Hs. unfold getStoredHandle.
    destruct (idb_get b p); intros Hs; inversion Hs; subst; now repeat split.
  - intros handle Hidb Hh Hg. unfold getStoredHandle, idb_get. rewrite Hidb, Hh.
    unfold verifyPermission, queryPermission. rewrite Hg.
    cbn [String.eqb Ascii.eqb Bool.eqb fst snd page_world].
    rewrite showRestoreStorage_refreshConfigs. now repeat split.
Qed.

(** X20.  Restoring the access: with a handle stored whose permission is
    not granted, [handleRestoreStorageAccess] asks the user.  When the
    answer is not [granted], or the request fails, the alert is
    [permissionDenied] and the state of the application, the root handle and
    the storage stay as they were.  When the user grants the access, the
    handle, now with permission, becomes the root handle; and when the root
    of its directory has a file [EXCEL_AI.json] with a JSON document whose
    [groups] and [templates] members are truthy, these replace the stored
    groups and templates, the lists of the application show them, the
    restore button is hidden and the alert is [accessRestored]. *)
Theorem restore_access (b : Browser) (st : AppLists) (p : Page)
    (handle : DirectoryHandle) :
  indexedDB_error b = None ->
  handles p !! KEY_ROOT = Some handle ->
  granted handle = false ->
  let r := handleRestoreStorageAccess b st p in
  (requestPermission b <> Ok "granted" ->
   fst r = (Some permissionDenied, st) /\
   rootHandle (page_world (snd r)) = rootHandle (page_world p) /\
   localStorage (page_world (snd r)) = localStorage (page_world p))
  /\
  (requestPermission b = Ok "granted" ->
   rootHandle (page_world (snd r)) = Some (grant handle) /\
   forall text doc groups templates,
     find_file CONFIG_FILENAME (files_of (entries handle)) = Some text ->
     JSON_parse text = Ok doc ->
     member doc "groups" = Some groups ->
     member doc "templates" = Some templates ->
     truthy groups = true ->
     truthy templates = true ->
     fst r = (Some accessRestored,
              {| showRestoreStorage := false;
                 availableGroups := groups; availableTemplates := templates |}) /\
     getGroups (page_world (snd r)) = Ok groups /\
     getTemplates (page_world (snd r)) = Ok templates).
Proof.
  intros Hidb Hh Hg r. subst r.
  unfold handleRestoreStorageAccess, getStoredHandle, idb_get. rewrite Hidb, Hh.
  unfold verifyPermission, queryPermission. rewrite Hg.
  cbn [String.eqb Ascii.eqb Bool.eqb]. split.
  - intros Hno. destruct (requestPermission b) as [state|e]; cbn [fst snd page_world].
    + destruct (String.eqb_spec state "granted") as [-> | _]; [congruence |].
      cbn [fst snd page_world]. now repeat split.
    + now repeat split.
  - intros ->. cbn [String.eqb Ascii.eqb Bool.eqb].
    set (w3 := setRootHandle (grant handle) (page_world p)).
    assert (Hroot : rootHandle (snd (loadAutoConfig w3)) = Some (grant handle)).
    { now rewrite rootHandle_loadAutoConfig. }
    split.
    + destruct (refreshConfigs (snd (loadAutoConfig w3)) st) as [[u|e] st1];
        cbn [snd page_world emit rootHandle]; exact Hroot.
    + intros text doc groups templates Hfile Hparse Hmg Hmt Htg Htt.
      assert (Hdoc : truthy doc = true) by (destruct doc; try discriminate Hmg; reflexivity).
      destruct (loadAutoConfig_reads w3 (grant handle) text doc eq_refl eq_refl Hfile
                  Hparse Hdoc) as (w' & Hl & Hg' & Ht' & Hr').
      rewrite Hmg in Hg'. rewrite Hmt in Ht'. cbn [after_import] in Hg', Ht'.
      rewrite Htg in Hg'. rewrite Htt in Ht'.
      rewrite Hl. cbn [snd].
      rewrite (refreshConfigs_reads w' st groups templates Hg' Ht').
      cbn [fst snd page_world setShowRestoreStorage showRestoreStorage
           availableGroups availableTemplates].
      now repeat split.
Qed.

(** The access denied, and the access granted to a directory that holds the
    mirror of the sample store. *)
Lemma restore_access_witness :
  let st := {| showRestoreStorage := true;
               availableGroups := JArr []; availableTemplates := JArr [] |} in
  (let handle := {| handle_name := "ERP_AI"; granted := false; entries := [] |} in
   let b := {| showDirectoryPicker := None; indexedDB_error := None;
               requestPermission := Ok "denied" |} in
   let p := {| page_world := setRootHandle handle sample_world;
               handles := {[ KEY_ROOT := handle ]} |} in
   fst (handleRestoreStorageAccess b st p) = (Some permissionDenied, st) /\
   rootHandle (page_world (snd (handleRestoreStorageAccess b st p))) = Some handle)
  /\
  (let mirror := match rootHandle (snd (syncToDisk synced_world)) with
                 | Some root => entries root
                 | None => []
                 end in
   let handle := {| handle_name := "ERP_AI"; granted := false; entries := mirror |} in
   let b := {| showDirectoryPicker := None; indexedDB_error := None;
               requestPermission := Ok "granted" |} in
   let p := {| page_world := setRootHandle handle fresh_world;
               handles := {[ KEY_ROOT := handle ]} |} in
   fst (handleRestoreStorageAccess b st p)
   = (Some accessRestored,
      {| showRestoreStorage := false;
         availableGroups := JArr [group_to_json sample_group];
         availableTemplates :=
           JArr [template_to_json sample_template; template_to_json other_template] |}) /\
   rootHandle (page_world (snd (handleRestoreStorageAccess b st p)))
   = Some (grant handle)).
Proof.
  intros st. split.
  - intros handle b p.
    destruct (restore_access b st p handle eq_refl (lookup_singleton_eq _ _) eq_refl)
      as (Hdenied & _).
    destruct Hdenied as (H1 & H2 & _); [discriminate |].
    split; [exact H1 | exact H2].
  - intros mirror handle b p.
    destruct (restore_access b st p handle eq_refl (lookup_singleton_eq _ _) eq_refl)
      as (_ & Hgranted).
    destruct (Hgranted eq_refl) as (Hroot & Hdoc).
    split; [|exact Hroot].
    refine (proj1 (Hdoc (default "" (find_file CONFIG_FILENAME (files_of mirror)))
                     (JObj [("groups", JArr [group_to_json sample_group]);
                            ("templates",
                             JArr [template_to_json sample_template;
                                   template_to_json other_template]);
                            ("exportedAt", JStr (now synced_world));
                            ("version", JStr "3.0")])
                     _ _ _ _ _ _ _ _)); vm_compute; reflexivity.
Defined.

(** * The choice of templates and the forms of the configuration manager *)

Lemma includes_id_In (ids : list string) (id : string) :
  includes_id ids id = true <-> In id ids.
Proof.
  unfold includes_id. rewrite existsb_exists. split.
  - intros (x & Hin & He). apply String.eqb_eq in He. now subst.
  - intros Hin. exists id. split; [assumption | apply String.eqb_refl].
Qed.

Lemma filter_sublist_of {A : Type} (f : A -> bool) (l : list A) :
  sublist (List.filter f l) l.
Proof.
  induction l as [|x l IH]; simpl; [constructor |].
  destruct (f x); now constructor.
Qed.

Section unique_records.

Context {R : Type}.
Variable rid : R -> string.

(** The first record with an identifier is the record with it, when the
    identifiers are pairwise distinct. *)
Lemma find_unique (r : R) (rs : list R) :
  In r rs -> NoDup (map rid rs) ->
  List.find (fun x => String.eqb (rid x) (rid r)) rs = Some r.
Proof.
  induction rs as [|x rs IH]; simpl; [tauto |].
  rewrite NoDup_cons. intros Hin [Hx Hd].
  destruct (String.eqb_spec (rid x) (rid r)) as [He | Hne].
  - destruct Hin as [-> | Hin]; [reflexivity |].
    exfalso. apply Hx. rewrite He. apply list_elem_of_In, in_map, Hin.
  - destruct Hin as [-> | Hin]; [contradiction | now apply IH].
Qed.

End unique_records.

(** X21.  The templates of a group, for an analysis of several files: with
    more than one file staged and the identifier of a stored group selected
    (the identifiers of the groups being pairwise distinct),
    [getActiveTemplates] returns exactly the stored templates whose
    identifier is listed in the group, in the order in which they are
    stored, not in the order of the group; an identifier listed in the group
    for which no template is stored is passed over. *)
Theorem getActiveTemplates_of_group (files : list File) (g : AnalysisGroup)
    (groups : list AnalysisGroup) (templates : list AnalysisTemplate) :
  1 < length files ->
  group_id g <> "" ->
  In g groups ->
  NoDup (map group_id groups) ->
  exists active,
    getActiveTemplates (group_id g) files groups templates = Some active /\
    (forall t, In t active <-> In t templates /\ In (template_id t) (templateIds g)) /\
    sublist active templates.
Proof.
  intros Hlen Hid Hin Hnd. unfold getActiveTemplates, truthy_string.
  destruct (String.eqb_spec (group_id g) ""); [contradiction |]. cbn [negb].
  destruct (Nat.ltb_spec 1 (length files)); [|lia].
  rewrite (find_unique group_id g groups Hin Hnd).
  eexists. split; [reflexivity |]. split.
  - intros t. rewrite filter_In, includes_id_In. tauto.
  - apply filter_sublist_of.
Qed.

Lemma getActiveTemplates_of_group_witness :
  exists active,
    getActiveTemplates "g1" [("a.xlsx", "PK"); ("b.xlsx", "PK")]
      [{| group_id := "g1"; group_name := "Close"; group_description := "";
          templateIds := ["t2"; "t7"; "t1"] |}]
      [sample_template; other_template]
    = Some active /\
    (forall t, In t active <->
               In t [sample_template; other_template] /\
               In (template_id t) ["t2"; "t7"; "t1"]) /\
    sublist active [sample_template; other_template].
Proof.
  refine (getActiveTemplates_of_group [("a.xlsx", "PK"); ("b.xlsx", "PK")]
            {| group_id := "g1"; group_name := "Close"; group_description := "";
               templateIds := ["t2"; "t7"; "t1"] |} _ _ _ _ _ _).
  - simpl. lia.
  - discriminate.
  - now left.
  - apply (bool_decide_unpack _); vm_compute; exact I.
Defined.

(** X22.  The context chosen for dropped files: after [handleFilesDropped],
    [getActiveTemplates] on the staged files returns the first stored
    template alone for one file, and the stored templates listed in the first
    stored group for several files, provided the identifier of that first
    record is not empty; it returns [undefined], which makes the analysis run
    with its default instructions, when no file is dropped, when one file
    is dropped and no template is stored, and when several files are dropped
    and no group is stored. *)
Theorem dropped_files_get_default_context (files : list File)
    (groups : list AnalysisGroup) (templates : list AnalysisTemplate) :
  let st := handleFilesDropped files groups templates in
  let active := getActiveTemplates (selectedContextId st) (stagedFiles st) groups templates in
  (forall t rest,
     length files = 1 -> templates = t :: rest -> template_id t <> "" ->
     active = Some [t]) /\
  (forall g rest,
     1 < length files -> groups = g :: rest -> group_id g <> "" ->
     active
     = Some (List.filter (fun t => includes_id (templateIds g) (template_id t)) templates)) /\
  (length files = 1 -> templates = [] -> active = None) /\
  (1 < length files -> groups = [] -> active = None) /\
  (files = [] -> active = None).
Proof.
  intros st active. subst st active.
  unfold handleFilesDropped, getActiveTemplates.
  cbn [selectedContextId stagedFiles]. split; [|split; [|split; [|split]]].
  - intros t rest Hlen -> Hid. rewrite Hlen. cbn [Nat.eqb Nat.ltb Nat.leb length andb].
    unfold truthy_string. destruct (String.eqb_spec (template_id t) ""); [contradiction |].
    cbn [negb List.find]. now rewrite String.eqb_refl.
  - intros g rest Hlen -> Hid.
    destruct (Nat.eqb_spec (length files) 1); [lia |]. cbn [andb].
    destruct (Nat.ltb_spec 1 (length files)); [|lia]. cbn [length Nat.ltb Nat.leb andb].
    unfold truthy_string. destruct (String.eqb_spec (group_id g) ""); [contradiction |].
    cbn [negb List.find]. now rewrite String.eqb_refl.
  - intros Hlen ->. rewrite Hlen. reflexivity.
  - intros Hlen ->.
    destruct (Nat.eqb_spec (length files) 1); [lia |].
    destruct (Nat.ltb_spec 1 (length files)); [|lia]. reflexivity.
  - intros ->. reflexivity.
Qed.

Lemma includes_id_without (ids : list string) (tmplId id : string) :
  includes_id (List.filter (fun x => negb (String.eqb x tmplId)) ids) id
  = includes_id ids id && negb (String.eqb id tmplId).
Proof.
  apply eq_true_iff_eq. rewrite andb_true_iff, !includes_id_In, filter_In.
  cbv beta. tauto.
Qed.

Lemma includes_id_app (ids : list string) (tmplId id : string) :
  includes_id (ids ++ [tmplId]) id = includes_id ids id || String.eqb id tmplId.
Proof.
  unfold includes_id. rewrite existsb_app. simpl. now rewrite orb_false_r.
Qed.

Lemma without_id_absent (ids : list string) (tmplId : string) :
  includes_id ids tmplId = false ->
  List.filter (fun x => negb (String.eqb x tmplId)) (ids ++ [tmplId]) = ids.
Proof.
  intros Hno. rewrite List.filter_app. simpl. rewrite String.eqb_refl. simpl.
  rewrite app_nil_r. induction ids as [|x ids IH]; simpl; [reflexivity |].
  unfold includes_id in Hno. simpl in Hno. apply orb_false_iff in Hno as [Hx Hrest].
  rewrite String.eqb_sym in Hx. rewrite Hx. simpl. f_equal. now apply IH.
Qed.

(** X23.  A click on a template in the form of a group flips its
    membership and nothing else: with a group under edit,
    [toggleGroupTemplate] leaves a group under edit whose list of template
    identifiers contains the identifier clicked exactly when the list did
    not contain it before, and contains every other identifier exactly when
    it did; the identifier, the name and the description under edit are
    unchanged.  An identifier that was not listed goes to the end of the
    list, and a second click gives back the list as it was.  With no group
    under edit nothing happens. *)
Theorem toggleGroupTemplate_flips (tmplId : string) (st : ManagerState) :
  (editGroup st = None -> toggleGroupTemplate tmplId st = st) /\
  (forall edit,
     editGroup st = Some edit ->
     let ids := default [] (edit_templateIds edit) in
     exists ids',
       toggleGroupTemplate tmplId st = setEditGroup (Some (with_templateIds ids' edit)) st /\
       includes_id ids' tmplId = negb (includes_id ids tmplId) /\
       (forall id, id <> tmplId -> includes_id ids' id = includes_id ids id) /\
       (includes_id ids tmplId = false ->
        ids' = ids ++ [tmplId] /\
        toggleGroupTemplate tmplId (toggleGroupTemplate tmplId st)
        = setEditGroup (Some (with_templateIds ids edit)) st)).
Proof.
  split; [unfold toggleGroupTemplate; now intros -> |].
  intros edit He ids. unfold toggleGroupTemplate at 1 2. rewrite He. fold ids.
  destruct (includes_id ids tmplId) eqn:Hin.
  - eexists. split; [reflexivity |]. split; [|split].
    + rewrite includes_id_without, String.eqb_refl. apply andb_false_r.
    + intros id Hne. rewrite includes_id_without.
      destruct (String.eqb_spec id tmplId); [contradiction | apply andb_true_r].
    + discriminate.
  - eexists. split; [reflexivity |]. split; [|split].
    + rewrite includes_id_app, String.eqb_refl. apply orb_true_r.
    + intros id Hne. rewrite includes_id_app.
      destruct (String.eqb_spec id tmplId); [contradiction | apply orb_false_r].
    + intros _. split; [reflexivity |].
      assert (H1 : toggleGroupTemplate tmplId st
                   = setEditGroup (Some (with_templateIds (ids ++ [tmplId]) edit)) st).
      { unfold toggleGroupTemplate. rewrite He. fold ids. now rewrite Hin. }
      rewrite H1. unfold toggleGroupTemplate, setEditGroup, with_templateIds.
      cbn [editGroup edit_templateIds from_option id shown_groups shown_templates editTemplate
           edit_group_id edit_group_name edit_group_description].
      rewrite includes_id_app, String.eqb_refl, orb_true_r.
      now rewrite (without_id_absent ids tmplId Hin).
Qed.

Section kept_properties.

Context {R : Type}.
Variable rid : R -> string.
Variable P : R -> Prop.





End kept_properties.








(** * Further properties of the analysis request *)

Section analysis_extras.

Variable generateContent :
  nat -> GenerateContentParameters -> result GenerateContentResponse.

Variable data : list ExcelDataRow.
Variable language : Language.
Variable userPrompt : option string.
Variable image : option ChatAttachment.
Variable templates : list AnalysisTemplate.

(** X26.  The account of one analysis: whatever the key, the data and the
    hosted model, the analysis only adds events to the log; it sends no
    request without an API key, and one or two requests with one, the
    counter of requests growing by the number of requests logged; an answered
    first request is the only one, and its reply decides the result.  A
    failure is logged exactly once, as the last event, and a success logs no
    error. *)
Theorem analysis_accounting (API_KEY : option string) (history : list ChatMessage)
    (s : Session) :
  let run := analyzeDataWithGemini generateContent API_KEY data language userPrompt image
               history templates s in
  let params := request_of data language userPrompt image history templates in
  exists added,
    events (snd run) = events s ++ added /\
    sent (snd run) = sent s + length (List.filter is_request added) /\
    (if truthy_opt_string API_KEY
     then 1 <= length (List.filter is_request added) <= 2
     else added = [AiError "API_KEY is missing from environment variables."]) /\
    (forall response,
       truthy_opt_string API_KEY = true ->
       generateContent (sent s) params = Ok response ->
       fst run = decode_reply response /\ List.filter is_request added = [AiRequest params]) /\
    (if is_ok (fst run)
     then List.filter is_logged_error added = []
     else exists before message,
         added = before ++ [AiError message] /\
         List.filter is_logged_error before = []).
Proof.
  intros run params. subst run params.
  unfold analyzeDataWithGemini, createAIClient.
  destruct API_KEY as [key|]; cbn [truthy_opt_string];
    [destruct (truthy_string key) eqn:Hk |].
  2,3: (eexists; cbn [fst snd record events sent is_ok];
        split; [reflexivity |]; split; [simpl; lia |]; split; [reflexivity |];
        split; [discriminate |]; eexists [], _; now split).
  unfold performRequest, request_of.
  destruct (generateContent (sent s) _) as [response|err] eqn:H1.
  - cbn [bind]. fold (decode_reply response).
    destruct (decode_reply response) as [v|e] eqn:Hd;
      (eexists; cbn [fst snd record events sent is_ok];
       rewrite <- ?app_assoc; split; [reflexivity |]; simpl;
       split; [lia |]; split; [lia |];
       split; [intros r _ [= <-]; now rewrite ?Hd |]).
    + reflexivity.
    + eexists [AiRequest _], _. now split.
  - destruct (is_network_error err).
    + cbn [record sent events].
      destruct (generateContent (S (sent s)) _) as [response|err2]; cbn [bind].
      * fold (decode_reply response).
        destruct (decode_reply response) as [v|e];
          (eexists; cbn [fst snd record events sent is_ok];
           rewrite <- ?app_assoc; split; [reflexivity |]; simpl;
           split; [lia |]; split; [lia |]; split; [intros r _ [=] |]).
        -- reflexivity.
        -- eexists [AiRequest _; AiWarn _; AiSleep 1000; AiRequest _], _. now split.
      * eexists; cbn [fst snd record events sent is_ok];
          rewrite <- ?app_assoc; split; [reflexivity |]; simpl;
          split; [lia |]; split; [lia |]; split; [intros r _ [=] |].
        eexists [AiRequest _; AiWarn _; AiSleep 1000; AiRequest _], _. now split.
    + eexists; cbn [fst snd record events sent is_ok bind];
        rewrite <- ?app_assoc; split; [reflexivity |]; simpl;
        split; [lia |]; split; [lia |]; split; [intros r _ [=] |].
      eexists [AiRequest _], _. now split.
Qed.

(** X27.  Only the last six messages of the conversation reach the model:
    the analysis with a history that ends with six messages is the analysis
    with these six messages alone, whatever came before them. *)
Theorem history_window (API_KEY : option string) (older recent : list ChatMessage)
    (s : Session) :
  length recent = 6 ->
  analyzeDataWithGemini generateContent API_KEY data language userPrompt image
    (older ++ recent) templates s
  = analyzeDataWithGemini generateContent API_KEY data language userPrompt image
      recent templates s.
Proof.
  intros Hlen.
  assert (Ht : taskPrompt language userPrompt image (older ++ recent)
               = taskPrompt language userPrompt image recent).
  { unfold taskPrompt.
    assert (Hr : recentHistory (older ++ recent) = recentHistory recent).
    { unfold recentHistory. rewrite length_app, Hlen.
      replace (length older + 6 - 6) with (length older) by lia.
      now rewrite skipn_app, skipn_all, Nat.sub_diag. }
    rewrite Hr, length_app, Hlen.
    replace (Nat.eqb (length older + 6) 0) with false
      by (symmetry; apply Nat.eqb_neq; lia).
    destruct recent as [|m recent']; [discriminate |].
    destruct older; reflexivity. }
  unfold analyzeDataWithGemini, parts. now rewrite Ht.
Qed.

End analysis_extras.

Lemma history_window_witness :
  let message n := {| role := "user"; message_content := n; attachment := None |} in
  analyzeDataWithGemini flaky_model (Some "key") sample_rows en_US (Some "Why?") None
    (map message ["0"; "1"; "2"; "3"; "4"; "5"; "6"]) [] fresh_session
  = analyzeDataWithGemini flaky_model (Some "key") sample_rows en_US (Some "Why?") None
      (map message ["1"; "2"; "3"; "4"; "5"; "6"]) [] fresh_session.
Proof.
  intros message.
  exact (history_window flaky_model sample_rows en_US (Some "Why?") None [] (Some "key")
           [message "0"] (map message ["1"; "2"; "3"; "4"; "5"; "6"]) fresh_session eq_refl).
Defined.

(** ** What every request carries *)

Lemma occurs_in_framed (pre needle_head middle needle_tail post s : string) :
  s = (pre +:+ needle_head) +:+ middle +:+ (needle_tail +:+ post) ->
  occurs_in (needle_head +:+ middle +:+ needle_tail) s.
Proof. intros ->. exists pre, post. now rewrite !append_assoc. Qed.

(** A phrase around [middle] is found where a text ends with the head of
    the phrase and the next text starts with its tail. *)
Ltac find_framed :=
  match goal with
  | |- occurs_in (?a +:+ ?m +:+ ?d) (?before +:+ ?m +:+ ?after) =>
      let pre := eval vm_compute in
        (String.substring 0 (String.length before - String.length a) before) in
      let post := eval vm_compute in
        (String.substring (String.length d) (String.length after - String.length d) after) in
      apply (occurs_in_framed pre a m d post); reflexivity
  end.

Ltac seek_framed := first [find_framed | apply occurs_in_app_r; seek_framed].

Lemma occurs_in_join (sep x : string) (xs : list string) :
  In x xs -> occurs_in x (join sep xs).
Proof.
  unfold join. induction xs as [|y xs IH]; [intros [] |].
  intros [-> | Hin].
  - destruct xs; [exists "", ""; simpl; now rewrite append_nil_r | apply occurs_in_here].
  - destruct xs as [|z xs]; [destruct Hin |].
    change (String.concat sep (y :: z :: xs))
      with (y +:+ sep +:+ String.concat sep (z :: xs)).
    now apply occurs_in_app_r, occurs_in_app_r, IH.
Qed.

Section request_contents.

Variable generateContent :
  nat -> GenerateContentParameters -> result GenerateContentResponse.

Variable key : string.
Variable data : list ExcelDataRow.
Variable language : Language.
Variable userPrompt : option string.
Variable image : option ChatAttachment.
Variable history : list ChatMessage.
Variable templates : list AnalysisTemplate.
Variable s : Session.

Lemma roleInstruction_language :
  occurs_in ("Always respond in " +:+ languageName language +:+ ".")
    (roleInstruction language templates).
Proof.
  unfold roleInstruction. destruct templates.
  - seek_framed.
  - seek_framed.
Qed.

Lemma taskPrompt_language :
  occurs_in ("Output STRICTLY in " +:+ languageName language +:+ ".")
    (taskPrompt language userPrompt image history).
Proof.
  unfold taskPrompt.
  destruct (truthy_opt_string userPrompt || negb (Nat.eqb (length history) 0)).
  - apply occurs_in_app_l. seek_framed.
  - seek_framed.
Qed.

(** The request built by the analysis names the language and carries the
    templates. *)
Lemma request_of_language_and_templates :
  let p := request_of data language userPrompt image history templates in
  exists prompt,
    In (TextPart prompt) (contents p) /\
    (forall x, In (TextPart x) (contents p) -> x = prompt) /\
    occurs_in ("Always respond in " +:+ languageName language +:+ ".")
      (config_systemInstruction p) /\
    occurs_in ("Output STRICTLY in " +:+ languageName language +:+ ".") prompt /\
    (forall t, In t templates ->
       occurs_in (systemInstruction t) (config_systemInstruction p) /\
       occurs_in ("[Template: " +:+ template_name t +:+ "]
" +:+ customPrompt t) prompt).
Proof.
  intros p. subst p.
  exists (prompt_of (dataSample data) language userPrompt image history templates).
  unfold request_of, prompt_of. cbn [contents config_systemInstruction].
  split; [unfold parts; destruct image; simpl; auto |].
  split.
  { intros x. unfold parts. destruct image; simpl; intuition congruence. }
  split; [apply roleInstruction_language |].
  split; [apply occurs_in_app_r, taskPrompt_language |].
  intros t Hin. split.
  - unfold roleInstruction. destruct templates as [|t0 ts]; [destruct Hin |].
    apply occurs_in_app_l. unfold combinedInstructions.
    apply occurs_in_join. now apply in_map.
  - apply occurs_in_app_l. unfold baseContext.
    destruct templates as [|t0 ts]; [destruct Hin |].
    apply occurs_in_app_r, occurs_in_app_l. unfold combinedPrompts.
    apply occurs_in_join.
    apply (in_map (fun t => "[Template: " +:+ template_name t +:+ "]
" +:+ customPrompt t) _ _ Hin).
Qed.

(** X28.  What the requests of the analysis carry: an analysis that has an
    API key sends a request, and every request it sends is that one.  The
    request has the model [gemini-2.5-flash], the JSON response type and the
    response schema [analysisSchema]; its system instruction tells the model
    to respond in the language chosen, and its one text part, the prompt, to
    write the output strictly in that language, with or without templates,
    question, image or history; and for every template passed, the system
    instruction contains the system instruction of the template and the
    prompt contains the custom prompt of the template under the heading that
    names it. *)
Theorem request_carries_language_and_templates :
  truthy_string key = true ->
  let run := analyzeDataWithGemini generateContent (Some key) data language userPrompt
               image history templates s in
  exists p rest prompt,
    events (snd run) = events s ++ AiRequest p :: rest /\
    (forall q, In (AiRequest q) rest -> q = p) /\
    model p = "gemini-2.5-flash" /\
    responseMimeType p = "application/json" /\
    responseSchema p = analysisSchema /\
    In (TextPart prompt) (contents p) /\
    (forall x, In (TextPart x) (contents p) -> x = prompt) /\
    occurs_in ("Always respond in " +:+ languageName language +:+ ".")
      (config_systemInstruction p) /\
    occurs_in ("Output STRICTLY in " +:+ languageName language +:+ ".") prompt /\
    (forall t, In t templates ->
       occurs_in (systemInstruction t) (config_systemInstruction p) /\
       occurs_in ("[Template: " +:+ template_name t +:+ "]
" +:+ customPrompt t) prompt).
Proof.
  intros Hk run.
  destruct request_of_language_and_templates as (prompt & Hin & Hone & Hrest).
  set (p := request_of data language userPrompt image history templates) in *.
  assert (Hsent : exists rest,
             events (snd run) = events s ++ AiRequest p :: rest /\
             forall q, In (AiRequest q) rest -> q = p).
  { subst run.
    destruct (generateContent (sent s) p) as [response|err] eqn:H1.
    - rewrite (run_first_reply generateContent key data language userPrompt image
                 history templates s response Hk H1).
      cbn [snd events]. rewrite <- app_assoc. eexists. split; [reflexivity |].
      intros q. unfold closing_events.
      destruct (decode_reply response); simpl; intuition congruence.
    - destruct (is_network_error err) eqn:Hn.
      + rewrite (run_retry generateContent key data language userPrompt image
                   history templates s err Hk H1 Hn).
        cbn [snd events]. rewrite <- app_assoc. eexists. split; [reflexivity |].
        intros q Hq. cbn [app In] in Hq.
        destruct Hq as [Hq | [Hq | [Hq | Hq]]]; try discriminate.
        * now injection Hq as <-.
        * unfold closing_events in Hq. fold p in Hq.
          destruct (let* response := generateContent (S (sent s)) p in decode_reply response);
            simpl in Hq; intuition congruence.
      + rewrite (run_first_error generateContent key data language userPrompt image
                   history templates s err Hk H1 Hn).
        cbn [snd events]. rewrite <- app_assoc. eexists. split; [reflexivity |].
        intros q. simpl. intuition congruence. }
  destruct Hsent as (rest & Hev & Hall).
  exists p, rest, prompt.
  split; [exact Hev |]. split; [exact Hall |].
  split; [reflexivity |]. split; [reflexivity |]. split; [reflexivity |].
  split; [exact Hin |]. split; [exact Hone |]. exact Hrest.
Qed.

End request_contents.

(** An analysis with a template, in Vietnamese: the request that is sent, and
    sent again after the network error. *)
Lemma request_carries_language_and_templates_witness :
  let run := analyzeDataWithGemini flaky_model (Some "key") sample_rows vi_VN None None []
               [sample_template] fresh_session in
  exists p rest prompt,
    events (snd run) = AiRequest p :: rest /\
    In (AiRequest p) rest /\
    (forall q, In (AiRequest q) rest -> q = p) /\
    In (TextPart prompt) (contents p) /\
    occurs_in "Always respond in Vietnamese." (config_systemInstruction p) /\
    occurs_in "Output STRICTLY in Vietnamese." prompt /\
    occurs_in "You are a sales analyst" (config_systemInstruction p) /\
    occurs_in "[Template: Sales]
Rank the customers by amount" prompt.
Proof.
  intros run.
  destruct (request_carries_language_and_templates flaky_model "key" sample_rows vi_VN
              None None [] [sample_template] fresh_session eq_refl)
    as (p & rest & prompt & Hev & Hall & _ & _ & _ & Hin & _ & Hsys & Hout & Ht).
  change (events (snd run) = AiRequest p :: rest) in Hev.
  exists p, rest, prompt.
  split; [exact Hev |].
  split.
  { pose (sent_request := request_of sample_rows vi_VN None None [] [sample_template]).
    assert (H0 : nth_error (events (snd run)) 0 = Some (AiRequest sent_request))
      by (vm_compute; reflexivity).
    assert (H3 : nth_error (events (snd run)) 3 = Some (AiRequest sent_request))
      by (vm_compute; reflexivity).
    rewrite Hev in H0, H3. injection H0 as ->.
    exact (nth_error_In rest 2 H3). }
  split; [exact Hall |]. split; [exact Hin |]. split; [exact Hsys |].
  split; [exact Hout |].
  exact (Ht sample_template (or_introl eq_refl)).
Defined.

(** ** Worked examples *)

Example JSON_parse_with_white_space :
  JSON_parse " [1, -20 ,{ }, [ ], null ] "
  = Ok (JArr [JNum 1; JNum (-20); JObj []; JArr []; JNull]).
Proof. vm_compute. reflexivity. Qed.

Example JSON_parse_rejects_leading_zero : is_ok (JSON_parse "[01]") = false.
Proof. vm_compute. reflexivity. Qed.

Example JSON_parse_rejects_trailing_text : is_ok (JSON_parse "{} x") = false.
Proof. vm_compute. reflexivity. Qed.

Example JSON_stringify_escapes :
  JSON_stringify (JStr (String dquote (String newline "a")))
  = String dquote (String backslash (String dquote (String backslash ("na" +:+ dq)))).
Proof. vm_compute. reflexivity. Qed.

Example load_of_fresh_storage : getTemplates fresh_world = Ok (JArr []).
Proof. reflexivity. Qed.

Example saveTemplate_appends_new_identifier :
  (let* w := saveTemplate sample_template fresh_world in
   let* w' := saveTemplate other_template w in
   getTemplates w')
  = Ok (JArr [template_to_json sample_template; template_to_json other_template]).
Proof. vm_compute. reflexivity. Qed.

Example saveTemplate_replaces_known_identifier :
  (let* w := saveTemplate sample_template_edited sample_world in getTemplates w)
  = Ok (JArr [template_to_json sample_template_edited; template_to_json other_template]).
Proof. vm_compute. reflexivity. Qed.

Example deleteGroup_removes_the_group :
  (let* w := deleteGroup "g1" sample_world in getGroups w) = Ok (JArr []).
Proof. vm_compute. reflexivity. Qed.

Example importConfigData_rejects_null :
  importConfigData JNull sample_world = Throw (Error "Invalid config file").
Proof. reflexivity. Qed.

Example importConfigData_accepts_a_number :
  importConfigData (JNum 42) sample_world = Ok sample_world.
Proof. reflexivity. Qed.

Example handleImportConfig_rejects_broken_text :
  forall onUpdate st,
    fst (handleImportConfig onUpdate "{ groups: " st sample_world) = (false, st) /\
    localStorage (snd (handleImportConfig onUpdate "{ groups: " st sample_world))
    = localStorage sample_world.
Proof. intros onUpdate st. vm_compute. split; reflexivity. Qed.

(** An import into a store whose templates cannot be read: the groups are
    replaced and shown, then the reading of the templates throws, and the
    error alert is shown over the changed store. *)
Example handleImportConfig_error_after_the_import :
  let w := set_localStorage (<[KEYS_TEMPLATES := "[{"]> (localStorage fresh_world))
             fresh_world in
  let st := {| shown_groups := JArr [JNum 7]; shown_templates := JArr [];
               editGroup := None; editTemplate := None |} in
  let r := handleImportConfig None ("{" +:+ quote "groups" +:+ ":[]}") st w in
  fst r = (false, {| shown_groups := JArr []; shown_templates := JArr [];
                     editGroup := None; editTemplate := None |}) /\
  localStorage (snd r) !! KEYS_GROUPS = Some "[]" /\
  localStorage w !! KEYS_GROUPS = None /\
  length (trace (snd r)) = 1%nat.
Proof. vm_compute. repeat split; reflexivity. Qed.

Example loadAutoConfig_reads_back_the_synced_file :
  fst (loadAutoConfig (snd (syncToDisk synced_world))) = true.
Proof. vm_compute. reflexivity. Qed.

Example syncToDisk_without_permission_writes_nothing :
  let locked := {| handle_name := "ERP_AI"; granted := false; entries := [] |} in
  let w := setRootHandle locked sample_world in
  fst (syncToDisk w) = true /\ rootHandle (snd (syncToDisk w)) = Some locked.
Proof. vm_compute. split; reflexivity. Qed.

Example is_network_error_examples :
  is_network_error (Error "Request failed with status 500") = true /\
  is_network_error (Error "TypeError: Failed to fetch") = true /\
  is_network_error (Error "403 Forbidden") = false /\
  is_network_error (Error "") = false.
Proof. vm_compute. repeat split; reflexivity. Qed.

Example toUpperCase_role : toUpperCase "user" = "USER".
Proof. reflexivity. Qed.

Example headers_of_sample_rows : headers (dataSample sample_rows) = "Customer, Amount".
Proof. reflexivity. Qed.

Example dataSample_keeps_forty_rows :
  length (dataSample (repeat [("n", cell_of (JNum 1))] 100)) = 40.
Proof. reflexivity. Qed.

Example stringify_rows_prints_fractions_and_skips_undefined :
  stringify_rows [[("a", cell_of (JNum 1)); ("b", None); ("c", Some "2.5")]; []]
  = "[{" +:+ quote "a" +:+ ":1," +:+ quote "c" +:+ ":2.5},{}]".
Proof. vm_compute. reflexivity. Qed.

Example recentHistory_keeps_six_messages :
  recentHistory
    (map (fun n => {| role := "user"; message_content := n; attachment := None |})
       ["1"; "2"; "3"; "4"; "5"; "6"; "7"])
  = join nl ["USER: 2 "; "USER: 3 "; "USER: 4 "; "USER: 5 "; "USER: 6 "; "USER: 7 "].
Proof. vm_compute. reflexivity. Qed.

Example analysis_without_key_sends_nothing :
  analyzeDataWithGemini flaky_model None sample_rows en_US None None [] [] fresh_session
  = (Throw (Error "API Key is missing. Please ensure process.env.API_KEY is configured."),
     {| sent := 0;
        events := [AiError "API_KEY is missing from environment variables."] |}).
Proof. reflexivity. Qed.
